(** * AF_XDP hardware-abstraction shim: page directory, protection domains,
      VI activation and ring provisioning ([src/lib/efhw/af_xdp.c]).

    The C code is embedded shallowly.  Machine integers are values of [Z]
    with the wrap-around of their C type written out, kernel allocations
    live in a finite map from locations to objects, and every function
    returns either its C result or the fault (failed [BUG_ON], access
    outside an object, ...) that stops the kernel. *)

From Stdlib Require Import ZArith Lia List Bool.
From stdpp Require Import base option list gmap.

Local Open Scope Z_scope.

(** ** C integer types *)

Module C.

(** Two's complement value of the low [w] bits of [x]. *)
Definition wrap_signed (w x : Z) : Z := (x + 2 ^ (w - 1)) mod 2 ^ w - 2 ^ (w - 1).

(** [int] *)
Definition sint (x : Z) : Z := wrap_signed 32 x.
(** [long], [int64_t] *)
Definition slong (x : Z) : Z := wrap_signed 64 x.
(** [unsigned], [uint32_t] *)
Definition uint (x : Z) : Z := x mod 2 ^ 32.
(** [unsigned long], [size_t], [uint64_t], pointers *)
Definition ulong (x : Z) : Z := x mod 2 ^ 64.

End C.

(** ** Constants *)

(** x86-64 (the only configuration in which [sys_bpf] is compiled in). *)
Definition PAGE_SHIFT : Z := 12.
Definition PAGE_SIZE : Z := 4096.
Definition sizeof_ptr : Z := 8.

(** [UMEM_BLOCK]: the page addresses one [struct umem_block] holds. *)
Definition UMEM_BLOCK : Z := PAGE_SIZE / sizeof_ptr.
(** [#define MAX_PDS 256] *)
Definition MAX_PDS : Z := 256.

Definition ENOMEM : Z := 12.
Definition EFAULT : Z := 14.
Definition EBUSY : Z := 16.
Definition ENODEV : Z := 19.
Definition EINVAL : Z := 22.
Definition ENOSPC : Z := 28.

(** ** Outcomes *)

(** What stops the kernel instead of returning. *)
Inductive oops : Set :=
| BUG_ON          (* a [BUG_ON] assertion fired *)
| NULL_DEREF      (* access through [NULL] or [ZERO_SIZE_PTR] *)
| OUT_OF_BOUNDS   (* array element outside the allocated object *)
| WILD_POINTER    (* an uninitialised or dangling pointer was followed *)
| BAD_FREE.       (* [kfree] of memory that is not allocated *)

Inductive outcome (A : Type) : Type :=
| Done (a : A)
| Fault (f : oops).
Arguments Done {A} a.
Arguments Fault {A} f.

#[global] Instance outcome_ret : MRet outcome := @Done.
#[global] Instance outcome_bind : MBind outcome := fun A B f m =>
  match m with
  | Done a => f a
  | Fault e => Fault e
  end.

(** ** Kernel heap *)

Abbreviation loc := nat.

Inductive ptr : Set :=
| NULL
| ZERO_SIZE_PTR
| Ptr (l : loc).

Inductive obj : Type :=
| OPtrs (slots : list (option loc))
    (* [struct umem_block*] array; [None] is a slot never written *)
| OBlock (addrs : list Z)
    (* [struct umem_block]: [UMEM_BLOCK] page addresses *)
| OBtb (handle btb_vaddr : Z).
    (* [struct efhw_buffer_table_block] *)

(** The allocated objects, and for each coming allocation attempt whether
    it succeeds (once the script is used up every attempt succeeds). *)
Record heap : Type := Heap {
  objs : gmap nat obj;
  script : list bool
}.

Definition alloc_attempt (h : heap) : bool * heap :=
  match script h with
  | [] => (true, h)
  | ok :: s => (ok, Heap (objs h) s)
  end.

(** [kzalloc] / [kmalloc] of one object with initial contents [o]. *)
Definition kalloc (o : obj) (h : heap) : option loc * heap :=
  let '(ok, h1) := alloc_attempt h in
  if ok then
    let l := fresh (dom (objs h1)) in
    (Some l, Heap (<[l := o]> (objs h1)) (script h1))
  else (None, h1).

Definition kfree (p : ptr) (h : heap) : outcome heap :=
  match p with
  | NULL | ZERO_SIZE_PTR => Done h
  | Ptr l =>
      match objs h !! l with
      | Some _ => Done (Heap (delete l (objs h)) (script h))
      | None => Fault BAD_FREE
      end
  end.

Definition ptr_slots (p : ptr) (h : heap) : outcome (list (option loc)) :=
  match p with
  | NULL | ZERO_SIZE_PTR => Done []
  | Ptr l =>
      match objs h !! l with
      | Some (OPtrs s) => Done s
      | _ => Fault WILD_POINTER
      end
  end.

(** [krealloc(p, n * sizeof(void* ), GFP_KERNEL)].  A zero size frees [p]
    and yields [ZERO_SIZE_PTR]; an object that is already large enough is
    returned as it is; otherwise the contents move to a new object whose
    further slots are uninitialised, and [p] stays valid on failure. *)
Definition krealloc (p : ptr) (n : Z) (h : heap) : outcome (ptr * heap) :=
  if n =? 0 then
    h1 ← kfree p h; Done (ZERO_SIZE_PTR, h1)
  else
    old ← ptr_slots p h;
    match p with
    | Ptr _ =>
        if n <=? Z.of_nat (length old) then Done (p, h)
        else
          let '(a, h1) := kalloc (OPtrs (old ++ replicate (Z.to_nat n - length old) None)) h in
          match a with
          | None => Done (NULL, h1)
          | Some l => h2 ← kfree p h1; Done (Ptr l, h2)
          end
    | _ =>
        let '(a, h1) := kalloc (OPtrs (replicate (Z.to_nat n) None)) h in
        match a with
        | None => Done (NULL, h1)
        | Some l => Done (Ptr l, h1)
        end
    end.

(** [p[i]] for an array of block pointers. *)
Definition read_slot (h : heap) (p : ptr) (i : Z) : outcome loc :=
  match p with
  | NULL | ZERO_SIZE_PTR => Fault NULL_DEREF
  | Ptr a =>
      match objs h !! a with
      | Some (OPtrs s) =>
          if i <? 0 then Fault OUT_OF_BOUNDS
          else match s !! Z.to_nat i with
               | Some (Some b) => Done b
               | Some None => Fault WILD_POINTER
               | None => Fault OUT_OF_BOUNDS
               end
      | _ => Fault WILD_POINTER
      end
  end.

(** [p[i] = b] *)
Definition write_slot (h : heap) (p : ptr) (i : Z) (b : loc) : outcome heap :=
  match p with
  | NULL | ZERO_SIZE_PTR => Fault NULL_DEREF
  | Ptr a =>
      match objs h !! a with
      | Some (OPtrs s) =>
          if (i <? 0) || (Z.of_nat (length s) <=? i) then Fault OUT_OF_BOUNDS
          else Done (Heap (<[a := OPtrs (<[Z.to_nat i := Some b]> s)]> (objs h)) (script h))
      | _ => Fault WILD_POINTER
      end
  end.

(** ** User memory helper functions *)

(** [struct umem_pages] *)
Record umem_pages : Type := UmemPages {
  page_count : Z;
  block_count : Z;
  used_page_count : Z;
  blocks : ptr
}.

Definition umem_zero : umem_pages := UmemPages 0 0 0 NULL.

Fixpoint umem_pages_free_loop (fuel : nat) (pages : umem_pages) (block : Z) (h : heap)
  : outcome heap :=
  match fuel with
  | O => Done h
  | S fuel' =>
      if block <? block_count pages then
        b ← read_slot h (blocks pages) block;
        h1 ← kfree (Ptr b) h;
        umem_pages_free_loop fuel' pages (C.slong (block + 1)) h1
      else Done h
  end.

(** [umem_pages_free]: the loop runs [block_count] times, which is the fuel. *)
Definition umem_pages_free (h : heap) (pages : umem_pages) : outcome heap :=
  h1 ← umem_pages_free_loop (Z.to_nat (block_count pages)) pages 0 h;
  kfree (blocks pages) h1.

Definition set_block_count (pages : umem_pages) (n : Z) : umem_pages :=
  UmemPages (page_count pages) n (used_page_count pages) (blocks pages).
Definition set_page_count (pages : umem_pages) (n : Z) : umem_pages :=
  UmemPages n (block_count pages) (used_page_count pages) (blocks pages).
Definition set_used_page_count (pages : umem_pages) (n : Z) : umem_pages :=
  UmemPages (page_count pages) (block_count pages) n (blocks pages).
Definition set_blocks (pages : umem_pages) (p : ptr) : umem_pages :=
  UmemPages (page_count pages) (block_count pages) (used_page_count pages) p.

(** The [while] loop of [umem_pages_alloc]; [false] is the early
    [return -ENOMEM]. *)
Fixpoint umem_pages_alloc_loop (fuel : nat) (nblocks : Z) (h : heap) (pages : umem_pages)
  : outcome (bool * heap * umem_pages) :=
  match fuel with
  | O => Done (true, h, pages)
  | S fuel' =>
      if block_count pages <? nblocks then
        let '(alloc, h1) := kalloc (OBlock (replicate (Z.to_nat UMEM_BLOCK) 0)) h in
        match alloc with
        | None => Done (false, h1, pages)
        | Some b =>
            h2 ← write_slot h1 (blocks pages) (block_count pages) b;
            umem_pages_alloc_loop fuel' nblocks h2
              (set_block_count pages (C.slong (block_count pages + 1)))
        end
      else Done (true, h, pages)
  end.

(** [umem_pages_alloc]: returns the C result with the heap and the
    structure as the call leaves them. *)
Definition umem_pages_alloc (h : heap) (pages : umem_pages) (new_pages : Z)
  : outcome (Z * heap * umem_pages) :=
  let nblocks :=
    C.slong (C.ulong (page_count pages + new_pages + UMEM_BLOCK - 1) / UMEM_BLOCK) in
  '(alloc, h1) ← krealloc (blocks pages) nblocks h;
  match alloc with
  | NULL => Done (- ENOMEM, h1, pages)
  | _ =>
      let pages1 := set_blocks pages alloc in
      '(ok, h2, pages2) ←
        umem_pages_alloc_loop (Z.to_nat (nblocks - block_count pages1)) nblocks h1 pages1;
      if ok : bool then
        Done (0, h2, set_page_count pages2 (C.slong (page_count pages2 + new_pages)))
      else Done (- ENOMEM, h2, pages2)
  end.

(** [umem_pages_addr_ptr]: the block and the slot in it; the index is
    divided as an [unsigned long]. *)
Definition umem_pages_addr_ptr (h : heap) (pages : umem_pages) (index : Z)
  : outcome (loc * Z) :=
  b ← read_slot h (blocks pages) (C.ulong index / UMEM_BLOCK);
  Done (b, C.ulong index mod UMEM_BLOCK).

Definition umem_pages_set_addr (h : heap) (pages : umem_pages) (page addr : Z)
  : outcome (heap * umem_pages) :=
  '(b, j) ← umem_pages_addr_ptr h pages page;
  match objs h !! b with
  | Some (OBlock addrs) =>
      if Z.of_nat (length addrs) <=? j then Fault OUT_OF_BOUNDS
      else
        Done (Heap (<[b := OBlock (<[Z.to_nat j := addr]> addrs)]> (objs h)) (script h),
              if page >? used_page_count pages
              then set_used_page_count pages page
              else pages)
  | _ => Fault WILD_POINTER
  end.

Definition umem_pages_get_addr (h : heap) (pages : umem_pages) (page : Z) : outcome Z :=
  '(b, j) ← umem_pages_addr_ptr h pages page;
  match objs h !! b with
  | Some (OBlock addrs) =>
      match addrs !! Z.to_nat j with
      | Some a => Done a
      | None => Fault OUT_OF_BOUNDS
      end
  | _ => Fault WILD_POINTER
  end.

(** ** Fault handler *)

Inductive vm_fault_t : Set :=
| VM_FAULT_SIGSEGV
| VM_FAULT_PAGE (addr : Z).   (* returns 0 with [vmf->page] the page of [addr] *)

(** [fault]: [offset] is [vmf->address - vmf->vma->vm_start]. *)
Definition fault (h : heap) (pages : umem_pages) (offset : Z) : outcome vm_fault_t :=
  let page := C.slong (Z.shiftr (C.ulong offset) PAGE_SHIFT) in
  if page >=? used_page_count pages then Done VM_FAULT_SIGSEGV
  else a ← umem_pages_get_addr h pages page; Done (VM_FAULT_PAGE a).

(** ** NIC state *)

(** [struct efab_af_xdp_offsets_ring] and its containers (64-bit fields). *)
Record efab_af_xdp_offsets_ring : Type := OffsetsRing {
  producer : Z;
  consumer : Z;
  desc : Z
}.

Record efab_af_xdp_offsets_rings : Type := OffsetsRings {
  ring_rx : efab_af_xdp_offsets_ring;
  ring_tx : efab_af_xdp_offsets_ring;
  ring_fr : efab_af_xdp_offsets_ring;
  ring_cr : efab_af_xdp_offsets_ring
}.

Record efab_af_xdp_offsets : Type := Offsets {
  mmap_bytes : Z;
  rings : efab_af_xdp_offsets_rings
}.

Definition ring_zero : efab_af_xdp_offsets_ring := OffsetsRing 0 0 0.
Definition offsets_zero : efab_af_xdp_offsets :=
  Offsets 0 (OffsetsRings ring_zero ring_zero ring_zero ring_zero).

(** [struct efhw_af_xdp_vi].  [sock] is the control handle ([None] for
    [NULL]); [user_offsets_page] is the page holding the user-visible
    offsets block, [None] while it is not allocated. *)
Record efhw_af_xdp_vi : Type := Vi {
  sock : option Z;
  owner_id : Z;
  rxq_capacity : Z;
  txq_capacity : Z;
  flags : Z;
  kernel_offsets : efab_af_xdp_offsets;
  user_offsets_page : option efab_af_xdp_offsets
}.

Definition vi_zero : efhw_af_xdp_vi := Vi None 0 0 0 0 offsets_zero None.

(** [struct protection_domain] *)
Record protection_domain : Type := Pd {
  umem : umem_pages;
  buffer_table_count : Z;
  freed_buffer_table_count : Z
}.

Definition pd_zero : protection_domain := Pd umem_zero 0 0.

(** [struct efhw_nic_af_xdp]: [xdp_vi] has [vi_lim] elements and [xdp_pd]
    has [MAX_PDS] ([af_xdp_nic_init_hardware]). *)
Record efhw_nic_af_xdp : Type := Xdp {
  xdp_map : Z;
  xdp_vi : list efhw_af_xdp_vi;
  xdp_pd : list protection_domain
}.

(** The fields of [struct efhw_nic] this file uses. *)
Record efhw_nic : Type := Nic {
  af_xdp : option efhw_nic_af_xdp;
  vi_lim : Z
}.

(** The state [af_xdp_nic_init_hardware] leaves on success. *)
Definition nic_init (lim map : Z) : efhw_nic :=
  Nic (Some (Xdp map (replicate (Z.to_nat lim) vi_zero)
                     (replicate (Z.to_nat MAX_PDS) pd_zero))) lim.

(** ** VI access functions

    A pointer into the [vi] or [pd] array is the index of its element. *)

(** [vi_lim] is a field of [struct efhw_nic], which is declared outside
    this file: its type is a parameter.  Against an [unsigned] field C
    compares [instance >= nic->vi_lim] on unsigned values. *)
Inductive signedness : Set := Signed | Unsigned.

Definition vi_by_instance (t : signedness) (nic : efhw_nic) (instance : Z) : option Z :=
  match af_xdp nic with
  | None => None
  | Some _ =>
      let i := match t with Signed => instance | Unsigned => C.uint instance end in
      if i >=? vi_lim nic then None else Some instance
  end.

Definition pd_by_owner (nic : efhw_nic) (owner_id : Z) : option Z :=
  match af_xdp nic with
  | None => None
  | Some _ =>
      if (owner_id >? MAX_PDS) || (owner_id <? 0) then None else Some owner_id
  end.

(** Access through such a pointer. *)
Definition array_get {A : Type} (l : list A) (i : Z) : outcome A :=
  if i <? 0 then Fault OUT_OF_BOUNDS
  else match l !! Z.to_nat i with
       | Some x => Done x
       | None => Fault OUT_OF_BOUNDS
       end.

Definition vi_get (nic : efhw_nic) (i : Z) : outcome efhw_af_xdp_vi :=
  match af_xdp nic with
  | None => Fault NULL_DEREF
  | Some xdp => array_get (xdp_vi xdp) i
  end.

Definition pd_get (nic : efhw_nic) (i : Z) : outcome protection_domain :=
  match af_xdp nic with
  | None => Fault NULL_DEREF
  | Some xdp => array_get (xdp_pd xdp) i
  end.

Definition vi_put (nic : efhw_nic) (i : Z) (v : efhw_af_xdp_vi) : efhw_nic :=
  match af_xdp nic with
  | None => nic
  | Some xdp =>
      Nic (Some (Xdp (xdp_map xdp) (<[Z.to_nat i := v]> (xdp_vi xdp)) (xdp_pd xdp)))
          (vi_lim nic)
  end.

Definition pd_put (nic : efhw_nic) (i : Z) (d : protection_domain) : efhw_nic :=
  match af_xdp nic with
  | None => nic
  | Some xdp =>
      Nic (Some (Xdp (xdp_map xdp) (xdp_vi xdp) (<[Z.to_nat i := d]> (xdp_pd xdp))))
          (vi_lim nic)
  end.

(** [af_xdp_mem]: the VI whose [kernel_offsets] block the result points to. *)
Definition af_xdp_mem (t : signedness) (nic : efhw_nic) (instance : Z) : option Z :=
  match vi_by_instance t nic instance with
  | Some i => Some i
  | None => None
  end.

(** ** Protection domains and the buffer table *)

(** [xdp_release_pd] *)
Definition xdp_release_pd (h : heap) (nic : efhw_nic) (owner : Z)
  : outcome (heap * efhw_nic) :=
  match pd_by_owner nic owner with
  | None => Fault BUG_ON
  | Some i =>
      d ← pd_get nic i;
      if freed_buffer_table_count d >=? buffer_table_count d then Fault BUG_ON
      else
        let freed := C.slong (freed_buffer_table_count d + 1) in
        if negb (freed =? buffer_table_count d) then
          Done (h, pd_put nic i (Pd (umem d) (buffer_table_count d) freed))
        else
          h1 ← umem_pages_free h (umem d);
          Done (h1, pd_put nic i pd_zero)
  end.

(** [struct efhw_buffer_table_block] is declared outside this file:
    [btb_hw.ef10.handle] is taken as a 32-bit unsigned field and
    [btb_vaddr] as a 64-bit unsigned one. *)
Definition btb_get (h : heap) (block : loc) : outcome (Z * Z) :=
  match objs h !! block with
  | Some (OBtb handle vaddr) => Done (handle, vaddr)
  | _ => Fault WILD_POINTER
  end.

Section BufferTable.

(** [EFHW_BUFFER_TABLE_BLOCK_SIZE], an [int] constant of a header that
    is not part of this file. *)
Variable EFHW_BUFFER_TABLE_BLOCK_SIZE : Z.

(** [af_xdp_nic_buffer_table_alloc]: the C result, [*block_out] when it
    is written, and the heap and NIC the call leaves. *)
Definition af_xdp_nic_buffer_table_alloc
  (h : heap) (nic : efhw_nic) (owner order : Z)
  : outcome (Z * option loc * heap * efhw_nic) :=
  match pd_by_owner nic owner with
  | None => Done (- ENODEV, None, h, nic)
  | Some i =>
      if owner >=? C.sint (Z.shiftl 1 24) then Done (- ENOSPC, None, h, nic)
      else
        let '(alloc, h1) := kalloc (OBtb 0 0) h in
        match alloc with
        | None => Done (- ENOMEM, None, h1, nic)
        | Some block =>
            d ← pd_get nic i;
            let handle := C.uint (Z.lor order (C.sint (Z.shiftl owner 8))) in
            let vaddr := C.ulong (Z.shiftl (page_count (umem d)) PAGE_SHIFT) in
            let h2 := Heap (<[block := OBtb handle vaddr]> (objs h1)) (script h1) in
            '(rc, h3, u) ← umem_pages_alloc h2 (umem d)
                             (C.sint (Z.shiftl EFHW_BUFFER_TABLE_BLOCK_SIZE order));
            if rc <? 0 then
              h4 ← kfree (Ptr block) h3;
              Done (rc, None, h4,
                    pd_put nic i
                      (Pd u (buffer_table_count d) (freed_buffer_table_count d)))
            else
              Done (0, Some block, h3,
                    pd_put nic i
                      (Pd u (C.slong (buffer_table_count d + 1))
                          (freed_buffer_table_count d)))
        end
  end.

End BufferTable.

(** [af_xdp_nic_buffer_table_free] *)
Definition af_xdp_nic_buffer_table_free (h : heap) (nic : efhw_nic) (block : loc)
  : outcome (heap * efhw_nic) :=
  '(handle, _) ← btb_get h block;
  let owner := C.sint (Z.shiftr handle 8) in
  h1 ← kfree (Ptr block) h;
  xdp_release_pd h1 nic owner.

(** The inner loop of [af_xdp_nic_buffer_table_set]: [j] counts up to
    [1 << order], storing one page address per step. *)
Fixpoint buffer_table_set_pages (fuel : nat) (lim j : Z)
  (h : heap) (pages : umem_pages) (page dma_addr : Z)
  : outcome (heap * umem_pages * Z) :=
  match fuel with
  | O => Done (h, pages, page)
  | S fuel' =>
      if j <? lim then
        '(h1, pages1) ← umem_pages_set_addr h pages page dma_addr;
        buffer_table_set_pages fuel' lim (C.sint (j + 1)) h1 pages1
          (C.slong (page + 1)) (C.ulong (dma_addr + PAGE_SIZE))
      else Done (h, pages, page)
  end.

(** The outer loop: one entry of [dma_addrs] per step. *)
Fixpoint buffer_table_set_entries (fuel : nat) (n_entries order i : Z)
  (dma_addrs : list Z) (h : heap) (pages : umem_pages) (page : Z)
  : outcome (heap * umem_pages * Z) :=
  match fuel with
  | O => Done (h, pages, page)
  | S fuel' =>
      if i <? n_entries then
        dma_addr ← array_get dma_addrs i;
        let lim := C.sint (Z.shiftl 1 order) in
        '(h1, pages1, page1) ←
          buffer_table_set_pages (Z.to_nat lim) lim 0 h pages page dma_addr;
        buffer_table_set_entries fuel' n_entries order (C.sint (i + 1))
          dma_addrs h1 pages1 page1
      else Done (h, pages, page)
  end.

(** [af_xdp_nic_buffer_table_set] *)
Definition af_xdp_nic_buffer_table_set
  (h : heap) (nic : efhw_nic) (block : loc)
  (first_entry n_entries : Z) (dma_addrs : list Z)
  : outcome (Z * heap * efhw_nic) :=
  '(handle, vaddr) ← btb_get h block;
  let owner := C.sint (Z.shiftr handle 8) in
  let order := C.sint (Z.land handle 255) in
  match pd_by_owner nic owner with
  | None => Done (- ENODEV, h, nic)
  | Some i =>
      d ← pd_get nic i;
      let page :=
        C.slong (C.ulong (Z.shiftr vaddr PAGE_SHIFT
                          + C.sint (Z.shiftl first_entry order))) in
      if C.slong (page + C.sint (Z.shiftl n_entries order)) >? page_count (umem d)
      then Done (- EINVAL, h, nic)
      else
        '(h1, u, _) ←
          buffer_table_set_entries (Z.to_nat n_entries) n_entries order 0
            dma_addrs h (umem d) page;
        Done (0, h1,
              pd_put nic i (Pd u (buffer_table_count d) (freed_buffer_table_count d)))
  end.

(** ** Page map *)

(** Modelled from the spec: [struct efhw_page_map] and its functions
    [efhw_page_map_add_page], [efhw_page_map_add_lump] and
    [efhw_page_map_bytes] live in a header outside this file.  A page map
    is the sequence of contiguous page runs (lumps) appended to it and
    their total page count; its byte size is that count in bytes.  The
    caller tests the result of an append, so whether one fails is left to
    the environment ([rc < 0]: nothing is appended). *)
Record efhw_page_map : Type := PageMap {
  n_pages : Z;
  lumps : list (Z * Z)
}.

Definition efhw_page_map_add_lump (rc : Z) (map : efhw_page_map) (base n : Z)
  : Z * efhw_page_map :=
  if rc <? 0 then (rc, map)
  else (0, PageMap (n_pages map + n) (lumps map ++ [(base, n)])).

Definition efhw_page_map_add_page (rc : Z) (map : efhw_page_map) (page : Z)
  : Z * efhw_page_map :=
  efhw_page_map_add_lump rc map page 1.

Definition efhw_page_map_bytes (map : efhw_page_map) : Z :=
  C.slong (Z.shiftl (n_pages map) PAGE_SHIFT).

(** ** The kernel facility *)

(** Calls into the kernel, in the order they are made. *)
Inductive event : Set :=
| SockCreate
| SockAllocFile
| PageAllocZeroed
| PageMapAdd
| VmMmap (len : Z)
| FindVma
| FollowPfn
| VmMunmap (len : Z)
| Setsockopt
| Getsockopt
| MapUpdate
| Bind.

(** [struct xdp_ring_offset] and [struct xdp_mmap_offsets] of
    [linux/if_xdp.h] (64-bit unsigned fields). *)
Record xdp_ring_offset : Type := RingOffset {
  xro_producer : Z;
  xro_consumer : Z;
  xro_desc : Z
}.

Record xdp_mmap_offsets : Type := MmapOffsets {
  mo_rx : xdp_ring_offset;
  mo_tx : xdp_ring_offset;
  mo_fr : xdp_ring_offset;
  mo_cr : xdp_ring_offset
}.

(** What the kernel answers while one ring is created. *)
Record ring_env : Type := RingEnv {
  re_setsockopt : Z;               (* result of [kernel_setsockopt] *)
  re_vm_mmap : Z;                  (* result of [vm_mmap] *)
  re_find_vma : option (Z * Z);    (* [vm_start], [vm_end] of the area found *)
  re_follow_pfn : Z * Z;           (* result of [follow_pfn] and the frame *)
  re_add_lump : Z                  (* result of [efhw_page_map_add_lump] *)
}.

(** What the kernel answers during one activation. *)
Record init_env : Type := InitEnv {
  e_sock_create : Z * Z;           (* result of [__sock_create], the socket *)
  e_sock_alloc_file : Z;           (* the file, or an [ERR_PTR] *)
  e_page_alloc : Z * Z;            (* result of [efhw_page_alloc_zeroed], the page *)
  e_add_page : Z;                  (* result of [efhw_page_map_add_page] *)
  e_umem_mmap : Z;                 (* result of [vm_mmap] in [xdp_register_umem] *)
  e_umem_vma : option Z;           (* [vm_start] of the area found there *)
  e_umem_reg : Z;                  (* result of the [XDP_UMEM_REG] option *)
  e_getsockopt : Z * xdp_mmap_offsets;
  e_rx : ring_env;
  e_tx : ring_env;
  e_fr : ring_env;
  e_cr : ring_env;
  e_map_update : Z;                (* result of [xdp_map_update] *)
  e_bind : Z;                      (* result of [xdp_bind] *)
  e_page_offset : Z;               (* [phys_to_virt (0)] *)
  e_kern_mem_base : Z              (* address of the VI's [kernel_offsets] *)
}.

Definition IS_ERR_VALUE (x : Z) : bool := C.ulong x >=? C.ulong (- 4095).
Definition offset_in_page (x : Z) : Z := Z.land (C.ulong x) (PAGE_SIZE - 1).

(** ** BPF/XDP helper functions *)

(** [xdp_register_umem]: the C result and the calls made. *)
Definition xdp_register_umem (e : init_env) (pages : umem_pages)
  (chunk_size headroom : Z) : outcome Z * list event :=
  let len := C.ulong (Z.shiftl (used_page_count pages) PAGE_SHIFT) in
  let addr := C.ulong (e_umem_mmap e) in
  if negb (offset_in_page addr =? 0) then (Done (C.sint addr), [VmMmap len])
  else
    match e_umem_vma e with
    | None => (Fault BUG_ON, [VmMmap len; FindVma])
    | Some vm_start =>
        if negb (vm_start =? addr) then (Fault BUG_ON, [VmMmap len; FindVma])
        else (Done (e_umem_reg e), [VmMmap len; FindVma; Setsockopt; VmMunmap len])
    end.

Definition offsets_at (base : Z) (o : xdp_ring_offset) : efab_af_xdp_offsets_ring :=
  OffsetsRing (C.slong (base + xro_producer o))
              (C.slong (base + xro_consumer o))
              (C.slong (base + xro_desc o)).

(** [xdp_create_ring]: the C result, the page map, the kernel and user
    offsets of the ring as the call leaves them, and the calls made. *)
Definition xdp_create_ring (e : ring_env) (page_offset : Z)
  (page_map : efhw_page_map) (kern_mem_base capacity desc_size : Z)
  (xdp_offset : xdp_ring_offset)
  (kern_offset user_offset : efab_af_xdp_offsets_ring)
  : Z * efhw_page_map * efab_af_xdp_offsets_ring * efab_af_xdp_offsets_ring
    * list event :=
  let user_base := C.slong (Z.shiftl (n_pages page_map) PAGE_SHIFT) in
  let rc := re_setsockopt e in
  if rc <? 0 then (rc, page_map, kern_offset, user_offset, [Setsockopt])
  else
    let map_size :=
      C.ulong (xro_desc xdp_offset + C.sint (C.sint (capacity + 1) * desc_size)) in
    let addr := C.ulong (re_vm_mmap e) in
    if IS_ERR_VALUE addr then
      (C.sint addr, page_map, kern_offset, user_offset, [Setsockopt; VmMmap map_size])
    else
      let '(rc1, pfn, pages, tr1) :=
        match re_find_vma e with
        | None => (- EFAULT, 0, 0, [FindVma])
        | Some (vm_start, vm_end) =>
            (fst (re_follow_pfn e), snd (re_follow_pfn e),
             Z.shiftr (C.ulong (vm_end - vm_start)) PAGE_SHIFT,
             [FindVma; FollowPfn])
        end in
      let ring_base := C.ulong (page_offset + C.ulong (Z.shiftl pfn PAGE_SHIFT)) in
      let '(rc2, page_map2, tr2) :=
        if rc1 >=? 0 then
          let '(r, m) := efhw_page_map_add_lump (re_add_lump e) page_map ring_base pages in
          (r, m, [PageMapAdd])
        else (rc1, page_map, []) in
      let tr := [Setsockopt; VmMmap map_size] ++ tr1 ++ tr2 ++ [VmMunmap map_size] in
      if rc2 <? 0 then (rc2, page_map2, kern_offset, user_offset, tr)
      else
        let kern_base := C.slong (ring_base - kern_mem_base) in
        (0, page_map2, offsets_at kern_base xdp_offset,
         offsets_at user_base xdp_offset, tr).

Definition sizeof_xdp_desc : Z := 16.
Definition sizeof_uint64 : Z := 8.

(** [xdp_create_rings] *)
Definition xdp_create_rings (e : init_env)
  (page_map : efhw_page_map) (kern_mem_base rxq_capacity txq_capacity : Z)
  (kern_offsets user_offsets : efab_af_xdp_offsets_rings)
  : Z * efhw_page_map * efab_af_xdp_offsets_rings * efab_af_xdp_offsets_rings
    * list event :=
  let '(rc, mmap_offsets) := e_getsockopt e in
  if rc <? 0 then (rc, page_map, kern_offsets, user_offsets, [Getsockopt])
  else
    let '(rc, pm1, k_rx, u_rx, t1) :=
      xdp_create_ring (e_rx e) (e_page_offset e) page_map kern_mem_base
        (C.sint rxq_capacity) sizeof_xdp_desc (mo_rx mmap_offsets)
        (ring_rx kern_offsets) (ring_rx user_offsets) in
    let k1 := OffsetsRings k_rx (ring_tx kern_offsets) (ring_fr kern_offsets)
                (ring_cr kern_offsets) in
    let u1 := OffsetsRings u_rx (ring_tx user_offsets) (ring_fr user_offsets)
                (ring_cr user_offsets) in
    if rc <? 0 then (rc, pm1, k1, u1, Getsockopt :: t1)
    else
      let '(rc, pm2, k_tx, u_tx, t2) :=
        xdp_create_ring (e_tx e) (e_page_offset e) pm1 kern_mem_base
          (C.sint txq_capacity) sizeof_xdp_desc (mo_tx mmap_offsets)
          (ring_tx k1) (ring_tx u1) in
      let k2 := OffsetsRings (ring_rx k1) k_tx (ring_fr k1) (ring_cr k1) in
      let u2 := OffsetsRings (ring_rx u1) u_tx (ring_fr u1) (ring_cr u1) in
      if rc <? 0 then (rc, pm2, k2, u2, Getsockopt :: t1 ++ t2)
      else
        let '(rc, pm3, k_fr, u_fr, t3) :=
          xdp_create_ring (e_fr e) (e_page_offset e) pm2 kern_mem_base
            (C.sint rxq_capacity) sizeof_uint64 (mo_fr mmap_offsets)
            (ring_fr k2) (ring_fr u2) in
        let k3 := OffsetsRings (ring_rx k2) (ring_tx k2) k_fr (ring_cr k2) in
        let u3 := OffsetsRings (ring_rx u2) (ring_tx u2) u_fr (ring_cr u2) in
        if rc <? 0 then (rc, pm3, k3, u3, Getsockopt :: t1 ++ t2 ++ t3)
        else
          let '(rc, pm4, k_cr, u_cr, t4) :=
            xdp_create_ring (e_cr e) (e_page_offset e) pm3 kern_mem_base
              (C.sint txq_capacity) sizeof_uint64 (mo_cr mmap_offsets)
              (ring_cr k3) (ring_cr u3) in
          let k4 := OffsetsRings (ring_rx k3) (ring_tx k3) (ring_fr k3) k_cr in
          let u4 := OffsetsRings (ring_rx u3) (ring_tx u3) (ring_fr u3) u_cr in
          if rc <? 0 then (rc, pm4, k4, u4, Getsockopt :: t1 ++ t2 ++ t3 ++ t4)
          else (0, pm4, k4, u4, Getsockopt :: t1 ++ t2 ++ t3 ++ t4).

(** ** Public AF_XDP interface *)

(** How a call of [af_xdp_init] ends, and what it leaves behind. *)
Inductive ret : Set :=
| Rc (rc : Z)
| Oops (f : oops).

Record init_state : Type := InitState {
  is_nic : efhw_nic;
  is_page_map : efhw_page_map;
  is_sock_out : option Z;
  is_trace : list event
}.

Definition vi_set_sock (v : efhw_af_xdp_vi) (s : option Z) : efhw_af_xdp_vi :=
  Vi s (owner_id v) (rxq_capacity v) (txq_capacity v) (flags v)
     (kernel_offsets v) (user_offsets_page v).
Definition vi_set_user_page (v : efhw_af_xdp_vi) (p : option efab_af_xdp_offsets)
  : efhw_af_xdp_vi :=
  Vi (sock v) (owner_id v) (rxq_capacity v) (txq_capacity v) (flags v)
     (kernel_offsets v) p.
Definition vi_set_kernel_rings (v : efhw_af_xdp_vi) (r : efab_af_xdp_offsets_rings)
  : efhw_af_xdp_vi :=
  Vi (sock v) (owner_id v) (rxq_capacity v) (txq_capacity v) (flags v)
     (Offsets (mmap_bytes (kernel_offsets v)) r) (user_offsets_page v).

(** [af_xdp_init] from [__sock_create] on: [vi] points to the VI [v] and
    [pd] is the result of [pd_by_owner]. *)
Definition af_xdp_init_resources (e : init_env) (nic : efhw_nic)
  (instance vi : Z) (v : efhw_af_xdp_vi) (pd : option Z)
  (chunk_size headroom : Z) (page_map : efhw_page_map) : ret * init_state :=
  let '(rc, sk) := e_sock_create e in
  let t1 := [SockCreate] in
  if rc <? 0 then (Rc rc, InitState nic page_map None t1)
  else
    let t2 := t1 ++ [SockAllocFile] in
    let file := C.ulong (e_sock_alloc_file e) in
    if IS_ERR_VALUE file then (Rc (C.sint (C.slong file)), InitState nic page_map None t2)
    else
        let v1 := vi_set_sock v (Some file) in
        let t3 := t2 ++ [PageAllocZeroed] in
        let '(rc, page) := e_page_alloc e in
        if rc <? 0 then (Rc rc, InitState (vi_put nic vi v1) page_map None t3)
        else
          let v2 := vi_set_user_page v1 (Some offsets_zero) in
          let user_offsets := offsets_zero in
          let '(rc, pm1) := efhw_page_map_add_page (e_add_page e) page_map page in
          let t4 := t3 ++ [PageMapAdd] in
          if rc <? 0 then (Rc rc, InitState (vi_put nic vi v2) pm1 None t4)
          else
            match
              match pd with
              | None => Fault NULL_DEREF
              | Some i => d ← pd_get nic i; Done (umem d)
              end
            with
            | Fault f => (Oops f, InitState (vi_put nic vi v2) pm1 None t4)
            | Done pages =>
                let '(r, tu) := xdp_register_umem e pages chunk_size headroom in
                let t5 := t4 ++ tu in
                match r with
                | Fault f => (Oops f, InitState (vi_put nic vi v2) pm1 None t5)
                | Done rc =>
                    if rc <? 0 then (Rc rc, InitState (vi_put nic vi v2) pm1 None t5)
                    else
                      let '(rc, pm2, k, u, tr) :=
                        xdp_create_rings e pm1 (e_kern_mem_base e)
                          (rxq_capacity v2) (txq_capacity v2)
                          (rings (kernel_offsets v2)) (rings user_offsets) in
                      let t6 := t5 ++ tr in
                      let v3 :=
                        vi_set_user_page (vi_set_kernel_rings v2 k)
                          (Some (Offsets (mmap_bytes user_offsets) u)) in
                      if rc <? 0 then (Rc rc, InitState (vi_put nic vi v3) pm2 None t6)
                      else
                        let t7 := t6 ++ [MapUpdate] in
                        let rc := e_map_update e in
                        if rc <? 0 then (Rc rc, InitState (vi_put nic vi v3) pm2 None t7)
                        else
                          let t8 := t7 ++ [Bind] in
                          let rc := e_bind e in
                          if rc <? 0 then
                            (Rc rc, InitState (vi_put nic vi v3) pm2 None t8)
                          else
                            let v4 :=
                              vi_set_user_page v3
                                (Some (Offsets (efhw_page_map_bytes pm2) u)) in
                            (Rc 0, InitState (vi_put nic vi v4) pm2 (Some sk) t8)
                end
            end.

(** [af_xdp_init] *)
Definition af_xdp_init (t : signedness) (e : init_env) (nic : efhw_nic)
  (instance chunk_size headroom : Z) (page_map : efhw_page_map)
  : ret * init_state :=
  let untouched := InitState nic page_map None [] in
  if (chunk_size =? 0)
     || (chunk_size <? headroom)
     || (C.ulong chunk_size >? PAGE_SIZE)
     || negb (PAGE_SIZE mod C.ulong chunk_size =? 0)
  then (Rc (- EINVAL), untouched)
  else
    let vi := vi_by_instance t nic instance in
    match vi with
    | None => (Rc (- ENODEV), untouched)
    | Some i =>
        match vi_get nic i with
        | Fault f => (Oops f, untouched)
        | Done v =>
            match sock v with
            | Some _ => (Rc (- EBUSY), untouched)
            | None =>
                let pd := pd_by_owner nic (owner_id v) in
                match vi with
                | None => (Rc (- EINVAL), untouched)
                | Some _ =>
                    af_xdp_init_resources e nic instance i v pd
                      chunk_size headroom page_map
                end
            end
        end
    end.

Definition heap0 : heap := Heap ∅ [].

(** ** What a page directory owns *)

Definition is_block (h : heap) (b : loc) : Prop :=
  exists addrs, objs h !! b = Some (OBlock addrs) /\ length addrs = Z.to_nat UMEM_BLOCK.

Definition ptr_locs (p : ptr) : list loc :=
  match p with
  | Ptr a => [a]
  | _ => []
  end.

(** [bs] are the blocks counted by [block_count]: they fill the first
    slots of the pointer array, and the array and the blocks are distinct
    live objects. *)
Record umem_tracks (h : heap) (u : umem_pages) (bs : list loc) : Prop := {
  tr_count : block_count u = Z.of_nat (length bs);
  tr_long : block_count u < 2 ^ 63;
  tr_slots : exists rest, ptr_slots (blocks u) h = Done ((Some <$> bs) ++ rest);
  tr_nodup : NoDup (ptr_locs (blocks u) ++ bs);
  tr_live : Forall (is_block h) bs
}.

Definition owned (u : umem_pages) (bs : list loc) : list loc :=
  ptr_locs (blocks u) ++ bs.

(** The heap outside a set of locations. *)
Definition outside (ls : list loc) (h : heap) (l : loc) : option obj :=
  if decide (l ∈ ls) then None else objs h !! l.

(** The number of blocks [umem_pages_alloc] asks for. *)
Definition alloc_blocks (u : umem_pages) (new_pages : Z) : Z :=
  C.slong (C.ulong (page_count u + new_pages + UMEM_BLOCK - 1) / UMEM_BLOCK).

(** What holds once [umem_pages_alloc] has returned. *)
Definition alloc_post (h : heap) (u : umem_pages) (bs : list loc) (new_pages : Z)
  (rc : Z) (h' : heap) (u' : umem_pages) (new : list loc) : Prop :=
  used_page_count u' = used_page_count u
  /\ ((rc = - ENOMEM
       /\ page_count u' = page_count u
       /\ umem_tracks h' u' (bs ++ new)
       /\ forall l, outside (owned u' (bs ++ new)) h' l = outside (owned u bs) h l)
      \/ (rc = 0
          /\ page_count u' = C.slong (page_count u + new_pages)
          /\ (alloc_blocks u new_pages <> 0 ->
              umem_tracks h' u' (bs ++ new)
              /\ (forall l, outside (owned u' (bs ++ new)) h' l = outside (owned u bs) h l)
              /\ alloc_blocks u new_pages <= block_count u'))).

(** Bytes of a number of pages, as [xdp_create_ring] and
    [efhw_page_map_bytes] compute them. *)
Definition pages_to_bytes (n : Z) : Z := C.slong (Z.shiftl n PAGE_SHIFT).

(** The pages of the area the kernel mapped for a ring. *)
Definition ring_pages (e : ring_env) : Z :=
  match re_find_vma e with
  | Some (vm_start, vm_end) => Z.shiftr (C.ulong (vm_end - vm_start)) PAGE_SHIFT
  | None => 0
  end.

(** The handle of a block holds the order in its low byte and the owner
    above it. *)
Definition btb_handle (owner order : Z) : Z :=
  C.uint (Z.lor order (C.sint (Z.shiftl owner 8))).

(** The calls of the buffer table that change a PD. *)
Inductive bt_call : Set :=
| BtAlloc (owner order : Z)
| BtFree (block : loc).

Definition bt_step (BS : Z) (c : bt_call) (st : heap * efhw_nic)
  : outcome (heap * efhw_nic) :=
  match c with
  | BtAlloc owner order =>
      '(_, _, h', nic') ← af_xdp_nic_buffer_table_alloc BS (fst st) (snd st) owner order;
      Done (h', nic')
  | BtFree block => af_xdp_nic_buffer_table_free (fst st) (snd st) block
  end.

Fixpoint bt_run (BS : Z) (cs : list bt_call) (st : heap * efhw_nic)
  : outcome (heap * efhw_nic) :=
  match cs with
  | [] => Done st
  | c :: cs' => st' ← bt_step BS c st; bt_run BS cs' st'
  end.

(** The counts of a PD after at most [n] calls. *)
Definition pd_counts (n : Z) (d : protection_domain) : Prop :=
  0 <= freed_buffer_table_count d
  /\ buffer_table_count d <= n
  /\ (freed_buffer_table_count d < buffer_table_count d
      \/ (freed_buffer_table_count d = 0 /\ buffer_table_count d = 0)).

Definition nic_counts (n : Z) (nic : efhw_nic) : Prop :=
  forall i d, pd_get nic i = Done d -> pd_counts n d.

(** ** Sample inputs *)

Definition env0 : init_env :=
  InitEnv (0, 7) 4096 (0, 8192) 0 0 (Some 0) 0
    (0, MmapOffsets (RingOffset 0 64 128) (RingOffset 0 64 128)
                    (RingOffset 0 64 128) (RingOffset 0 64 128))
    (RingEnv 0 4096 (Some (4096, 12288)) (0, 16) 0)
    (RingEnv 0 4096 (Some (4096, 12288)) (0, 32) 0)
    (RingEnv 0 4096 (Some (4096, 8192)) (0, 48) 0)
    (RingEnv 0 4096 (Some (4096, 8192)) (0, 64) 0)
    0 0 0 0.

(** VI 0 of a NIC with two VIs is configured for owner 300, beyond the
    PD array. *)
Definition nic_owner_300 : efhw_nic :=
  vi_put (nic_init 2 0) 0 (Vi None 300 128 128 0 offsets_zero None).

(** VI 0 of a NIC with two VIs holds a socket. *)
Definition nic_busy : efhw_nic :=
  vi_put (nic_init 2 0) 0 (Vi (Some 7) 5 128 128 0 offsets_zero None).

(** Owner 5 of a fresh NIC after one block of order 2. *)
Definition example_alloc : outcome (Z * option loc * heap * efhw_nic) :=
  af_xdp_nic_buffer_table_alloc 32 heap0 (nic_init 4 0) 5 2.

Definition example_heap : heap :=
  match example_alloc with
  | Done (_, _, h, _) => h
  | Fault _ => heap0
  end.

Definition example_nic : efhw_nic :=
  match example_alloc with
  | Done (_, _, _, nic) => nic
  | Fault _ => nic_init 4 0
  end.

(** Owner 5 after a second block of order 2. *)
Definition example_alloc2 : outcome (Z * option loc * heap * efhw_nic) :=
  af_xdp_nic_buffer_table_alloc 32 example_heap example_nic 5 2.

Definition example_heap2 : heap :=
  match example_alloc2 with
  | Done (_, _, h, _) => h
  | Fault _ => heap0
  end.

Definition example_nic2 : efhw_nic :=
  match example_alloc2 with
  | Done (_, _, _, nic) => nic
  | Fault _ => nic_init 4 0
  end.

(** ** Calls into the kernel made outside activation *)

Definition EAGAIN : Z := 11.
Definition ENOSYS : Z := 38.

Inductive sys_event : Type :=
| Kzalloc
| Kfree
| BpfMapCreate (max_entries : Z)
| BpfProgLoad (insns : list Z)
| BpfProgGet (fd : Z)
| BpfMapUpdateElem (map_fd key sock_fd : Z)
| SetLink (prog : Z)
| Fget (fd : Z)
| Fput (file : Z)
| GetFile (file : Z)
| FdInstall (fd file : Z)
| CloseFd (fd : Z)
| EfhwPageFree.

(** ** Queue configuration and release *)

(** [XDP_COPY] and [XDP_ZEROCOPY] of [linux/if_xdp.h]. *)
Definition XDP_COPY : Z := 2.
Definition XDP_ZEROCOPY : Z := 4.

(** [af_xdp_dmaq_tx_q_init]; the [uint] arguments become the [int]
    instance, owner and capacity. *)
Definition af_xdp_dmaq_tx_q_init (t : signedness) (nic : efhw_nic)
  (evq_id own_id dmaq_size : Z) : outcome (Z * efhw_nic) :=
  match vi_by_instance t nic (C.sint evq_id) with
  | None => Done (- ENODEV, nic)
  | Some i =>
      v ← vi_get nic i;
      Done (0, vi_put nic i
                 (Vi (sock v) (C.sint own_id) (rxq_capacity v) (C.sint dmaq_size)
                     (flags v) (kernel_offsets v) (user_offsets_page v)))
  end.

Section QueueInit.

(** [EFHW_VI_RX_ZEROCOPY], a flag of a header that is not part of this
    file. *)
Variable EFHW_VI_RX_ZEROCOPY : Z.

(** [af_xdp_dmaq_rx_q_init] *)
Definition af_xdp_dmaq_rx_q_init (t : signedness) (nic : efhw_nic)
  (evq_id own_id dmaq_size flags_in : Z) : outcome (Z * efhw_nic) :=
  match vi_by_instance t nic (C.sint evq_id) with
  | None => Done (- ENODEV, nic)
  | Some i =>
      v ← vi_get nic i;
      let mode :=
        if Z.land flags_in EFHW_VI_RX_ZEROCOPY =? 0 then XDP_COPY else XDP_ZEROCOPY in
      Done (0, vi_put nic i
                 (Vi (sock v) (C.sint own_id) (C.sint dmaq_size) (txq_capacity v)
                     (C.uint (Z.lor (flags v) mode))
                     (kernel_offsets v) (user_offsets_page v)))
  end.

End QueueInit.

(** [xdp_release_vi]: the VI as it is left and the calls made. *)
Definition xdp_release_vi (v : efhw_af_xdp_vi) : efhw_af_xdp_vi * list sys_event :=
  (vi_zero,
   EfhwPageFree :: match sock v with
                   | Some file => [Fput file]
                   | None => []
                   end).

(** [af_xdp_nic_event_queue_disable] *)
Definition af_xdp_nic_event_queue_disable (t : signedness) (nic : efhw_nic) (evq : Z)
  : outcome (efhw_nic * list sys_event) :=
  match vi_by_instance t nic (C.sint evq) with
  | None => Done (nic, [])
  | Some i =>
      v ← vi_get nic i;
      let '(v', tr) := xdp_release_vi v in
      Done (vi_put nic i v', tr)
  end.

(** ** The redirect map and the classification program *)

(** The instructions [xdp_prog_load] hands to the kernel: [map_fd] is the
    immediate of the two map loads. *)
Definition xdp_prog (map_fd : Z) : list Z :=
  let fdH := C.ulong (Z.shiftl (C.ulong map_fd) 32) in
  [ 0x00000002000000b7;   0x0000000000041361;
    0x0000000000001261;   0x00000000000024bf;
    0x0000002200000407;   0x000000000018342d;
    0x00000017000003b7;   0x00000000000c2469;
    0x0000000800020415;   0x0000dd8600140455;
    0x00000014000003b7;   0x000000000000320f;
    0x0000000000002271;   0x0000001100010215;
    0x00000006000f0255;   0x0000000000101161;
    0x00000000fffc1a63;   0x000000000000a2bf;
    0xfffffffc00000207;   Z.lor fdH 0x00001118;
    0x0000000000000000;   0x0000000100000085;
    0x00000000000001bf;   0x00000002000000b7;
    0x0000000000050115;   0x00000000fffca261;
    Z.lor fdH 0x00001118; 0x0000000000000000;
    0x00000000000003b7;   0x0000003300000085;
    0x0000000000000095 ].

(** [sizeof(struct bpf_insn)] *)
Definition sizeof_bpf_insn : Z := 8.

(** [attr.insn_cnt] of [xdp_prog_load]. *)
Definition xdp_prog_insn_cnt (map_fd : Z) : Z :=
  C.uint (Z.of_nat (length (xdp_prog map_fd)) * sizeof_uint64 / sizeof_bpf_insn).

(** The fields of a [struct bpf_insn]. *)
Definition insn_code (w : Z) : Z := Z.land w 255.
Definition insn_dst_reg (w : Z) : Z := Z.land (Z.shiftr w 8) 15.
Definition insn_src_reg (w : Z) : Z := Z.land (Z.shiftr w 12) 15.
Definition insn_imm (w : Z) : Z := Z.land (Z.shiftr w 32) (2 ^ 32 - 1).

(** What the kernel answers while a socket is put into the map. *)
Record fd_env : Type := FdEnv {
  fe_files : bool;     (* [current] and [current->files] are there *)
  fe_map_fd : Z;       (* first result of [get_unused_fd_flags] *)
  fe_sock_fd : Z;      (* second result of [get_unused_fd_flags] *)
  fe_bpf : Z           (* result of [sys_bpf(BPF_MAP_UPDATE_ELEM)] *)
}.

(** [xdp_alloc_fd] *)
Definition xdp_alloc_fd (has_files : bool) (unused_fd file : Z) : Z * list sys_event :=
  if negb has_files then (- EAGAIN, [])
  else
    let rc := C.sint unused_fd in
    if rc <? 0 then (rc, [])
    else (rc, [GetFile file; FdInstall rc file]).

(** [xdp_map_update_fd] *)
Definition xdp_map_update_fd (bpf_rc map_fd key sock_fd : Z) : Z * list sys_event :=
  (C.sint bpf_rc, [BpfMapUpdateElem map_fd key sock_fd]).

(** [xdp_map_update] *)
Definition xdp_map_update (e : fd_env) (map key sock : Z) : Z * list sys_event :=
  let '(map_fd, t1) := xdp_alloc_fd (fe_files e) (fe_map_fd e) map in
  if map_fd <? 0 then (map_fd, t1)
  else
    let '(sock_fd, t2) := xdp_alloc_fd (fe_files e) (fe_sock_fd e) sock in
    if sock_fd <? 0 then (sock_fd, t1 ++ t2 ++ [CloseFd map_fd])
    else
      let '(rc, t3) := xdp_map_update_fd (fe_bpf e) map_fd key sock_fd in
      (rc, t1 ++ t2 ++ t3 ++ [CloseFd sock_fd; CloseFd map_fd]).

(** [xdp_set_link]: [op] is the [ndo_bpf] operation of the device, given
    by its result, or [None] when the device has none. *)
Definition xdp_set_link (op : option Z) (prog : Z) : Z * list sys_event :=
  match op with
  | Some rc => (C.sint rc, [SetLink prog])
  | None => (- ENOSYS, [])
  end.

(** ** Hardware initialisation *)

(** The fields of [struct efhw_nic] that [af_xdp_nic_init_hardware] and
    [af_xdp_nic_tweak_hardware] write. *)
Record nic_hw : Type := NicHw {
  mac_addr : list Z;
  pio_num : Z;
  pio_size : Z;
  tx_alts_vfifos : Z;
  tx_alts_cp_bufs : Z;
  tx_alts_cp_buf_size : Z;
  rx_variant : Z;
  tx_variant : Z;
  rx_prefix_len : Z;
  nic_flags : Z
}.

Definition ETH_ALEN : Z := 6.

(** What the kernel answers during hardware initialisation. *)
Record hw_env : Type := HwEnv {
  he_kzalloc : bool;        (* the allocation of the AF_XDP state succeeds *)
  he_map_create : Z;        (* result of [sys_bpf(BPF_MAP_CREATE)] *)
  he_prog_load : Z;         (* result of [sys_bpf(BPF_PROG_LOAD)] *)
  he_prog_get : Z;          (* result of [bpf_prog_get_type_dev] *)
  he_ndo_bpf : option Z;    (* the device's [ndo_bpf] and its result *)
  he_fget : Z               (* result of [fget] *)
}.

Section Hardware.

(** [NIC_FLAG_RX_ZEROCOPY], a flag of a header that is not part of this
    file. *)
Variable NIC_FLAG_RX_ZEROCOPY : Z.

(** [af_xdp_nic_tweak_hardware] *)
Definition af_xdp_nic_tweak_hardware (hw : nic_hw) : nic_hw :=
  NicHw (mac_addr hw) 0 0 0 0 0 0 0 0 NIC_FLAG_RX_ZEROCOPY.

(** [af_xdp_nic_init_hardware]: how the call ends, the NIC and its
    hardware fields as it leaves them, and the calls made.  The state is
    allocated zeroed, with [vi_lim] VIs and [MAX_PDS] PDs behind it. *)
Definition af_xdp_nic_init_hardware (e : hw_env) (nic : efhw_nic) (hw : nic_hw)
  (mac : list Z) : ret * efhw_nic * nic_hw * list sys_event :=
  if negb (he_kzalloc e) then (Rc (- ENOMEM), nic, hw, [Kzalloc])
  else
    let map_fd := C.sint (he_map_create e) in
    let t1 := [Kzalloc; BpfMapCreate (C.sint (vi_lim nic))] in
    if map_fd <? 0 then (Rc map_fd, nic, hw, t1 ++ [Kfree])
    else
      let rc := C.sint (he_prog_load e) in
      let t2 := t1 ++ [BpfProgLoad (xdp_prog map_fd)] in
      if rc <? 0 then (Rc rc, nic, hw, t2 ++ [Kfree; CloseFd map_fd])
      else
        let prog := C.ulong (he_prog_get e) in
        let t3 := t2 ++ [BpfProgGet rc; CloseFd rc] in
        if IS_ERR_VALUE prog then
          (Rc (C.sint (C.slong prog)), nic, hw, t3 ++ [Kfree; CloseFd map_fd])
        else
          let '(rc, tl) := xdp_set_link (he_ndo_bpf e) prog in
          let t4 := t3 ++ tl in
          if rc <? 0 then (Rc rc, nic, hw, t4 ++ [Kfree; CloseFd map_fd])
          else
            let t5 := t4 ++ [Fget map_fd; CloseFd map_fd] in
            let xdp :=
              Xdp (he_fget e) (replicate (Z.to_nat (vi_lim nic)) vi_zero)
                  (replicate (Z.to_nat MAX_PDS) pd_zero) in
            let nic' := Nic (Some xdp) (vi_lim nic) in
            if Z.of_nat (length mac) <? ETH_ALEN then
              (Oops OUT_OF_BOUNDS, nic', hw, t5)
            else
              let hw' :=
                NicHw (take (Z.to_nat ETH_ALEN) mac ++ drop (Z.to_nat ETH_ALEN) (mac_addr hw))
                      (pio_num hw) (pio_size hw) (tx_alts_vfifos hw) (tx_alts_cp_bufs hw)
                      (tx_alts_cp_buf_size hw) (rx_variant hw) (tx_variant hw)
                      (rx_prefix_len hw) (nic_flags hw) in
              (Rc 0, nic', af_xdp_nic_tweak_hardware hw', t5).

End Hardware.

(** [af_xdp_nic_release_hardware]: the calls made; [nic->af_xdp] itself is
    left as it is. *)
Definition af_xdp_nic_release_hardware (op : option Z) (nic : efhw_nic) : list sys_event :=
  snd (xdp_set_link op 0)
  ++ match af_xdp nic with
     | Some xdp => [Fput (xdp_map xdp); Kfree]
     | None => []
     end.

(** ** Growing a directory several times *)

(** One [umem_pages_alloc] after the other, as the allocations of blocks
    for one owner make them, up to the first that fails. *)
Fixpoint umem_pages_alloc_all (ns : list Z) (h : heap) (pages : umem_pages)
  : outcome (Z * heap * umem_pages) :=
  match ns with
  | [] => Done (0, h, pages)
  | n :: ns' =>
      '(rc, h1, pages1) ← umem_pages_alloc h pages n;
      if rc <? 0 then Done (rc, h1, pages1)
      else umem_pages_alloc_all ns' h1 pages1
  end.

(** ** Reading a sequence of calls *)

(** The descriptors installed, the descriptors closed and the number of
    [kfree]s in a sequence of calls. *)
Definition installed_fds (tr : list sys_event) : list Z :=
  omap (fun ev => match ev with FdInstall fd _ => Some fd | _ => None end) tr.

Definition closed_fds (tr : list sys_event) : list Z :=
  omap (fun ev => match ev with CloseFd fd => Some fd | _ => None end) tr.

Definition map_updates (tr : list sys_event) : list (Z * Z * Z) :=
  omap (fun ev => match ev with
                  | BpfMapUpdateElem m k s => Some (m, k, s)
                  | _ => None
                  end) tr.

Definition kfrees (tr : list sys_event) : nat :=
  length (omap (fun ev => match ev with Kfree => Some tt | _ => None end) tr).

(** The temporary mappings made and removed in a sequence of calls. *)
Definition mapped (tr : list event) : list Z :=
  omap (fun ev => match ev with VmMmap len => Some len | _ => None end) tr.

Definition unmapped (tr : list event) : list Z :=
  omap (fun ev => match ev with VmMunmap len => Some len | _ => None end) tr.

(** Two states of a NIC that differ at most in the PD of [owner]. *)
Definition pd_frame (owner : Z) (nic nic' : efhw_nic) : Prop :=
  vi_lim nic' = vi_lim nic
  /\ (forall j, vi_get nic' j = vi_get nic j)
  /\ (forall j, j <> owner -> pd_get nic' j = pd_get nic j).

(** * Machine integers *)

Lemma sint_small x : - 2 ^ 31 <= x < 2 ^ 31 -> C.sint x = x.
Proof.
  intros H. unfold C.sint, C.wrap_signed. change (2 ^ (32 - 1)) with (2 ^ 31).
  rewrite Z.mod_small; lia.
Qed.

Lemma slong_small x : - 2 ^ 63 <= x < 2 ^ 63 -> C.slong x = x.
Proof.
  intros H. unfold C.slong, C.wrap_signed. change (2 ^ (64 - 1)) with (2 ^ 63).
  rewrite Z.mod_small; lia.
Qed.

Lemma ulong_small x : 0 <= x < 2 ^ 64 -> C.ulong x = x.
Proof. intros H. unfold C.ulong. apply Z.mod_small; lia. Qed.

Lemma uint_small x : 0 <= x < 2 ^ 32 -> C.uint x = x.
Proof. intros H. unfold C.uint. apply Z.mod_small; lia. Qed.

Lemma ulong_range x : 0 <= C.ulong x < 2 ^ 64.
Proof. unfold C.ulong. apply Z.mod_pos_bound. lia. Qed.

Lemma slong_range x : - 2 ^ 63 <= C.slong x < 2 ^ 63.
Proof.
  unfold C.slong, C.wrap_signed. change (2 ^ (64 - 1)) with (2 ^ 63).
  pose proof (Z.mod_pos_bound (x + 2 ^ 63) (2 ^ 64)). lia.
Qed.

Lemma sint_range x : - 2 ^ 31 <= C.sint x < 2 ^ 31.
Proof.
  unfold C.sint, C.wrap_signed. change (2 ^ (32 - 1)) with (2 ^ 31).
  pose proof (Z.mod_pos_bound (x + 2 ^ 31) (2 ^ 32)). lia.
Qed.

(** * Reasoning about the heap *)

Lemma bind_Done {A B : Type} (a : A) (f : A -> outcome B) : (Done a ≫= f) = f a.
Proof. reflexivity. Qed.

Lemma bind_Fault {A B : Type} (e : oops) (f : A -> outcome B) : (Fault e ≫= f) = Fault e.
Proof. reflexivity. Qed.

Lemma bind_inv {A B : Type} (m : outcome A) (f : A -> outcome B) (b : B) :
  (m ≫= f) = Done b -> exists a, m = Done a /\ f a = Done b.
Proof. destruct m as [a|e]; [eauto | discriminate]. Qed.

Lemma kalloc_Some o h l h' :
  kalloc o h = (Some l, h') ->
  objs h !! l = None /\ objs h' = <[l := o]> (objs h).
Proof.
  unfold kalloc, alloc_attempt.
  destruct (script h) as [|[] s]; simpl; intros E; inversion E; subst; clear E; simpl;
    (split; [apply not_elem_of_dom, is_fresh | reflexivity]).
Qed.

Lemma kalloc_None o h h' : kalloc o h = (None, h') -> objs h' = objs h.
Proof.
  unfold kalloc, alloc_attempt.
  destruct (script h) as [|[] s]; simpl; intros E; inversion E; reflexivity.
Qed.

Lemma kfree_live l o h :
  objs h !! l = Some o -> kfree (Ptr l) h = Done (Heap (delete l (objs h)) (script h)).
Proof. intros E. unfold kfree. rewrite E. reflexivity. Qed.

Lemma umem_pages_free_loop_spec (u : umem_pages) (a : loc) :
  blocks u = Ptr a ->
  forall (bs done : list loc) (rest : list (option loc)) (h : heap),
    block_count u = Z.of_nat (length done + length bs) ->
    block_count u < 2 ^ 63 ->
    objs h !! a = Some (OPtrs ((Some <$> (done ++ bs)) ++ rest)) ->
    NoDup (a :: bs) ->
    Forall (fun b => is_Some (objs h !! b)) bs ->
    exists h',
      umem_pages_free_loop (length bs) u (Z.of_nat (length done)) h = Done h'
      /\ script h' = script h
      /\ forall l, objs h' !! l = outside bs h l.
Proof.
  intros Ha. induction bs as [|b bs IH]; intros done rest h Hc Hlong Harr Hnd Hlive.
  - exists h. simpl. split; [reflexivity|]. split; [reflexivity|].
    intros l. unfold outside. destruct (decide (l ∈ [])) as [H|H]; [inversion H | reflexivity].
  - simpl length in *. cbn [umem_pages_free_loop].
    assert (Hlt : (Z.of_nat (length done) <? block_count u) = true)
      by (apply Z.ltb_lt; lia).
    rewrite Hlt.
    assert (Hrd : read_slot h (blocks u) (Z.of_nat (length done)) = Done b).
    { unfold read_slot. rewrite Ha, Harr.
      assert (Hneg : (Z.of_nat (length done) <? 0) = false) by (apply Z.ltb_ge; lia).
      rewrite Hneg, Nat2Z.id.
      rewrite lookup_app_l by (rewrite length_fmap, length_app; simpl; lia).
      rewrite list_lookup_fmap, lookup_app_r by lia.
      replace (length done - length done)%nat with 0%nat by lia. reflexivity. }
    rewrite Hrd, bind_Done.
    apply Forall_cons in Hlive as [[o Ho] Hlive'].
    rewrite (kfree_live _ _ _ Ho), bind_Done.
    apply NoDup_cons in Hnd as [Hna Hnd'].
    apply NoDup_cons in Hnd' as [Hnb Hnd''].
    assert (Hab : a <> b) by (intros ->; apply Hna; left).
    rewrite slong_small by lia.
    replace (Z.of_nat (length done) + 1) with (Z.of_nat (length (done ++ [b])))
      by (rewrite length_app; simpl; lia).
    destruct (IH (done ++ [b]) rest (Heap (delete b (objs h)) (script h)))
      as (h' & Hrun & Hscr & Hout).
    + rewrite length_app. simpl. lia.
    + exact Hlong.
    + simpl. rewrite lookup_delete_ne by congruence.
      rewrite <- app_assoc. exact Harr.
    + apply NoDup_cons. split; [|exact Hnd''].
      intros Hin. apply Hna. right. exact Hin.
    + apply Forall_forall. intros x Hx. simpl.
      rewrite lookup_delete_ne by (intros ->; contradiction).
      exact (proj1 (Forall_forall _ _) Hlive' x Hx).
    + exists h'. split; [exact Hrun|]. split; [exact Hscr|].
      intros l. rewrite Hout. unfold outside. simpl.
      destruct (decide (l ∈ bs)) as [Hin|Hin].
      * rewrite decide_True by (right; exact Hin). reflexivity.
      * destruct (decide (l = b)) as [->|Hne].
        -- rewrite decide_True by left. apply lookup_delete_eq.
        -- rewrite decide_False by (intros Hc'; apply elem_of_cons in Hc' as [?|?]; contradiction).
           apply lookup_delete_ne. congruence.
Qed.

Lemma umem_pages_free_spec h u bs :
  umem_tracks h u bs ->
  exists h',
    umem_pages_free h u = Done h'
    /\ script h' = script h
    /\ forall l, objs h' !! l = outside (owned u bs) h l.
Proof.
  intros [Hc Hlong [rest Hs] Hnd Hlive]. unfold umem_pages_free, owned.
  destruct (blocks u) as [| |a] eqn:Hb; simpl in *.
  1,2: (destruct bs; [|discriminate]; simpl in Hc; rewrite Hc; simpl;
        exists h; repeat split; intros l; unfold outside;
        rewrite decide_False by (intros H; inversion H); reflexivity).
  destruct (objs h !! a) as [[slots| |]|] eqn:Ha; try discriminate.
  injection Hs as ->.
  destruct (umem_pages_free_loop_spec u a Hb bs [] rest h) as (h1 & Hrun & Hscr & Hout).
  - simpl. exact Hc.
  - exact Hlong.
  - exact Ha.
  - exact Hnd.
  - apply Forall_forall. intros b Hin.
    destruct (proj1 (Forall_forall _ _) Hlive b Hin) as (addrs & E & _).
    rewrite E. eauto.
  - rewrite Hc, Nat2Z.id. change (Z.of_nat (length [])) with 0 in Hrun.
    rewrite Hrun, bind_Done.
    apply NoDup_cons in Hnd as [Hna _].
    assert (H1 : objs h1 !! a = Some (OPtrs ((Some <$> bs) ++ rest))).
    { rewrite Hout. unfold outside. rewrite decide_False by exact Hna. exact Ha. }
    rewrite H1. eexists. split; [reflexivity|]. split; [exact Hscr|].
    intros l. simpl. unfold outside.
    destruct (decide (l = a)) as [->|Hne].
    + rewrite decide_True by left. apply lookup_delete_eq.
    + rewrite lookup_delete_ne by congruence. rewrite Hout. unfold outside.
      destruct (decide (l ∈ bs)) as [Hin|Hin].
      * rewrite decide_True by (right; exact Hin). reflexivity.
      * rewrite decide_False; [reflexivity|].
        intros Hc'. apply elem_of_cons in Hc' as [?|?]; contradiction.
Qed.

Lemma umem_pages_alloc_loop_spec (a : loc) :
  forall (fuel : nat) (nblocks : Z) (h : heap) (u : umem_pages)
         (bs : list loc) (rest : list (option loc)),
    blocks u = Ptr a ->
    objs h !! a = Some (OPtrs ((Some <$> bs) ++ rest)) ->
    block_count u = Z.of_nat (length bs) ->
    nblocks <= Z.of_nat (length bs + length rest) ->
    nblocks < 2 ^ 62 ->
    NoDup (a :: bs) ->
    Forall (is_block h) bs ->
    exists ok h' u' new rest',
      umem_pages_alloc_loop fuel nblocks h u = Done (ok, h', u')
      /\ blocks u' = Ptr a
      /\ page_count u' = page_count u
      /\ used_page_count u' = used_page_count u
      /\ block_count u' = Z.of_nat (length (bs ++ new))
      /\ block_count u' <= Z.max (block_count u) nblocks
      /\ objs h' !! a = Some (OPtrs ((Some <$> (bs ++ new)) ++ rest'))
      /\ NoDup (a :: bs ++ new)
      /\ Forall (is_block h') (bs ++ new)
      /\ (forall l, outside (a :: bs ++ new) h' l = outside (a :: bs) h l)
      /\ (ok = true -> nblocks - block_count u <= Z.of_nat fuel ->
          nblocks <= block_count u').
Proof.
  induction fuel as [|fuel IH]; intros nblocks h u bs rest Hb Ha Hc Hn Hsmall Hnd Hlive.
  - exists true, h, u, [], rest. rewrite app_nil_r. simpl.
    repeat split; try assumption; try lia.
  - cbn [umem_pages_alloc_loop].
    destruct (block_count u <? nblocks) eqn:Hguard.
    2:{ apply Z.ltb_ge in Hguard. exists true, h, u, [], rest. rewrite app_nil_r.
        repeat split; try assumption; try lia. }
    apply Z.ltb_lt in Hguard.
    destruct (kalloc (OBlock (replicate (Z.to_nat UMEM_BLOCK) 0)) h) as [[b|] h1] eqn:Hk.
    2:{ apply kalloc_None in Hk. exists false, h1, u, [], rest. rewrite app_nil_r.
        rewrite Hk. repeat split; try assumption; try lia.
        - apply Forall_forall. intros x Hx.
          destruct (proj1 (Forall_forall _ _) Hlive x Hx) as (ad & E & L).
          exists ad. rewrite Hk. auto.
        - intros l. unfold outside. rewrite Hk. reflexivity. }
    apply kalloc_Some in Hk as [Hfresh Hh1].
    assert (Hab : a <> b) by (intros ->; rewrite Ha in Hfresh; discriminate).
    assert (Hbbs : b ∉ bs).
    { intros Hin. destruct (proj1 (Forall_forall _ _) Hlive b Hin) as (ad & E & _).
      rewrite E in Hfresh. discriminate. }
    destruct rest as [|r rest]; [simpl in Hn; lia|].
    assert (Hw : write_slot h1 (blocks u) (block_count u) b
                 = Done (Heap (<[a := OPtrs ((Some <$> (bs ++ [b])) ++ rest)]> (objs h1))
                              (script h1))).
    { unfold write_slot. rewrite Hb, Hh1, lookup_insert_ne, Ha by congruence.
      rewrite length_app, length_fmap. simpl length.
      assert (G : ((block_count u <? 0)
                   || (Z.of_nat (length bs + S (length rest)) <=? block_count u)) = false).
      { apply orb_false_iff. split; [apply Z.ltb_ge | apply Z.leb_gt]; lia. }
      rewrite G, Hc, Nat2Z.id.
      rewrite insert_app_r_alt by (rewrite length_fmap; lia).
      rewrite length_fmap, Nat.sub_diag. simpl.
      rewrite fmap_app, <- app_assoc. reflexivity. }
    rewrite Hw, bind_Done.
    set (h2 := Heap _ _).
    set (u2 := set_block_count u _).
    destruct (IH nblocks h2 u2 (bs ++ [b]) rest) as
      (ok & h' & u' & new & rest' & Hrun & Hb' & Hpc & Hup & Hc' & Hmax & Ha' & Hnd' & Hlive' & Hout & Hok).
    + exact Hb.
    + subst h2. simpl. apply lookup_insert_eq.
    + subst u2. simpl. rewrite slong_small by lia. rewrite length_app. simpl. lia.
    + rewrite length_app. simpl in *. lia.
    + exact Hsmall.
    + rewrite app_comm_cons. apply NoDup_app. split; [exact Hnd|]. split.
      * intros x Hx Hx'. apply list_elem_of_singleton in Hx'. subst x.
        apply elem_of_cons in Hx as [?|?]; [congruence|contradiction].
      * apply NoDup_singleton.
    + apply Forall_app. split.
      * apply Forall_forall. intros x Hx.
        destruct (proj1 (Forall_forall _ _) Hlive x Hx) as (ad & E & L).
        exists ad. split; [|exact L]. subst h2. simpl.
        rewrite lookup_insert_ne, Hh1, lookup_insert_ne; [exact E| |].
        -- intros ->. contradiction.
        -- intros ->. apply NoDup_cons in Hnd as [Hna _]. contradiction.
      * apply Forall_singleton. eexists. split.
        -- subst h2. simpl. rewrite lookup_insert_ne, Hh1 by congruence.
           apply lookup_insert_eq.
        -- apply length_replicate.
    + exists ok, h', u', (b :: new), rest'.
      replace (bs ++ b :: new) with ((bs ++ [b]) ++ new) by (rewrite <- app_assoc; reflexivity).
      subst u2. simpl in *. rewrite slong_small in * by lia.
      repeat split; try assumption; try lia.
      * intros l. rewrite Hout. unfold outside.
        destruct (decide (l ∈ a :: bs)) as [Hin|Hin].
        -- rewrite decide_True; [reflexivity|].
           rewrite app_comm_cons. apply elem_of_app. left. exact Hin.
        -- destruct (decide (l = b)) as [->|Hne].
           ++ rewrite decide_True; [symmetry; exact Hfresh|].
              rewrite app_comm_cons. apply elem_of_app. right. left.
           ++ rewrite decide_False.
              ** subst h2. simpl. rewrite lookup_insert_ne, Hh1, lookup_insert_ne; try congruence.
                 intros ->. apply Hin. left.
              ** rewrite app_comm_cons. intros Hc''. apply elem_of_app in Hc'' as [?|Hx]; [contradiction|].
                 apply list_elem_of_singleton in Hx. contradiction.
      * intros Hokt Hf. apply Hok; [exact Hokt|]. lia.
Qed.

Lemma umem_tracks_objs h h' u bs :
  objs h' = objs h -> umem_tracks h u bs -> umem_tracks h' u bs.
Proof.
  intros E [Hc Hl [rest Hs] Hnd Hlive]. split; try assumption.
  - exists rest. rewrite <- Hs. unfold ptr_slots. rewrite E. reflexivity.
  - eapply Forall_impl; [exact Hlive|]. intros b (ad & Hb & L). exists ad. rewrite E. auto.
Qed.

Lemma alloc_blocks_range u new_pages : 0 <= alloc_blocks u new_pages < 2 ^ 55.
Proof.
  unfold alloc_blocks.
  pose proof (ulong_range (page_count u + new_pages + UMEM_BLOCK - 1)) as R.
  set (x := C.ulong _) in *. change UMEM_BLOCK with 512.
  assert (0 <= x / 512 < 2 ^ 55).
  { split; [apply Z.div_pos; lia|]. apply Z.div_lt_upper_bound; [lia|].
    change (512 * 2 ^ 55) with (2 ^ 64). lia. }
  rewrite slong_small; lia.
Qed.

Lemma umem_pages_alloc_tail (a' : loc) h0 h1 u bs rest new_pages :
  let nblocks := alloc_blocks u new_pages in
  let pages1 := set_blocks u (Ptr a') in
  objs h1 !! a' = Some (OPtrs ((Some <$> bs) ++ rest)) ->
  block_count u = Z.of_nat (length bs) ->
  block_count u < 2 ^ 63 ->
  nblocks <= Z.of_nat (length bs + length rest) ->
  NoDup (a' :: bs) ->
  Forall (is_block h1) bs ->
  (forall l, outside (a' :: bs) h1 l = outside (owned u bs) h0 l) ->
  exists rc h' u' new,
    ('(ok, h2, pages2) ←
       umem_pages_alloc_loop (Z.to_nat (nblocks - block_count pages1)) nblocks h1 pages1;
     if ok : bool then
       Done (0, h2, set_page_count pages2 (C.slong (page_count pages2 + new_pages)))
     else Done (- ENOMEM, h2, pages2)) = Done (rc, h', u')
    /\ alloc_post h0 u bs new_pages rc h' u' new.
Proof.
  intros nblocks pages1 Ha Hc Hlong Hn Hnd Hlive Hfr.
  pose proof (alloc_blocks_range u new_pages) as Hr. fold nblocks in Hr.
  destruct (umem_pages_alloc_loop_spec a' (Z.to_nat (nblocks - block_count pages1))
              nblocks h1 pages1 bs rest) as
    (ok & h' & u' & new & rest' & Hrun & Hb' & Hpc & Hup & Hc' & Hmax & Ha' & Hnd' & Hlive' & Hout & Hok);
    try assumption; try reflexivity; [lia|].
  rewrite Hrun, bind_Done. simpl in Hpc, Hup, Hmax, Hok.
  assert (Htr : umem_tracks h' u' (bs ++ new)).
  { split.
    - exact Hc'.
    - lia.
    - exists rest'. unfold ptr_slots. rewrite Hb', Ha'. reflexivity.
    - rewrite Hb'. exact Hnd'.
    - exact Hlive'. }
  assert (Hfr' : forall l, outside (owned u' (bs ++ new)) h' l = outside (owned u bs) h0 l).
  { intros l. unfold owned at 1. rewrite Hb'. simpl. rewrite Hout. apply Hfr. }
  destruct ok.
  - exists 0, h', (set_page_count u' (C.slong (page_count u' + new_pages))), new.
    split; [reflexivity|]. split; [exact Hup|]. right.
    split; [reflexivity|]. split; [simpl; rewrite Hpc; reflexivity|].
    intros _. split; [|split].
    + destruct Htr. split; assumption.
    + exact Hfr'.
    + simpl. apply Hok; [reflexivity|]. lia.
  - exists (- ENOMEM), h', u', new.
    split; [reflexivity|]. split; [exact Hup|]. left. auto.
Qed.

Lemma umem_pages_alloc_spec h u bs new_pages :
  umem_tracks h u bs ->
  exists rc h' u' new,
    umem_pages_alloc h u new_pages = Done (rc, h', u')
    /\ alloc_post h u bs new_pages rc h' u' new.
Proof.
  intros Htr. pose proof Htr as [Hc Hlong [rest Hs] Hnd Hlive].
  pose proof (alloc_blocks_range u new_pages) as Hr.
  unfold umem_pages_alloc. fold (alloc_blocks u new_pages).
  set (nblocks := alloc_blocks u new_pages) in *.
  unfold krealloc.
  destruct (nblocks =? 0) eqn:Hz.
  { (* a zero-sized request *)
    apply Z.eqb_eq in Hz.
    assert (exists h1, kfree (blocks u) h = Done h1) as [h1 Hf].
    { unfold kfree. destruct (blocks u) as [| |a]; eauto.
      simpl in Hs. destruct (objs h !! a); [eauto|discriminate]. }
    rewrite Hf. rewrite !bind_Done. cbn [set_blocks block_count].
    replace (Z.to_nat (nblocks - block_count u)) with 0%nat by lia.
    cbn [umem_pages_alloc_loop]. rewrite bind_Done.
    eexists _, _, _, []. split; [reflexivity|].
    split; [reflexivity|]. right. split; [reflexivity|]. split; [reflexivity|].
    intros Hnz. contradiction. }
  apply Z.eqb_neq in Hz.
  rewrite Hs, bind_Done.
  destruct (blocks u) as [| |a] eqn:Hb.
  3:{ (* an array is already there *)
    simpl in Hs. destruct (objs h !! a) as [[slots| |]|] eqn:Ha; try discriminate.
    injection Hs as ->. simpl in Hnd.
    destruct (nblocks <=? Z.of_nat (length ((Some <$> bs) ++ rest))) eqn:Hfit.
    - (* large enough as it is *)
      apply Z.leb_le in Hfit. rewrite length_app, length_fmap in Hfit.
      rewrite bind_Done.
      destruct (umem_pages_alloc_tail a h h u bs rest new_pages)
        as (rc & h' & u' & new & Hrun & Hpost); try assumption.
      + unfold owned. rewrite Hb. reflexivity.
      + exists rc, h', u', new. split; [exact Hrun | exact Hpost].
    - (* moved to a larger object *)
      apply Z.leb_gt in Hfit. rewrite length_app, length_fmap in Hfit.
      destruct (kalloc _ h) as [[a'|] h1] eqn:Hk.
      + apply kalloc_Some in Hk as [Hfresh Hh1].
        assert (Haa : a <> a') by (intros ->; rewrite Ha in Hfresh; discriminate).
        assert (Ha1 : objs h1 !! a = Some (OPtrs ((Some <$> bs) ++ rest)))
          by (rewrite Hh1, lookup_insert_ne by congruence; exact Ha).
        rewrite (kfree_live _ _ _ Ha1), !bind_Done.
        apply NoDup_cons in Hnd as [Hna Hnd'].
        assert (Hnb : a' ∉ bs).
        { intros Hin. destruct (proj1 (Forall_forall _ _) Hlive a' Hin) as (ad & E & _).
          rewrite E in Hfresh. discriminate. }
        destruct (umem_pages_alloc_tail a' h
                    (Heap (delete a (objs h1)) (script h1)) u bs
                    (rest ++ replicate
                       (Z.to_nat nblocks - length ((Some <$> bs) ++ rest)) None)
                    new_pages)
          as (rc & h' & u' & new & Hrun & Hpost); try assumption.
        * simpl. rewrite lookup_delete_ne, Hh1, lookup_insert_eq, app_assoc by congruence.
          reflexivity.
        * fold nblocks. rewrite !length_app, length_replicate, length_fmap. lia.
        * apply NoDup_cons. split; assumption.
        * apply Forall_forall. intros x Hx.
          destruct (proj1 (Forall_forall _ _) Hlive x Hx) as (ad & E & L).
          exists ad. split; [|exact L]. simpl.
          rewrite lookup_delete_ne, Hh1, lookup_insert_ne; [exact E| |];
            intros ->; contradiction.
        * intros l. unfold owned. rewrite Hb. simpl. unfold outside. simpl.
          destruct (decide (l ∈ bs)) as [Hin|Hin].
          { rewrite !decide_True by (right; exact Hin). reflexivity. }
          destruct (decide (l = a)) as [->|Hla].
          { rewrite (decide_True (P := a ∈ a :: bs)) by left.
            rewrite decide_False by
              (intros Hx; apply elem_of_cons in Hx as [?|?]; [congruence|contradiction]).
            apply lookup_delete_eq. }
          destruct (decide (l = a')) as [->|Hla'].
          { rewrite (decide_True (P := a' ∈ a' :: bs)) by left.
            rewrite decide_False by
              (intros Hx; apply elem_of_cons in Hx as [?|?]; [congruence|contradiction]).
            symmetry. exact Hfresh. }
          rewrite !decide_False by
            (intros Hx; apply elem_of_cons in Hx as [?|?]; contradiction).
          rewrite lookup_delete_ne, Hh1, lookup_insert_ne by congruence. reflexivity.
        * exists rc, h', u', new. split; [exact Hrun | exact Hpost].
      + apply kalloc_None in Hk. rewrite bind_Done.
        exists (- ENOMEM), h1, u, []. split; [reflexivity|].
        split; [reflexivity|]. left. rewrite app_nil_r.
        split; [reflexivity|]. split; [reflexivity|].
        split; [eapply umem_tracks_objs; eassumption|].
        intros l. unfold outside. rewrite Hk. reflexivity. }
  (* no array yet *)
  all: simpl in Hs; injection Hs as Hs;
    assert (bs = []) as -> by (destruct bs; [reflexivity|discriminate]);
    assert (rest = []) as -> by (destruct rest; [reflexivity|discriminate]);
    destruct (kalloc _ h) as [[a'|] h1] eqn:Hk.
  1,3: apply kalloc_Some in Hk as [Hfresh Hh1]; rewrite bind_Done;
    destruct (umem_pages_alloc_tail a' h h1 u [] (replicate (Z.to_nat nblocks) None) new_pages)
      as (rc & h' & u' & new & Hrun & Hpost);
    [ rewrite Hh1; apply lookup_insert_eq
    | exact Hc | exact Hlong
    | fold nblocks; simpl; rewrite length_replicate; lia
    | apply NoDup_singleton
    | apply Forall_nil_2
    | intros l; unfold owned; rewrite Hb; simpl; unfold outside;
      destruct (decide (l = a')) as [->|Hla'];
      [ rewrite decide_True by left; rewrite decide_False by (intros Hx; inversion Hx);
        symmetry; exact Hfresh
      | rewrite !decide_False by
          (intros Hx; try (apply elem_of_cons in Hx as [?|Hx]; [contradiction|]); inversion Hx);
        rewrite Hh1; apply lookup_insert_ne; congruence ]
    | exists rc, h', u', new; split; [exact Hrun | exact Hpost] ].
  all: apply kalloc_None in Hk; rewrite bind_Done;
    exists (- ENOMEM), h1, u, []; (split; [reflexivity|]);
    (split; [reflexivity|]); left;
    (split; [reflexivity|]); (split; [reflexivity|]);
    (split; [eapply umem_tracks_objs; eassumption|]);
    intros l; unfold outside; rewrite Hk; reflexivity.
Qed.

(** [umem_pages_alloc] always returns, with success or out-of-memory. *)
Lemma umem_pages_alloc_returns h u bs new_pages :
  umem_tracks h u bs ->
  exists rc h' u',
    umem_pages_alloc h u new_pages = Done (rc, h', u') /\ (rc = 0 \/ rc = - ENOMEM).
Proof.
  intros Htr.
  destruct (umem_pages_alloc_spec h u bs new_pages Htr) as (rc & h' & u' & new & Hrun & _ & Hp).
  exists rc, h', u'. split; [exact Hrun|].
  destruct Hp as [(-> & _)|(-> & _)]; auto.
Qed.

(** C4: when growing a page directory fails with out-of-memory, be it at
    the pointer array or at a later block, [page_count] is unchanged, the
    blocks allocated so far by the call are counted by [block_count] next
    to the earlier ones, and a following [umem_pages_free] succeeds, so
    that it frees no object twice, and leaves exactly the heap from before
    the call without the objects of the directory: nothing that the failed
    call allocated stays behind. *)
Theorem umem_pages_alloc_enomem_consistent h u bs new_pages h' u' :
  umem_tracks h u bs ->
  umem_pages_alloc h u new_pages = Done (- ENOMEM, h', u') ->
  page_count u' = page_count u
  /\ exists new,
       umem_tracks h' u' (bs ++ new)
       /\ block_count u' = block_count u + Z.of_nat (length new)
       /\ exists h'',
            umem_pages_free h' u' = Done h''
            /\ forall l, objs h'' !! l = outside (owned u bs) h l.
Proof.
  intros Htr Hrun.
  destruct (umem_pages_alloc_spec h u bs new_pages Htr)
    as (rc & h1 & u1 & new & Hrun' & _ & Hp).
  rewrite Hrun in Hrun'. injection Hrun' as <- <- <-.
  destruct Hp as [(_ & Hpc & Htr' & Hfr)|(Hrc & _)]; [|discriminate].
  split; [exact Hpc|]. exists new. split; [exact Htr'|]. split.
  - rewrite (tr_count _ _ _ Htr'), (tr_count _ _ _ Htr), length_app. lia.
  - destruct (umem_pages_free_spec h' u' (bs ++ new) Htr') as (h'' & Hfree & _ & Hout).
    exists h''. split; [exact Hfree|]. intros l. rewrite Hout. apply Hfr.
Qed.

Lemma umem_tracks_zero h : umem_tracks h umem_zero [].
Proof.
  split; simpl.
  - reflexivity.
  - reflexivity.
  - exists []. reflexivity.
  - apply NoDup_nil_2.
  - apply Forall_nil_2.
Qed.

(** Growing an empty directory by two blocks when memory runs out at the
    second one. *)
Lemma umem_pages_alloc_enomem_consistent_witness :
  exists h' u',
    umem_pages_alloc (Heap ∅ [true; true; false]) umem_zero 1024 = Done (- ENOMEM, h', u')
    /\ page_count u' = 0
    /\ exists new,
         umem_tracks h' u' ([] ++ new)
         /\ block_count u' = 0 + Z.of_nat (length new)
         /\ exists h'',
              umem_pages_free h' u' = Done h''
              /\ forall l, objs h'' !! l
                           = outside (owned umem_zero []) (Heap ∅ [true; true; false]) l.
Proof.
  eexists _, _. split; [vm_compute; reflexivity|].
  apply (umem_pages_alloc_enomem_consistent (Heap ∅ [true; true; false]) umem_zero [] 1024).
  - apply umem_tracks_zero.
  - vm_compute. reflexivity.
Defined.

(** * The page directory and the fault handler *)

(** After [umem_pages_set_addr] the mark is the larger of the old mark
    and the page. *)
Lemma umem_pages_set_addr_mark h u page addr h' u' :
  umem_pages_set_addr h u page addr = Done (h', u') ->
  used_page_count u' = Z.max (used_page_count u) page
  /\ page_count u' = page_count u
  /\ block_count u' = block_count u
  /\ blocks u' = blocks u.
Proof.
  unfold umem_pages_set_addr. intros H.
  apply bind_inv in H as ([b j] & _ & H).
  destruct (objs h !! b) as [[| addrs |]|]; try discriminate.
  destruct (Z.of_nat (length addrs) <=? j); [discriminate|].
  injection H as _ <-.
  destruct (page >? used_page_count u) eqn:G; simpl.
  - apply Z.gtb_lt in G. repeat split; lia.
  - rewrite Z.gtb_ltb in G. apply Z.ltb_ge in G. repeat split; lia.
Qed.

(** A page stored at or above the mark is exactly the page the fault
    handler refuses afterwards. *)
Lemma fault_after_set_at_mark h u page addr h' u' off :
  umem_pages_set_addr h u page addr = Done (h', u') ->
  used_page_count u <= page ->
  0 <= page < 2 ^ 51 ->
  0 <= off < PAGE_SIZE ->
  fault h' u' (page * PAGE_SIZE + off) = Done VM_FAULT_SIGSEGV.
Proof.
  intros Hset Hmark Hp Hoff. apply umem_pages_set_addr_mark in Hset as (Hu & _).
  unfold fault. change PAGE_SIZE with 4096 in *.
  rewrite ulong_small by lia.
  change PAGE_SHIFT with 12. rewrite Z.shiftr_div_pow2 by lia.
  change (2 ^ 12) with 4096.
  replace ((page * 4096 + off) / 4096) with page
    by (apply (Z.div_unique_pos _ 4096 page off); lia).
  rewrite slong_small by lia.
  rewrite Hu, Z.max_r by lia.
  rewrite (proj2 (Z.geb_le page page)) by lia. reflexivity.
Qed.

(** C1 (fails on the code): grown by one block, with its first page set
    to the handle 77, the directory still has the mark 0, and a fault at
    offset 0 of the mapping is an access violation although page 0 holds
    the handle. *)
Theorem fault_first_page_sigsegv :
  ('(rc, h1, u1) ← umem_pages_alloc heap0 umem_zero 32;
   '(h2, u2) ← umem_pages_set_addr h1 u1 0 77;
   r ← fault h2 u2 0;
   g ← umem_pages_get_addr h2 u2 0;
   Done (rc, page_count u2, used_page_count u2, g, r))
  = Done (0, 32, 0, 77, VM_FAULT_SIGSEGV).
Proof. vm_compute. reflexivity. Qed.

(** * VI and protection domain lookup *)

Lemma vi_by_instance_unsigned nic instance :
  - 2 ^ 31 <= instance < 2 ^ 31 ->
  0 <= vi_lim nic <= 2 ^ 31 ->
  vi_by_instance Unsigned nic instance
  = match af_xdp nic with
    | Some _ => if (0 <=? instance) && (instance <? vi_lim nic) then Some instance else None
    | None => None
    end.
Proof.
  intros Hi Hl. unfold vi_by_instance. destruct (af_xdp nic); [|reflexivity].
  unfold C.uint. rewrite Z.geb_leb.
  destruct (0 <=? instance) eqn:H0; simpl.
  - apply Z.leb_le in H0. rewrite Z.mod_small by lia.
    destruct (instance <? vi_lim nic) eqn:H1.
    + apply Z.ltb_lt in H1. rewrite (proj2 (Z.leb_gt _ _)) by lia. reflexivity.
    + apply Z.ltb_ge in H1. rewrite (proj2 (Z.leb_le _ _)) by lia. reflexivity.
  - apply Z.leb_gt in H0.
    replace (instance mod 2 ^ 32) with (instance + 2 ^ 32).
    + rewrite (proj2 (Z.leb_le _ _)) by lia. reflexivity.
    + symmetry. rewrite <- (Z.mod_add instance 1 (2 ^ 32)) by lia.
      apply Z.mod_small. lia.
Qed.

(** Whatever the type of [vi_lim], an instance at or beyond it is not
    found, nor is any instance of a NIC without AF_XDP state. *)
Lemma vi_by_instance_beyond t nic instance :
  af_xdp nic = None \/ (0 <= instance < 2 ^ 32 /\ vi_lim nic <= instance) ->
  vi_by_instance t nic instance = None.
Proof.
  intros H. unfold vi_by_instance. destruct (af_xdp nic); [|reflexivity].
  destruct H as [H|[Hr Hl]]; [discriminate|].
  assert (E : C.uint instance = instance) by (apply uint_small; lia).
  destruct t; rewrite ?E, Z.geb_leb, (proj2 (Z.leb_le _ _) Hl); reflexivity.
Qed.

(** C9: with [vi_lim] an unsigned field, [af_xdp_mem] yields the offsets
    block of VI [instance] when the NIC has its AF_XDP state and
    [0 <= instance < vi_lim], and [NULL] for every other instance; it
    forms no pointer outside the VI array and reads none of its
    elements. *)
Theorem af_xdp_mem_in_range nic instance :
  - 2 ^ 31 <= instance < 2 ^ 31 ->
  0 <= vi_lim nic <= 2 ^ 31 ->
  (is_Some (af_xdp nic) -> 0 <= instance < vi_lim nic ->
   af_xdp_mem Unsigned nic instance = Some instance)
  /\ (~ (0 <= instance < vi_lim nic) -> af_xdp_mem Unsigned nic instance = None).
Proof.
  intros Hi Hl. unfold af_xdp_mem.
  rewrite (vi_by_instance_unsigned nic instance Hi Hl). split.
  - intros [x Hx] Hr. rewrite Hx.
    rewrite (proj2 (Z.leb_le 0 instance)), (proj2 (Z.ltb_lt instance (vi_lim nic))) by lia.
    reflexivity.
  - intros Hr. destruct (af_xdp nic); [|reflexivity].
    destruct (0 <=? instance) eqn:H0; simpl; [|reflexivity].
    apply Z.leb_le in H0.
    rewrite (proj2 (Z.ltb_ge instance (vi_lim nic))) by lia. reflexivity.
Qed.

Lemma af_xdp_mem_in_range_witness :
  (is_Some (af_xdp (nic_init 4 0)) -> 0 <= 3 < vi_lim (nic_init 4 0) ->
   af_xdp_mem Unsigned (nic_init 4 0) 3 = Some 3)
  /\ (~ (0 <= 3 < vi_lim (nic_init 4 0)) -> af_xdp_mem Unsigned (nic_init 4 0) 3 = None).
Proof. apply (af_xdp_mem_in_range (nic_init 4 0) 3); simpl; lia. Defined.

(** Were [vi_lim] a signed field, a negative instance would pass the
    test. *)
Remark af_xdp_mem_signed_negative :
  af_xdp_mem Signed (nic_init 4 0) (-1) = Some (-1)
  /\ af_xdp_mem Unsigned (nic_init 4 0) (-1) = None.
Proof. split; reflexivity. Qed.

(** C3 (fails on the code): the owner id [MAX_PDS] itself passes
    [pd_by_owner], which yields the element one past the end of the PD
    array; [af_xdp_nic_buffer_table_alloc] for that owner does not fail with
    [-ENODEV] but reads that element. *)
Theorem pd_by_owner_max_pds :
  pd_by_owner (nic_init 4 0) MAX_PDS = Some MAX_PDS
  /\ Z.of_nat (length (replicate (Z.to_nat MAX_PDS) pd_zero)) = MAX_PDS
  /\ pd_get (nic_init 4 0) MAX_PDS = Fault OUT_OF_BOUNDS
  /\ af_xdp_nic_buffer_table_alloc 32 heap0 (nic_init 4 0) MAX_PDS 0 = Fault OUT_OF_BOUNDS.
Proof. repeat split; vm_compute; reflexivity. Qed.

(** Outside [0, MAX_PDS] the lookup fails. *)
Lemma pd_by_owner_outside nic owner :
  owner < 0 \/ MAX_PDS < owner -> pd_by_owner nic owner = None.
Proof.
  intros H. unfold pd_by_owner. destruct (af_xdp nic); [|reflexivity].
  destruct H as [H|H].
  - rewrite (proj2 (Z.ltb_lt owner 0)) by lia. rewrite orb_true_r. reflexivity.
  - rewrite (proj2 (Z.gtb_lt owner MAX_PDS)) by lia. reflexivity.
Qed.

Lemma pd_by_owner_Some nic owner i :
  pd_by_owner nic owner = Some i -> i = owner /\ 0 <= owner <= MAX_PDS /\ is_Some (af_xdp nic).
Proof.
  unfold pd_by_owner. destruct (af_xdp nic); [|discriminate].
  destruct (owner >? MAX_PDS) eqn:H1; [discriminate|].
  destruct (owner <? 0) eqn:H2; [discriminate|]. simpl. intros [= <-].
  rewrite Z.gtb_ltb in H1. apply Z.ltb_ge in H1. apply Z.ltb_ge in H2. eauto.
Qed.

(** * Activation *)

Lemma IS_ERR_VALUE_negative x :
  IS_ERR_VALUE (C.ulong x) = true -> C.sint (C.slong (C.ulong x)) < 0.
Proof.
  unfold IS_ERR_VALUE. pose proof (ulong_range x) as R.
  rewrite (ulong_small (C.ulong x)) by exact R.
  set (y := C.ulong x) in *. clearbody y.
  change (C.ulong (- 4095)) with (2 ^ 64 - 4095).
  rewrite Z.geb_leb. intros H. apply Z.leb_le in H.
  unfold C.slong, C.wrap_signed. change (2 ^ (64 - 1)) with (2 ^ 63).
  replace ((y + 2 ^ 63) mod 2 ^ 64) with (y - 2 ^ 63).
  - rewrite sint_small; lia.
  - symmetry. rewrite <- (Z.mod_add _ (-1) (2 ^ 64)) by lia.
    replace (y + 2 ^ 63 + -1 * 2 ^ 64) with (y - 2 ^ 63) by lia.
    apply Z.mod_small. lia.
Qed.

Lemma sizing_rejected chunk_size headroom :
  - 2 ^ 31 <= chunk_size < 2 ^ 31 ->
  chunk_size <= 0 \/ PAGE_SIZE < chunk_size \/ PAGE_SIZE mod chunk_size <> 0
  \/ chunk_size < headroom ->
  (chunk_size =? 0)
  || (chunk_size <? headroom)
  || (C.ulong chunk_size >? PAGE_SIZE)
  || negb (PAGE_SIZE mod C.ulong chunk_size =? 0) = true.
Proof.
  intros Hr H. change PAGE_SIZE with 4096 in *.
  destruct (Z.eq_dec chunk_size 0) as [->|Hz]; [reflexivity|].
  destruct (Z_lt_dec chunk_size 0) as [Hneg|Hpos].
  - assert (E : C.ulong chunk_size = chunk_size + 2 ^ 64).
    { unfold C.ulong. rewrite <- (Z.mod_add chunk_size 1 (2 ^ 64)) by lia.
      apply Z.mod_small. lia. }
    rewrite E. rewrite (proj2 (Z.gtb_lt _ _)) by lia.
    rewrite orb_true_r. reflexivity.
  - rewrite ulong_small by lia.
    destruct H as [H|[H|[H|H]]]; [lia| | |].
    + rewrite (proj2 (Z.gtb_lt _ _)) by lia. rewrite orb_true_r. reflexivity.
    + rewrite (proj2 (Z.eqb_neq _ _) H). simpl. apply orb_true_r.
    + rewrite (proj2 (Z.ltb_lt _ _) H). rewrite orb_true_r. reflexivity.
Qed.

Lemma sizing_accepted chunk_size headroom :
  0 < chunk_size -> chunk_size <= PAGE_SIZE -> PAGE_SIZE mod chunk_size = 0 ->
  headroom <= chunk_size ->
  (chunk_size =? 0)
  || (chunk_size <? headroom)
  || (C.ulong chunk_size >? PAGE_SIZE)
  || negb (PAGE_SIZE mod C.ulong chunk_size =? 0) = false.
Proof.
  intros H0 H1 H2 H3. change PAGE_SIZE with 4096 in *.
  rewrite ulong_small by lia.
  rewrite (proj2 (Z.eqb_neq chunk_size 0)) by lia.
  rewrite (proj2 (Z.ltb_ge chunk_size headroom)) by lia.
  rewrite Z.gtb_ltb, (proj2 (Z.ltb_ge 4096 chunk_size)) by lia.
  rewrite H2. reflexivity.
Qed.

(** C5: a chunk size that is zero, larger than the page or no divisor of
    it, and a headroom above the chunk size, make [af_xdp_init] return
    [-EINVAL] with the NIC and the page map as they were, no socket handed
    out and no call made into the kernel.  With an accepted sizing, an
    instance that [vi_by_instance] does not find gets [-ENODEV] and a VI
    that has a socket gets [-EBUSY], again with nothing touched. *)
Theorem af_xdp_init_validation t e nic instance chunk_size headroom page_map :
  - 2 ^ 31 <= chunk_size < 2 ^ 31 ->
  (chunk_size = 0 \/ PAGE_SIZE < chunk_size \/ PAGE_SIZE mod chunk_size <> 0
   \/ chunk_size < headroom ->
   af_xdp_init t e nic instance chunk_size headroom page_map
   = (Rc (- EINVAL), InitState nic page_map None []))
  /\ (0 < chunk_size -> chunk_size <= PAGE_SIZE -> PAGE_SIZE mod chunk_size = 0 ->
      headroom <= chunk_size ->
      (vi_by_instance t nic instance = None ->
       af_xdp_init t e nic instance chunk_size headroom page_map
       = (Rc (- ENODEV), InitState nic page_map None []))
      /\ (forall i v s,
            vi_by_instance t nic instance = Some i ->
            vi_get nic i = Done v ->
            sock v = Some s ->
            af_xdp_init t e nic instance chunk_size headroom page_map
            = (Rc (- EBUSY), InitState nic page_map None []))).
Proof.
  intros Hr. split.
  - intros H. unfold af_xdp_init. rewrite sizing_rejected; [reflexivity|exact Hr|].
    destruct H as [H|[H|[H|H]]]; [left; lia|auto..].
  - intros H0 H1 H2 H3. unfold af_xdp_init.
    rewrite (sizing_accepted _ _ H0 H1 H2 H3). split.
    + intros ->. reflexivity.
    + intros i v s -> -> ->. reflexivity.
Qed.

Lemma af_xdp_init_validation_witness :
  af_xdp_init Unsigned env0 nic_busy 0 0 0 (PageMap 0 [])
  = (Rc (- EINVAL), InitState nic_busy (PageMap 0 []) None [])
  /\ af_xdp_init Unsigned env0 nic_busy 0 2048 2049 (PageMap 0 [])
     = (Rc (- EINVAL), InitState nic_busy (PageMap 0 []) None [])
  /\ af_xdp_init Unsigned env0 nic_busy 9 2048 0 (PageMap 0 [])
     = (Rc (- ENODEV), InitState nic_busy (PageMap 0 []) None [])
  /\ af_xdp_init Unsigned env0 nic_busy 0 2048 0 (PageMap 0 [])
     = (Rc (- EBUSY), InitState nic_busy (PageMap 0 []) None []).
Proof.
  split; [|split; [|split]].
  - apply (proj1 (af_xdp_init_validation Unsigned env0 nic_busy 0 0 0 (PageMap 0 [])
                    ltac:(lia))).
    left. reflexivity.
  - apply (proj1 (af_xdp_init_validation Unsigned env0 nic_busy 0 2048 2049 (PageMap 0 [])
                    ltac:(lia))).
    right. right. right. reflexivity.
  - apply (proj2 (af_xdp_init_validation Unsigned env0 nic_busy 9 2048 0 (PageMap 0 [])
                    ltac:(lia))); try reflexivity; vm_compute; congruence.
  - apply (proj2 (proj2 (af_xdp_init_validation Unsigned env0 nic_busy 0 2048 0
                           (PageMap 0 []) ltac:(lia))
                    eq_refl ltac:(vm_compute; congruence) eq_refl
                    ltac:(vm_compute; congruence))
             0 (Vi (Some 7) 5 128 128 0 offsets_zero None) 7);
      reflexivity.
Defined.

(** A negative chunk size exceeds the page size as the unsigned value it
    is compared as. *)
Remark af_xdp_init_negative_chunk t e nic instance chunk_size headroom page_map :
  - 2 ^ 31 <= chunk_size < 0 ->
  af_xdp_init t e nic instance chunk_size headroom page_map
  = (Rc (- EINVAL), InitState nic page_map None []).
Proof.
  intros H. unfold af_xdp_init. rewrite sizing_rejected; [reflexivity|lia|left; lia].
Qed.

Lemma vi_get_put nic i v v' :
  vi_get nic i = Done v -> vi_get (vi_put nic i v') i = Done v'.
Proof.
  unfold vi_get, vi_put, array_get. destruct (af_xdp nic) as [x|]; [|discriminate].
  simpl. destruct (i <? 0); [discriminate|].
  destruct (xdp_vi x !! Z.to_nat i) eqn:E; [|discriminate]. intros _.
  rewrite list_lookup_insert_eq; [reflexivity|].
  apply lookup_lt_Some in E. exact E.
Qed.

(** Activation starts by creating the socket, whatever the PD lookup gave. *)
Lemma af_xdp_init_resources_trace e nic instance i v pd chunk_size headroom page_map :
  exists tr,
    is_trace (snd (af_xdp_init_resources e nic instance i v pd chunk_size headroom page_map))
    = SockCreate :: tr.
Proof.
  unfold af_xdp_init_resources.
  repeat (case_match; simpl); eexists; reflexivity.
Qed.

(** C10: once the VI is found and has no socket, the test that follows
    the PD lookup looks at the VI pointer again and cannot fire:
    [af_xdp_init] goes on to create the socket whatever [pd_by_owner]
    returned, so it does not end in the [-EINVAL] of that test, which makes
    no kernel call; and when the owner has no PD and the kernel calls up to
    the page map succeed, the call runs into the [NULL] PD in
    [xdp_register_umem]. *)
Theorem af_xdp_init_pd_check_dead t e nic instance chunk_size headroom page_map i v :
  0 < chunk_size -> chunk_size <= PAGE_SIZE -> PAGE_SIZE mod chunk_size = 0 ->
  headroom <= chunk_size ->
  vi_by_instance t nic instance = Some i ->
  vi_get nic i = Done v ->
  sock v = None ->
  let r := af_xdp_init t e nic instance chunk_size headroom page_map in
  r = af_xdp_init_resources e nic instance i v (pd_by_owner nic (owner_id v))
        chunk_size headroom page_map
  /\ (exists tr, is_trace (snd r) = SockCreate :: tr)
  /\ r <> (Rc (- EINVAL), InitState nic page_map None [])
  /\ (pd_by_owner nic (owner_id v) = None ->
      0 <= fst (e_sock_create e) ->
      IS_ERR_VALUE (C.ulong (e_sock_alloc_file e)) = false ->
      0 <= fst (e_page_alloc e) ->
      0 <= e_add_page e ->
      fst r = Oops NULL_DEREF).
Proof.
  intros H0 H1 H2 H3 Hvi Hget Hsock r.
  assert (Hr : r = af_xdp_init_resources e nic instance i v (pd_by_owner nic (owner_id v))
                     chunk_size headroom page_map).
  { subst r. unfold af_xdp_init.
    rewrite (sizing_accepted _ _ H0 H1 H2 H3), Hvi, Hget, Hsock. reflexivity. }
  split; [exact Hr|].
  destruct (af_xdp_init_resources_trace e nic instance i v (pd_by_owner nic (owner_id v))
              chunk_size headroom page_map) as [tr Htr].
  split; [exists tr; rewrite Hr; exact Htr|]. split.
  - intros E. rewrite Hr in E. rewrite E in Htr. discriminate.
  - intros Hpd Hs Hf Hp Ha. rewrite Hr. unfold af_xdp_init_resources.
    rewrite Hpd. destruct (e_sock_create e) as [rc sk]. simpl in Hs.
    rewrite (proj2 (Z.ltb_ge rc 0)) by lia. rewrite Hf.
    destruct (e_page_alloc e) as [rc1 page]. simpl in Hp.
    rewrite (proj2 (Z.ltb_ge rc1 0)) by lia.
    unfold efhw_page_map_add_page, efhw_page_map_add_lump.
    rewrite (proj2 (Z.ltb_ge (e_add_page e) 0)) by lia. simpl. reflexivity.
Qed.

Lemma af_xdp_init_pd_check_dead_witness :
  let r := af_xdp_init Unsigned env0 nic_owner_300 0 2048 0 (PageMap 0 []) in
  r = af_xdp_init_resources env0 nic_owner_300 0 0 (Vi None 300 128 128 0 offsets_zero None)
        (pd_by_owner nic_owner_300 300) 2048 0 (PageMap 0 [])
  /\ (exists tr, is_trace (snd r) = SockCreate :: tr)
  /\ r <> (Rc (- EINVAL), InitState nic_owner_300 (PageMap 0 []) None [])
  /\ (pd_by_owner nic_owner_300 300 = None ->
      0 <= fst (e_sock_create env0) ->
      IS_ERR_VALUE (C.ulong (e_sock_alloc_file env0)) = false ->
      0 <= fst (e_page_alloc env0) ->
      0 <= e_add_page env0 ->
      fst r = Oops NULL_DEREF).
Proof.
  apply (af_xdp_init_pd_check_dead Unsigned env0 nic_owner_300 0 2048 0 (PageMap 0 []) 0
           (Vi None 300 128 128 0 offsets_zero None));
    try reflexivity; vm_compute; congruence.
Defined.

(** * Ring provisioning *)

Ltac zbool :=
  repeat match goal with
    | H : (_ <? _) = true |- _ => apply Z.ltb_lt in H
    | H : (_ <? _) = false |- _ => apply Z.ltb_ge in H
    | H : (_ >=? _) = true |- _ => rewrite Z.geb_leb in H; apply Z.leb_le in H
    | H : (_ >=? _) = false |- _ => rewrite Z.geb_leb in H; apply Z.leb_gt in H
    end.

Lemma IS_ERR_VALUE_sint x :
  IS_ERR_VALUE (C.ulong x) = true -> C.sint (C.ulong x) < 0.
Proof.
  unfold IS_ERR_VALUE. pose proof (ulong_range x) as R.
  rewrite (ulong_small (C.ulong x)) by exact R.
  set (y := C.ulong x) in *. clearbody y.
  change (C.ulong (- 4095)) with (2 ^ 64 - 4095).
  rewrite Z.geb_leb. intros H. apply Z.leb_le in H.
  unfold C.sint, C.wrap_signed. change (2 ^ (32 - 1)) with (2 ^ 31).
  replace ((y + 2 ^ 31) mod 2 ^ 32) with (y - 2 ^ 64 + 2 ^ 31); [lia|].
  symmetry. rewrite <- (Z.mod_add _ (- 2 ^ 32) (2 ^ 32)) by lia.
  replace (y + 2 ^ 31 + - 2 ^ 32 * 2 ^ 32) with (y - 2 ^ 64 + 2 ^ 31) by lia.
  apply Z.mod_small. lia.
Qed.

Lemma ring_pages_nonneg e : 0 <= ring_pages e.
Proof.
  unfold ring_pages. destruct (re_find_vma e) as [[s t]|]; [|lia].
  apply Z.shiftr_nonneg. apply ulong_range.
Qed.

Lemma pages_to_bytes_small n : 0 <= n < 2 ^ 51 -> pages_to_bytes n = n * 4096.
Proof.
  intros H. unfold pages_to_bytes. change PAGE_SHIFT with 12.
  rewrite Z.shiftl_mul_pow2 by lia. change (2 ^ 12) with 4096.
  apply slong_small. lia.
Qed.

(** A ring that is created gets the user offsets of the map's size before
    it, and appends its pages. *)
Lemma xdp_create_ring_success e po pm kb cap ds xo k u rc pm' k' u' tr :
  xdp_create_ring e po pm kb cap ds xo k u = (rc, pm', k', u', tr) ->
  0 <= rc ->
  rc = 0
  /\ u' = offsets_at (pages_to_bytes (n_pages pm)) xo
  /\ n_pages pm' = n_pages pm + ring_pages e
  /\ exists base, lumps pm' = lumps pm ++ [(base, ring_pages e)].
Proof.
  unfold xdp_create_ring, ring_pages, efhw_page_map_add_lump. intros H Hrc.
  destruct (re_setsockopt e <? 0) eqn:E1; [injection H as <- _ _ _ _; zbool; lia|].
  destruct (IS_ERR_VALUE (C.ulong (re_vm_mmap e))) eqn:E2.
  { injection H as <- _ _ _ _. apply IS_ERR_VALUE_sint in E2. lia. }
  destruct (re_find_vma e) as [[vs ve]|].
  - destruct (fst (re_follow_pfn e) >=? 0) eqn:E3.
    + destruct (re_add_lump e <? 0) eqn:E4; simpl in H.
      * rewrite E4 in H. injection H as <- _ _ _ _. zbool. lia.
      * injection H as <- <- _ <- _. simpl. repeat split. eauto.
    + destruct (fst (re_follow_pfn e) <? 0) eqn:E4; zbool; [|lia].
      injection H as <- _ _ _ _. lia.
  - simpl in H. injection H as <- _ _ _ _. unfold EFAULT in Hrc. lia.
Qed.

(** The four rings, created in the order RX, TX, fill, completion. *)
Lemma xdp_create_rings_success e pm kb rxc txc k u rc pm' k' u' tr :
  xdp_create_rings e pm kb rxc txc k u = (rc, pm', k', u', tr) ->
  0 <= rc ->
  let mo := snd (e_getsockopt e) in
  let n0 := n_pages pm in
  let n1 := n0 + ring_pages (e_rx e) in
  let n2 := n1 + ring_pages (e_tx e) in
  let n3 := n2 + ring_pages (e_fr e) in
  let n4 := n3 + ring_pages (e_cr e) in
  ring_rx u' = offsets_at (pages_to_bytes n0) (mo_rx mo)
  /\ ring_tx u' = offsets_at (pages_to_bytes n1) (mo_tx mo)
  /\ ring_fr u' = offsets_at (pages_to_bytes n2) (mo_fr mo)
  /\ ring_cr u' = offsets_at (pages_to_bytes n3) (mo_cr mo)
  /\ n_pages pm' = n4.
Proof.
  unfold xdp_create_rings. intros H Hrc.
  destruct (e_getsockopt e) as [rc0 mo0]. simpl.
  destruct (rc0 <? 0) eqn:E0; [injection H as <- _ _ _ _; zbool; lia|].
  destruct (xdp_create_ring (e_rx e) _ _ _ _ _ _ _ _) as [[[[r1 pm1] k1] u1] t1] eqn:R1.
  destruct (r1 <? 0) eqn:E1; [injection H as <- _ _ _ _; zbool; lia|].
  simpl in H.
  destruct (xdp_create_ring (e_tx e) _ _ _ _ _ _ _ _) as [[[[r2 pm2] k2] u2] t2] eqn:R2.
  destruct (r2 <? 0) eqn:E2; [injection H as <- _ _ _ _; zbool; lia|].
  simpl in H.
  destruct (xdp_create_ring (e_fr e) _ _ _ _ _ _ _ _) as [[[[r3 pm3] k3] u3] t3] eqn:R3.
  destruct (r3 <? 0) eqn:E3; [injection H as <- _ _ _ _; zbool; lia|].
  simpl in H.
  destruct (xdp_create_ring (e_cr e) _ _ _ _ _ _ _ _) as [[[[r4 pm4] k4] u4] t4] eqn:R4.
  zbool.
  apply xdp_create_ring_success in R1 as (_ & -> & N1 & _); [|lia].
  apply xdp_create_ring_success in R2 as (_ & -> & N2 & _); [|lia].
  apply xdp_create_ring_success in R3 as (_ & -> & N3 & _); [|lia].
  destruct (r4 <? 0) eqn:E4; [injection H as <- _ _ _ _; zbool; lia|].
  zbool. apply xdp_create_ring_success in R4 as (_ & -> & N4 & _); [|lia].
  injection H as _ <- _ <- _. simpl.
  rewrite N4, N3, N2, N1. repeat split.
Qed.

Ltac early_exit H :=
  first [ discriminate H
        | let E := fresh "E" in
          injection H as E _; zbool;
          first [ lia | unfold EINVAL, ENODEV, EBUSY, ENOMEM in E; lia ] ].

(** What a successful activation went through. *)
Lemma af_xdp_init_resources_success e nic instance i v pd chunk_size headroom pm st :
  af_xdp_init_resources e nic instance i v pd chunk_size headroom pm = (Rc 0, st) ->
  exists rc pm2 k u tr v4,
    xdp_create_rings e
      (PageMap (n_pages pm + 1) (lumps pm ++ [(snd (e_page_alloc e), 1)]))
      (e_kern_mem_base e) (rxq_capacity v) (txq_capacity v)
      (rings (kernel_offsets v)) (rings offsets_zero) = (rc, pm2, k, u, tr)
    /\ 0 <= rc
    /\ is_page_map st = pm2
    /\ is_nic st = vi_put nic i v4
    /\ user_offsets_page v4 = Some (Offsets (efhw_page_map_bytes pm2) u).
Proof.
  unfold af_xdp_init_resources. intros H.
  destruct (e_sock_create e) as [rc sk].
  destruct (rc <? 0) eqn:E1; [early_exit H|].
  destruct (IS_ERR_VALUE (C.ulong (e_sock_alloc_file e))) eqn:E2.
  { apply IS_ERR_VALUE_negative in E2. injection H as E _. lia. }
  destruct (e_page_alloc e) as [rc1 page].
  destruct (rc1 <? 0) eqn:E3; [early_exit H|].
  unfold efhw_page_map_add_page, efhw_page_map_add_lump in H.
  destruct (e_add_page e <? 0) eqn:E4; [rewrite E4 in H; early_exit H|].
  change (0 <? 0) with false in H. cbv iota in H.
  destruct pd as [j|]; [|discriminate H].
  destruct (pd_get nic j) as [d|f]; [|discriminate H].
  rewrite bind_Done in H.
  destruct (xdp_register_umem e (umem d) chunk_size headroom) as [[rc2|f] tu];
    [|discriminate H].
  destruct (rc2 <? 0) eqn:E5; [early_exit H|].
  simpl in H.
  destruct (xdp_create_rings _ _ _ _ _ _ _) as [[[[rc3 pm2] k] u] tr] eqn:R.
  destruct (rc3 <? 0) eqn:E6; [early_exit H|].
  destruct (e_map_update e <? 0) eqn:E7; [early_exit H|].
  destruct (e_bind e <? 0) eqn:E8; [early_exit H|].
  injection H as <-. zbool.
  eexists rc3, pm2, k, u, tr, _. simpl.
  split; [reflexivity|]. split; [lia|]. split; [reflexivity|]. split; reflexivity.
Qed.

(** C7: in a successful activation the RX, TX, fill and completion rings
    are created in this order on the one page map, which then holds the
    offsets page.  The user offsets stored for each ring are, field by
    field, the byte size the map had when the ring was created (the
    offsets page and the pages of all earlier rings) plus the offset the
    kernel reports for the field, as 64-bit values; the [mmap_bytes]
    recorded last is the byte size of the whole page map.  Where these
    sums fit 64 bits, the user base of a ring (a stored offset less the
    kernel's) never decreases from RX to TX to fill to completion and up
    to [mmap_bytes], each step being the bytes of the pages of the ring
    before. *)
Theorem af_xdp_init_ring_offsets t e nic instance chunk_size headroom pm st :
  af_xdp_init t e nic instance chunk_size headroom pm = (Rc 0, st) ->
  0 <= n_pages pm ->
  n_pages (is_page_map st) < 2 ^ 51 ->
  let mo := snd (e_getsockopt e) in
  let n0 := n_pages pm + 1 in
  let n1 := n0 + ring_pages (e_rx e) in
  let n2 := n1 + ring_pages (e_tx e) in
  let n3 := n2 + ring_pages (e_fr e) in
  let n4 := n3 + ring_pages (e_cr e) in
  exists i v uo,
    vi_by_instance t nic instance = Some i
    /\ vi_get (is_nic st) i = Done v
    /\ user_offsets_page v = Some uo
    /\ ring_rx (rings uo)
       = OffsetsRing (C.slong (n0 * PAGE_SIZE + xro_producer (mo_rx mo)))
                     (C.slong (n0 * PAGE_SIZE + xro_consumer (mo_rx mo)))
                     (C.slong (n0 * PAGE_SIZE + xro_desc (mo_rx mo)))
    /\ ring_tx (rings uo)
       = OffsetsRing (C.slong (n1 * PAGE_SIZE + xro_producer (mo_tx mo)))
                     (C.slong (n1 * PAGE_SIZE + xro_consumer (mo_tx mo)))
                     (C.slong (n1 * PAGE_SIZE + xro_desc (mo_tx mo)))
    /\ ring_fr (rings uo)
       = OffsetsRing (C.slong (n2 * PAGE_SIZE + xro_producer (mo_fr mo)))
                     (C.slong (n2 * PAGE_SIZE + xro_consumer (mo_fr mo)))
                     (C.slong (n2 * PAGE_SIZE + xro_desc (mo_fr mo)))
    /\ ring_cr (rings uo)
       = OffsetsRing (C.slong (n3 * PAGE_SIZE + xro_producer (mo_cr mo)))
                     (C.slong (n3 * PAGE_SIZE + xro_consumer (mo_cr mo)))
                     (C.slong (n3 * PAGE_SIZE + xro_desc (mo_cr mo)))
    /\ n_pages (is_page_map st) = n4
    /\ mmap_bytes uo = n_pages (is_page_map st) * PAGE_SIZE
    /\ mmap_bytes uo = efhw_page_map_bytes (is_page_map st)
    /\ (n_pages (is_page_map st) < 2 ^ 50 ->
        (forall o, o ∈ [mo_rx mo; mo_tx mo; mo_fr mo; mo_cr mo] ->
                   0 <= xro_producer o < 2 ^ 62) ->
        let base_rx := producer (ring_rx (rings uo)) - xro_producer (mo_rx mo) in
        let base_tx := producer (ring_tx (rings uo)) - xro_producer (mo_tx mo) in
        let base_fr := producer (ring_fr (rings uo)) - xro_producer (mo_fr mo) in
        let base_cr := producer (ring_cr (rings uo)) - xro_producer (mo_cr mo) in
        base_rx = (n_pages pm + 1) * PAGE_SIZE
        /\ base_rx <= base_tx <= base_fr
        /\ base_fr <= base_cr <= mmap_bytes uo
        /\ base_tx - base_rx = ring_pages (e_rx e) * PAGE_SIZE
        /\ base_fr - base_tx = ring_pages (e_tx e) * PAGE_SIZE
        /\ base_cr - base_fr = ring_pages (e_fr e) * PAGE_SIZE
        /\ mmap_bytes uo - base_cr = ring_pages (e_cr e) * PAGE_SIZE).
Proof.
  intros H Hn0 Hn4 mo n0 n1 n2 n3 n4. unfold af_xdp_init in H.
  destruct (_ || _) in H; [early_exit H|].
  destruct (vi_by_instance t nic instance) as [i|] eqn:Hvi; [|early_exit H].
  destruct (vi_get nic i) as [v|f] eqn:Hget; [|discriminate H].
  destruct (sock v); [early_exit H|].
  apply af_xdp_init_resources_success in H
    as (rc & pm2 & k & u & tr & v4 & R & Hrc & Hpm & Hnic & Hpage).
  apply xdp_create_rings_success in R as (Rrx & Rtx & Rfr & Rcr & Rn); [|exact Hrc].
  simpl in Rrx, Rtx, Rfr, Rcr, Rn.
  fold mo n0 in Rrx, Rtx, Rfr, Rcr, Rn. fold n1 in Rtx, Rfr, Rcr, Rn.
  fold n2 in Rfr, Rcr, Rn. fold n3 in Rcr, Rn. fold n4 in Rn.
  exists i, v4, (Offsets (efhw_page_map_bytes pm2) u).
  rewrite Hnic, Hpm.
  pose proof (ring_pages_nonneg (e_rx e)) as P1.
  pose proof (ring_pages_nonneg (e_tx e)) as P2.
  pose proof (ring_pages_nonneg (e_fr e)) as P3.
  pose proof (ring_pages_nonneg (e_cr e)) as P4.
  rewrite Hpm, Rn in Hn4.
  unfold offsets_at in Rrx, Rtx, Rfr, Rcr.
  rewrite pages_to_bytes_small in Rrx, Rtx, Rfr, Rcr by lia.
  assert (Hbytes : efhw_page_map_bytes pm2 = n4 * 4096).
  { rewrite <- Rn. unfold efhw_page_map_bytes. rewrite Rn.
    apply pages_to_bytes_small. lia. }
  change PAGE_SIZE with 4096.
  split; [reflexivity|]. split; [eapply vi_get_put; exact Hget|].
  split; [exact Hpage|]. cbn [rings mmap_bytes].
  split; [exact Rrx|]. split; [exact Rtx|]. split; [exact Rfr|]. split; [exact Rcr|].
  split; [exact Rn|]. split; [rewrite Hbytes, Rn; reflexivity|].
  split; [reflexivity|].
  intros Hsmall Hoff.
  assert (Orx : 0 <= xro_producer (mo_rx mo) < 2 ^ 62)
    by (apply Hoff; apply list_elem_of_here).
  assert (Otx : 0 <= xro_producer (mo_tx mo) < 2 ^ 62)
    by (apply Hoff; do 1 apply list_elem_of_further; apply list_elem_of_here).
  assert (Ofr : 0 <= xro_producer (mo_fr mo) < 2 ^ 62)
    by (apply Hoff; do 2 apply list_elem_of_further; apply list_elem_of_here).
  assert (Ocr : 0 <= xro_producer (mo_cr mo) < 2 ^ 62)
    by (apply Hoff; do 3 apply list_elem_of_further; apply list_elem_of_here).
  rewrite Rn in Hsmall.
  rewrite Rrx, Rtx, Rfr, Rcr, Hbytes. cbn [producer].
  rewrite !slong_small by lia.
  cbv zeta. subst n0 n1 n2 n3 n4. lia.
Qed.

Lemma af_xdp_init_ring_offsets_witness :
  exists st,
    af_xdp_init Unsigned env0
      (vi_put (nic_init 2 0) 0 (Vi None 5 128 128 0 offsets_zero None))
      0 2048 0 (PageMap 0 []) = (Rc 0, st)
    /\ exists i v uo,
         vi_get (is_nic st) i = Done v
         /\ user_offsets_page v = Some uo
         /\ ring_rx (rings uo) = OffsetsRing 4096 4160 4224
         /\ ring_tx (rings uo) = OffsetsRing 12288 12352 12416
         /\ ring_fr (rings uo) = OffsetsRing 20480 20544 20608
         /\ ring_cr (rings uo) = OffsetsRing 24576 24640 24704
         /\ mmap_bytes uo = 28672
         /\ mmap_bytes uo = efhw_page_map_bytes (is_page_map st)
         /\ producer (ring_rx (rings uo)) - 0 <= producer (ring_tx (rings uo)) - 0
            <= producer (ring_fr (rings uo)) - 0
         /\ producer (ring_fr (rings uo)) - 0 <= producer (ring_cr (rings uo)) - 0
            <= mmap_bytes uo.
Proof.
  eexists. split; [vm_compute; reflexivity|].
  pose proof (af_xdp_init_ring_offsets Unsigned env0
                (vi_put (nic_init 2 0) 0 (Vi None 5 128 128 0 offsets_zero None))
                0 2048 0 (PageMap 0 []) _ eq_refl) as Hw.
  destruct Hw
    as (i & v & uo & _ & Hv & Hp & Hrx & Htx & Hfr & Hcr & Hn & Hm & Hb & Hord).
  - simpl. lia.
  - vm_compute. reflexivity.
  - destruct Hord as (_ & O1 & O2 & _).
    + vm_compute. reflexivity.
    + intros o Ho. vm_compute in Ho.
      repeat (apply elem_of_cons in Ho as [->|Ho]; [simpl; lia|]).
      apply elem_of_nil in Ho. contradiction.
    + exists i, v, uo.
      split; [exact Hv|]. split; [exact Hp|]. split; [exact Hrx|]. split; [exact Htx|].
      split; [exact Hfr|]. split; [exact Hcr|].
      split; [rewrite Hm, Hn; reflexivity|]. split; [exact Hb|].
      split; [exact O1|exact O2].
Defined.

(** * Protection domains *)

Lemma umem_tracks_agree h h' u bs :
  (forall l, l ∈ owned u bs -> objs h' !! l = objs h !! l) ->
  umem_tracks h u bs -> umem_tracks h' u bs.
Proof.
  intros E [Hc Hl [rest Hs] Hnd Hlive]. split; try assumption.
  - exists rest. rewrite <- Hs. unfold ptr_slots, owned in *.
    destruct (blocks u) as [| |a]; try reflexivity.
    rewrite E; [reflexivity|]. simpl. left.
  - apply Forall_forall. intros b Hb.
    destruct (proj1 (Forall_forall _ _) Hlive b Hb) as (ad & Hbl & L).
    exists ad. split; [|exact L]. rewrite E; [exact Hbl|].
    unfold owned. apply elem_of_app. right. exact Hb.
Qed.

Lemma umem_tracks_live h u bs l :
  umem_tracks h u bs -> l ∈ owned u bs ->
  exists o, objs h !! l = Some o /\ forall hd va, o <> OBtb hd va.
Proof.
  intros [Hc Hl [rest Hs] Hnd Hlive] Hin. unfold owned in Hin.
  apply elem_of_app in Hin as [Hin|Hin].
  - destruct (blocks u) as [| |a]; simpl in Hin; try (inversion Hin; fail).
    apply list_elem_of_singleton in Hin. subst l. simpl in Hs.
    destruct (objs h !! a) as [[s| |]|]; try discriminate.
    eexists. split; [reflexivity|]. discriminate.
  - destruct (proj1 (Forall_forall _ _) Hlive l Hin) as (ad & Hbl & _).
    eexists. split; [exact Hbl|]. discriminate.
Qed.

Lemma pd_get_put nic i d d' :
  pd_get nic i = Done d -> pd_get (pd_put nic i d') i = Done d'.
Proof.
  unfold pd_get, pd_put, array_get. destruct nic as [[x|] lim]; [|discriminate].
  simpl. destruct (i <? 0); [discriminate|].
  destruct (xdp_pd x !! Z.to_nat i) eqn:E; [|discriminate]. intros _.
  rewrite list_lookup_insert_eq; [reflexivity|].
  apply lookup_lt_Some in E. exact E.
Qed.

Lemma pd_get_put_ne nic i j d' :
  0 <= i -> 0 <= j -> i <> j -> pd_get (pd_put nic i d') j = pd_get nic j.
Proof.
  intros Hi Hj Hne. unfold pd_get, pd_put, array_get.
  destruct nic as [[x|] lim]; [|reflexivity]. simpl.
  rewrite list_lookup_insert_ne by lia. reflexivity.
Qed.

Lemma pd_put_same nic i d : pd_get nic i = Done d -> pd_put nic i d = nic.
Proof.
  unfold pd_get, pd_put, array_get. destruct nic as [[x|] lim]; simpl; [|discriminate].
  destruct (i <? 0); [discriminate|].
  destruct (xdp_pd x !! Z.to_nat i) eqn:E; [|discriminate]. intros [= ->].
  rewrite list_insert_id by exact E. destruct x. reflexivity.
Qed.

Lemma pd_by_owner_in_range nic owner d :
  0 <= owner <= MAX_PDS -> pd_get nic owner = Done d -> pd_by_owner nic owner = Some owner.
Proof.
  intros Hr Hg. unfold pd_by_owner, pd_get in *.
  destruct (af_xdp nic); [|discriminate].
  rewrite Z.gtb_ltb, (proj2 (Z.ltb_ge MAX_PDS owner)), (proj2 (Z.ltb_ge owner 0)) by lia.
  reflexivity.
Qed.

Lemma btb_handle_fields owner order :
  0 <= owner < 2 ^ 23 -> 0 <= order < 256 ->
  C.sint (Z.shiftr (btb_handle owner order) 8) = owner
  /\ C.sint (Z.land (btb_handle owner order) 255) = order.
Proof.
  intros Ho Hr. unfold btb_handle.
  rewrite Z.shiftl_mul_pow2 by lia. change (2 ^ 8) with 256.
  rewrite (sint_small (owner * 256)) by lia.
  assert (E : Z.lor order (owner * 256) = order + owner * 256).
  { rewrite <- Z.lxor_lor.
    - rewrite <- Z.add_nocarry_lxor; [reflexivity|].
      apply Z.bits_inj'. intros n Hn. rewrite Z.land_spec, Z.bits_0.
      destruct (Z_lt_dec n 8).
      + replace (owner * 256) with (owner * 2 ^ 8) by reflexivity.
        rewrite (Z.mul_pow2_bits_low owner 8 n) by lia. apply andb_false_r.
      + replace (Z.testbit order n) with false; [reflexivity|].
        symmetry. apply (Z.bits_above_log2 order n); [lia|].
        destruct (Z.eq_dec order 0) as [->|]; [simpl; lia|].
        apply Z.log2_lt_pow2; [lia|].
        apply Z.lt_le_trans with (2 ^ 8); [exact (proj2 Hr)|].
        apply Z.pow_le_mono_r; lia.
    - apply Z.bits_inj'. intros n Hn. rewrite Z.land_spec, Z.bits_0.
      destruct (Z_lt_dec n 8).
      + replace (owner * 256) with (owner * 2 ^ 8) by reflexivity.
        rewrite (Z.mul_pow2_bits_low owner 8 n) by lia. apply andb_false_r.
      + replace (Z.testbit order n) with false; [reflexivity|].
        symmetry. apply (Z.bits_above_log2 order n); [lia|].
        destruct (Z.eq_dec order 0) as [->|]; [simpl; lia|].
        apply Z.log2_lt_pow2; [lia|].
        apply Z.lt_le_trans with (2 ^ 8); [exact (proj2 Hr)|].
        apply Z.pow_le_mono_r; lia. }
  rewrite E. rewrite uint_small by lia. split.
  - rewrite Z.shiftr_div_pow2 by lia. change (2 ^ 8) with 256.
    rewrite Z.div_add by lia. rewrite Z.div_small by lia. apply sint_small. lia.
  - change 255 with (Z.ones 8). rewrite Z.land_ones by lia. change (2 ^ 8) with 256.
    rewrite Z.mod_add by lia. rewrite Z.mod_small by lia. apply sint_small. lia.
Qed.

Lemma div_round_up x : 0 <= x -> x <= (x + UMEM_BLOCK - 1) / UMEM_BLOCK * UMEM_BLOCK.
Proof.
  intros H. change UMEM_BLOCK with 512.
  pose proof (Z.div_mod (x + 512 - 1) 512 ltac:(lia)) as E.
  pose proof (Z.mod_pos_bound (x + 512 - 1) 512 ltac:(lia)) as B. lia.
Qed.

Lemma alloc_blocks_value u new_pages :
  0 <= page_count u -> 0 < new_pages -> page_count u + new_pages + 511 < 2 ^ 63 ->
  alloc_blocks u new_pages = (page_count u + new_pages + UMEM_BLOCK - 1) / UMEM_BLOCK
  /\ alloc_blocks u new_pages <> 0.
Proof.
  intros H0 H1 H2. unfold alloc_blocks. change UMEM_BLOCK with 512 in *.
  rewrite ulong_small by lia.
  assert (1 <= (page_count u + new_pages + 512 - 1) / 512).
  { apply Z.div_le_lower_bound; lia. }
  assert ((page_count u + new_pages + 512 - 1) / 512 < 2 ^ 63).
  { apply Z.div_lt_upper_bound; lia. }
  rewrite slong_small by lia. split; [reflexivity|lia].
Qed.

Section BufferTableFacts.

Variable BS : Z.
Hypothesis BS_pos : 0 < BS.

Lemma block_pages order :
  0 <= order <= 10 -> BS * 2 ^ order < 2 ^ 31 ->
  C.sint (Z.shiftl BS order) = BS * 2 ^ order /\ 0 < BS * 2 ^ order.
Proof.
  intros Ho Hb. rewrite Z.shiftl_mul_pow2 by lia.
  assert (0 < 2 ^ order) by (apply Z.pow_pos_nonneg; lia).
  split; [apply sint_small|]; nia.
Qed.

(** What [af_xdp_nic_buffer_table_alloc] does for an owner whose PD is in
    the array. *)
Lemma af_xdp_nic_buffer_table_alloc_post h nic owner order d bs :
  0 <= owner < MAX_PDS ->
  pd_get nic owner = Done d ->
  umem_tracks h (umem d) bs ->
  0 <= order <= 10 ->
  BS * 2 ^ order < 2 ^ 31 ->
  0 <= page_count (umem d) ->
  page_count (umem d) + BS * 2 ^ order + 511 < 2 ^ 51 ->
  exists rc blk h' nic' u' new,
    af_xdp_nic_buffer_table_alloc BS h nic owner order = Done (rc, blk, h', nic')
    /\ umem_tracks h' u' (bs ++ new)
    /\ used_page_count u' = used_page_count (umem d)
    /\ ((rc = - ENOMEM /\ blk = None
         /\ nic' = pd_put nic owner
                     (Pd u' (buffer_table_count d) (freed_buffer_table_count d))
         /\ page_count u' = page_count (umem d)
         /\ forall l, outside (owned u' (bs ++ new)) h' l
                      = outside (owned (umem d) bs) h l)
        \/ (rc = 0
            /\ exists b,
                 blk = Some b
                 /\ objs h !! b = None
                 /\ (b ∉ owned u' (bs ++ new))
                 /\ objs h' !! b
                    = Some (OBtb (btb_handle owner order)
                                 (page_count (umem d) * PAGE_SIZE))
                 /\ nic' = pd_put nic owner
                             (Pd u' (C.slong (buffer_table_count d + 1))
                                 (freed_buffer_table_count d))
                 /\ page_count u' = page_count (umem d) + BS * 2 ^ order
                 /\ page_count u' <= block_count u' * UMEM_BLOCK
                 /\ forall l, l <> b ->
                              outside (owned u' (bs ++ new)) h' l
                              = outside (owned (umem d) bs) h l)).
Proof.
  intros Ho Hget Htr Hord Hbs Hpc0 Hpc.
  destruct (block_pages order Hord Hbs) as [Hnp Hnp0].
  unfold af_xdp_nic_buffer_table_alloc.
  rewrite (pd_by_owner_in_range nic owner d) by (try assumption; lia).
  change (C.sint (Z.shiftl 1 24)) with 16777216.
  rewrite Z.geb_leb, (proj2 (Z.leb_gt 16777216 owner)) by (change MAX_PDS with 256 in Ho; lia).
  destruct (kalloc (OBtb 0 0) h) as [[b|] h1] eqn:Hk.
  2:{ apply kalloc_None in Hk.
      exists (- ENOMEM), None, h1, nic, (umem d), []. rewrite app_nil_r.
      split; [reflexivity|]. split; [eapply umem_tracks_objs; eassumption|].
      split; [reflexivity|]. left. split; [reflexivity|]. split; [reflexivity|].
      split; [|split; [reflexivity|]].
      - symmetry. replace (Pd _ _ _) with d by (destruct d; reflexivity).
        apply pd_put_same. exact Hget.
      - intros l. unfold outside. rewrite Hk. reflexivity. }
  apply kalloc_Some in Hk as [Hfresh Hh1].
  rewrite Hget, bind_Done.
  fold (btb_handle owner order).
  assert (Hva : C.ulong (Z.shiftl (page_count (umem d)) PAGE_SHIFT)
                = page_count (umem d) * PAGE_SIZE).
  { change PAGE_SHIFT with 12. rewrite Z.shiftl_mul_pow2 by lia.
    change (2 ^ 12) with 4096. change PAGE_SIZE with 4096. apply ulong_small. lia. }
  rewrite Hva, Hnp.
  set (h2 := Heap _ (script h1)).
  assert (Hbo : b ∉ owned (umem d) bs).
  { intros Hin. destruct (umem_tracks_live _ _ _ _ Htr Hin) as (o & Ho' & _).
    rewrite Ho' in Hfresh. discriminate. }
  assert (Hh2 : forall l, l <> b -> objs h2 !! l = objs h !! l).
  { intros l Hl. subst h2. simpl. rewrite lookup_insert_ne, Hh1, lookup_insert_ne by congruence.
    reflexivity. }
  assert (Hh2b : objs h2 !! b
                 = Some (OBtb (btb_handle owner order) (page_count (umem d) * PAGE_SIZE)))
    by (subst h2; simpl; apply lookup_insert_eq).
  assert (Htr2 : umem_tracks h2 (umem d) bs).
  { eapply umem_tracks_agree; [|exact Htr]. intros l Hl. apply Hh2. intros ->. contradiction. }
  destruct (umem_pages_alloc_spec h2 (umem d) bs (BS * 2 ^ order) Htr2)
    as (rc & h3 & u' & new & Hrun & Hused & Hpost).
  rewrite Hrun, bind_Done. cbv beta iota.
  assert (Hb3 : (forall l', outside (owned u' (bs ++ new)) h3 l'
                            = outside (owned (umem d) bs) h2 l') ->
                (b ∉ owned u' (bs ++ new))
                /\ objs h3 !! b
                   = Some (OBtb (btb_handle owner order) (page_count (umem d) * PAGE_SIZE))).
  { intros Hfr. specialize (Hfr b). unfold outside in Hfr.
    rewrite (decide_False (P := b ∈ owned (umem d) bs)) in Hfr by exact Hbo.
    rewrite Hh2b in Hfr.
    destruct (decide (b ∈ owned u' (bs ++ new))); [discriminate|]. auto. }
  destruct Hpost as [(-> & Hpc' & Htr' & Hfr) | (-> & Hpc' & Hnz)].
  - change (- ENOMEM <? 0) with true. cbv iota.
    destruct (Hb3 Hfr) as [Hbn Hb3'].
    rewrite (kfree_live _ _ _ Hb3'), bind_Done.
    exists (- ENOMEM), None, (Heap (delete b (objs h3)) (script h3)),
      (pd_put nic owner (Pd u' (buffer_table_count d) (freed_buffer_table_count d))),
      u', new.
    split; [reflexivity|]. split.
    { eapply umem_tracks_agree; [|exact Htr']. intros l Hl. simpl.
      apply lookup_delete_ne. intros ->. contradiction. }
    split; [exact Hused|]. left. repeat split; try assumption.
    intros l. unfold outside. simpl.
    destruct (decide (l = b)) as [->|Hlb].
    + rewrite !decide_False by assumption. rewrite lookup_delete_eq. symmetry. exact Hfresh.
    + specialize (Hfr l). unfold outside in Hfr. rewrite lookup_delete_ne by congruence.
      rewrite Hfr, Hh2 by exact Hlb. reflexivity.
  - change (0 <? 0) with false. cbv iota.
    destruct (alloc_blocks_value (umem d) (BS * 2 ^ order)) as [Hnb Hnb0]; [lia..|].
    destruct (Hnz Hnb0) as (Htr' & Hfr & Hcnt).
    destruct (Hb3 Hfr) as [Hbn Hb3'].
    exists 0, (Some b), h3,
      (pd_put nic owner
         (Pd u' (C.slong (buffer_table_count d + 1)) (freed_buffer_table_count d))),
      u', new.
    split; [reflexivity|]. split; [exact Htr'|]. split; [exact Hused|]. right.
    split; [reflexivity|]. exists b.
    assert (Hpc'' : page_count u' = page_count (umem d) + BS * 2 ^ order).
    { rewrite Hpc'. apply slong_small. lia. }
    repeat split; try assumption.
    + rewrite Hpc''.
      pose proof (div_round_up (page_count (umem d) + BS * 2 ^ order) ltac:(lia)) as R.
      rewrite Hnb in Hcnt. change UMEM_BLOCK with 512 in *. nia.
    + intros l Hl. rewrite Hfr. unfold outside. rewrite Hh2 by exact Hl. reflexivity.
Qed.

End BufferTableFacts.

(** C6 as stated fails: an owner of [2^24] is turned away by the PD lookup
    with [-ENODEV]; the test against the owner bits of the handle, and its
    [-ENOSPC], is never reached. *)
Lemma af_xdp_nic_buffer_table_alloc_owner_2_24 :
  af_xdp_nic_buffer_table_alloc 32 heap0 (nic_init 4 0) (2 ^ 24) 0
  = Done (- ENODEV, None, heap0, nic_init 4 0)
  /\ forall blk h' nic',
       af_xdp_nic_buffer_table_alloc 32 heap0 (nic_init 4 0) (2 ^ 24) 0
       <> Done (- ENOSPC, blk, h', nic').
Proof.
  assert (E : af_xdp_nic_buffer_table_alloc 32 heap0 (nic_init 4 0) (2 ^ 24) 0
              = Done (- ENODEV, None, heap0, nic_init 4 0)) by reflexivity.
  split; [exact E|]. intros blk h' nic'. rewrite E. discriminate.
Qed.

Section BufferTableAlloc.

Variable BS : Z.
Hypothesis BS_pos : 0 < BS.

Lemma umem_pages_alloc_rc h u new_pages rc h' u' :
  umem_pages_alloc h u new_pages = Done (rc, h', u') -> rc = 0 \/ rc = - ENOMEM.
Proof.
  unfold umem_pages_alloc. intros H.
  apply bind_inv in H as ([p h1] & _ & H).
  destruct p; [injection H as <- _ _; auto| |];
    apply bind_inv in H as ([[ok h2] u2] & _ & H);
    destruct ok; injection H as <- _ _; auto.
Qed.

(** No owner gets [-ENOSPC]. *)
Lemma af_xdp_nic_buffer_table_alloc_never_enospc h nic owner order blk h' nic' :
  af_xdp_nic_buffer_table_alloc BS h nic owner order <> Done (- ENOSPC, blk, h', nic').
Proof.
  unfold af_xdp_nic_buffer_table_alloc.
  destruct (pd_by_owner nic owner) as [i|] eqn:Hpd; [|discriminate].
  apply pd_by_owner_Some in Hpd as (-> & Hr & _).
  change (C.sint (Z.shiftl 1 24)) with 16777216.
  rewrite Z.geb_leb, (proj2 (Z.leb_gt 16777216 owner)) by (change MAX_PDS with 256 in Hr; lia).
  destruct (kalloc (OBtb 0 0) h) as [[b|] h1]; [|discriminate].
  destruct (pd_get nic owner) as [d|]; [|discriminate]. rewrite bind_Done.
  destruct (umem_pages_alloc _ _ _) as [[[rc h3] u]|] eqn:Hrun; [|discriminate].
  apply umem_pages_alloc_rc in Hrun.
  rewrite bind_Done. cbv beta iota.
  destruct (rc <? 0) eqn:E.
  - destruct (kfree (Ptr b) h3); [|discriminate]. rewrite bind_Done.
    intros [= -> _ _ _]. destruct Hrun; discriminate.
  - discriminate.
Qed.

(** C6, amended: [af_xdp_nic_buffer_table_alloc] fails with [-ENODEV], and
    touches nothing, for every owner below 0 or above [MAX_PDS], thus for
    every owner from [2^24] on.  For an owner in [0, MAX_PDS) it returns 0 or
    [-ENOMEM].  With 0 it hands out a block whose handle holds the order
    and the owner and whose [btb_vaddr] is the [page_count] of the PD
    before the call in bytes, the PD has grown by
    [EFHW_BUFFER_TABLE_BLOCK_SIZE << order] pages and
    [buffer_table_count] is one higher.  With [-ENOMEM] no block is handed
    out, [buffer_table_count] and [page_count] are as before, and the heap
    holds no buffer table block that was not there before the call. *)
Theorem af_xdp_nic_buffer_table_alloc_amended h nic owner order :
  (owner < 0 \/ MAX_PDS < owner ->
   af_xdp_nic_buffer_table_alloc BS h nic owner order = Done (- ENODEV, None, h, nic))
  /\ (forall d bs,
        0 <= owner < MAX_PDS ->
        pd_get nic owner = Done d ->
        umem_tracks h (umem d) bs ->
        0 <= order <= 10 ->
        BS * 2 ^ order < 2 ^ 31 ->
        0 <= page_count (umem d) ->
        page_count (umem d) + BS * 2 ^ order + 511 < 2 ^ 51 ->
        0 <= buffer_table_count d < 2 ^ 63 - 1 ->
        exists rc blk h' nic' d',
          af_xdp_nic_buffer_table_alloc BS h nic owner order = Done (rc, blk, h', nic')
          /\ pd_get nic' owner = Done d'
          /\ (rc = 0 \/ rc = - ENOMEM)
          /\ freed_buffer_table_count d' = freed_buffer_table_count d
          /\ (rc = 0 ->
              exists b,
                blk = Some b
                /\ btb_get h' b
                   = Done (btb_handle owner order, page_count (umem d) * PAGE_SIZE)
                /\ page_count (umem d') = page_count (umem d) + BS * 2 ^ order
                /\ buffer_table_count d' = buffer_table_count d + 1)
          /\ (rc = - ENOMEM ->
              blk = None
              /\ buffer_table_count d' = buffer_table_count d
              /\ page_count (umem d') = page_count (umem d)
              /\ forall l hd va,
                   objs h' !! l = Some (OBtb hd va) -> objs h !! l = Some (OBtb hd va))).
Proof.
  split.
  - intros Hout. unfold af_xdp_nic_buffer_table_alloc.
    rewrite (pd_by_owner_outside nic owner Hout). reflexivity.
  - intros d bs Ho Hget Htr Hord Hbs Hpc0 Hpc Hcnt.
    destruct (af_xdp_nic_buffer_table_alloc_post BS BS_pos h nic owner order d bs
                Ho Hget Htr Hord Hbs Hpc0 Hpc)
      as (rc & blk & h' & nic' & u' & new & Hrun & Htr' & Hused & Hcase).
    destruct Hcase as [(-> & -> & -> & Hpc' & Hfr)
                      |(-> & b & -> & Hfresh & Hbn & Hb & -> & Hpc' & _ & Hfr)].
    + eexists (- ENOMEM), None, h', _, _. split; [exact Hrun|].
      split; [eapply pd_get_put; exact Hget|]. split; [right; reflexivity|].
      split; [reflexivity|]. split; [discriminate|]. intros _. simpl.
      repeat split; try assumption.
      intros l hd va Hl. specialize (Hfr l). unfold outside in Hfr.
      destruct (decide (l ∈ owned u' (bs ++ new))) as [Hin|Hin].
      * destruct (umem_tracks_live _ _ _ _ Htr' Hin) as (o & Ho' & Hno).
        rewrite Ho' in Hl. injection Hl as ->. exfalso. eapply Hno. reflexivity.
      * rewrite Hl in Hfr. destruct (decide (l ∈ owned (umem d) bs)); [discriminate|].
        symmetry. exact Hfr.
    + eexists 0, (Some b), h', _, _. split; [exact Hrun|].
      split; [eapply pd_get_put; exact Hget|]. split; [left; reflexivity|].
      split; [reflexivity|]. split; [|discriminate]. intros _. exists b. simpl.
      split; [reflexivity|]. split; [unfold btb_get; rewrite Hb; reflexivity|].
      split; [exact Hpc'|]. apply slong_small. lia.
Qed.

End BufferTableAlloc.

Lemma af_xdp_nic_buffer_table_alloc_amended_witness :
  af_xdp_nic_buffer_table_alloc 32 heap0 (nic_init 4 0) (2 ^ 24) 0
  = Done (- ENODEV, None, heap0, nic_init 4 0)
  /\ exists rc blk h' nic' d',
       af_xdp_nic_buffer_table_alloc 32 heap0 (nic_init 4 0) 5 2 = Done (rc, blk, h', nic')
       /\ pd_get nic' 5 = Done d'
       /\ (rc = 0 \/ rc = - ENOMEM)
       /\ freed_buffer_table_count d' = 0
       /\ (rc = 0 ->
           exists b,
             blk = Some b
             /\ btb_get h' b = Done (btb_handle 5 2, 0 * PAGE_SIZE)
             /\ page_count (umem d') = 0 + 32 * 2 ^ 2
             /\ buffer_table_count d' = 0 + 1)
       /\ (rc = - ENOMEM ->
           blk = None
           /\ buffer_table_count d' = 0
           /\ page_count (umem d') = 0
           /\ forall l hd va,
                objs h' !! l = Some (OBtb hd va) -> objs heap0 !! l = Some (OBtb hd va)).
Proof.
  split.
  - apply (proj1 (af_xdp_nic_buffer_table_alloc_amended 32 ltac:(lia) heap0 (nic_init 4 0)
                    (2 ^ 24) 0)).
    right. vm_compute. reflexivity.
  - apply (proj2 (af_xdp_nic_buffer_table_alloc_amended 32 ltac:(lia) heap0 (nic_init 4 0)
                    5 2) pd_zero []).
    + vm_compute. split; congruence.
    + reflexivity.
    + apply umem_tracks_zero.
    + lia.
    + reflexivity.
    + simpl. lia.
    + reflexivity.
    + simpl. lia.
Defined.

(** ** Buffer table accounting *)

Lemma pd_get_put_inv nic i d' j d :
  0 <= i ->
  pd_get (pd_put nic i d') j = Done d ->
  (j = i /\ d = d') \/ pd_get nic j = Done d.
Proof.
  intros Hi. unfold pd_get, pd_put, array_get.
  destruct nic as [[x|] lim]; simpl; [|discriminate].
  destruct (j <? 0) eqn:Hj; [discriminate|]. apply Z.ltb_ge in Hj.
  destruct (Z.eq_dec j i) as [->|Hne].
  - destruct (xdp_pd x !! Z.to_nat i) eqn:E.
    + rewrite list_lookup_insert_eq by (apply lookup_lt_Some in E; exact E).
      intros [= <-]. left. auto.
    + rewrite list_insert_ge by (apply lookup_ge_None; exact E). rewrite E. discriminate.
  - rewrite list_lookup_insert_ne by lia. auto.
Qed.

(** How [xdp_release_pd] ends when it returns. *)
Lemma xdp_release_pd_inv h nic owner h' nic' :
  xdp_release_pd h nic owner = Done (h', nic') ->
  exists d,
    pd_by_owner nic owner = Some owner
    /\ pd_get nic owner = Done d
    /\ freed_buffer_table_count d < buffer_table_count d
    /\ ((C.slong (freed_buffer_table_count d + 1) <> buffer_table_count d
         /\ h' = h
         /\ nic' = pd_put nic owner
                     (Pd (umem d) (buffer_table_count d)
                         (C.slong (freed_buffer_table_count d + 1))))
        \/ (C.slong (freed_buffer_table_count d + 1) = buffer_table_count d
            /\ umem_pages_free h (umem d) = Done h'
            /\ nic' = pd_put nic owner pd_zero)).
Proof.
  unfold xdp_release_pd. intros H.
  destruct (pd_by_owner nic owner) as [i|] eqn:Hpd; [|discriminate].
  pose proof (pd_by_owner_Some _ _ _ Hpd) as (-> & _ & _).
  apply bind_inv in H as (d & Hget & H). exists d.
  destruct (freed_buffer_table_count d >=? buffer_table_count d) eqn:Hge; [discriminate|].
  zbool. split; [reflexivity|]. split; [exact Hget|]. split; [lia|].
  destruct (C.slong (freed_buffer_table_count d + 1) =? buffer_table_count d) eqn:Heq;
    simpl in H.
  - apply Z.eqb_eq in Heq. apply bind_inv in H as (h1 & Hfree & [= <- <-]). right. auto.
  - apply Z.eqb_neq in Heq. injection H as <- <-. left. auto.
Qed.

Lemma af_xdp_nic_buffer_table_free_inv h nic block h' nic' :
  af_xdp_nic_buffer_table_free h nic block = Done (h', nic') ->
  exists handle vaddr,
    btb_get h block = Done (handle, vaddr)
    /\ xdp_release_pd (Heap (delete block (objs h)) (script h)) nic
         (C.sint (Z.shiftr handle 8)) = Done (h', nic').
Proof.
  unfold af_xdp_nic_buffer_table_free. intros H.
  apply bind_inv in H as ([handle vaddr] & Hb & H). exists handle, vaddr.
  split; [exact Hb|]. apply bind_inv in H as (h1 & Hf & H).
  unfold btb_get in Hb. unfold kfree in Hf.
  destruct (objs h !! block); [|discriminate]. injection Hf as <-. exact H.
Qed.

Lemma pd_counts_mono n m d : n <= m -> pd_counts n d -> pd_counts m d.
Proof. unfold pd_counts. intros; lia. Qed.

Lemma nic_counts_put n nic i d' :
  0 <= i -> nic_counts n nic -> pd_counts n d' -> nic_counts n (pd_put nic i d').
Proof.
  intros Hi Hn Hd j d Hg. apply pd_get_put_inv in Hg as [[_ ->]|Hg]; [exact Hd| |exact Hi].
  eapply Hn. exact Hg.
Qed.

Lemma nic_counts_init lim map : nic_counts 0 (nic_init lim map).
Proof.
  intros i d. unfold pd_get, nic_init, array_get. cbn [af_xdp xdp_pd].
  destruct (i <? 0); [discriminate|].
  destruct (replicate (Z.to_nat MAX_PDS) pd_zero !! Z.to_nat i) eqn:E; [|discriminate].
  apply lookup_replicate in E as [-> _]. intros [= <-].
  unfold pd_counts. simpl. lia.
Qed.

Lemma bt_step_counts BS n c h nic h' nic' :
  nic_counts n nic -> n < 2 ^ 63 - 1 ->
  bt_step BS c (h, nic) = Done (h', nic') ->
  nic_counts (n + 1) nic'.
Proof.
  intros Hn Hb H.
  assert (Hn1 : nic_counts (n + 1) nic).
  { intros i d Hg. eapply pd_counts_mono; [|eapply Hn; exact Hg]. lia. }
  destruct c as [owner order|block]; simpl in H.
  - apply bind_inv in H as ([[[rc blk] h1] nic1] & Hrun & [= <- <-]).
    unfold af_xdp_nic_buffer_table_alloc in Hrun.
    destruct (pd_by_owner nic owner) as [i|] eqn:Hpd; [|injection Hrun as _ _ _ <-; exact Hn1].
    apply pd_by_owner_Some in Hpd as (-> & Hr & _).
    destruct (owner >=? _); [injection Hrun as _ _ _ <-; exact Hn1|].
    destruct (kalloc (OBtb 0 0) h) as [[b|] h2]; [|injection Hrun as _ _ _ <-; exact Hn1].
    apply bind_inv in Hrun as (d & Hget & Hrun).
    apply bind_inv in Hrun as ([[rc' h3] u] & _ & Hrun).
    pose proof (Hn owner d Hget) as (Hf & Hc & Hcase).
    destruct (rc' <? 0).
    + apply bind_inv in Hrun as (h4 & _ & [= _ _ _ <-]).
      apply nic_counts_put; [lia|exact Hn1|]. unfold pd_counts. simpl. lia.
    + injection Hrun as _ _ _ <-.
      apply nic_counts_put; [lia|exact Hn1|]. unfold pd_counts. simpl.
      rewrite slong_small by lia. lia.
  - apply af_xdp_nic_buffer_table_free_inv in H as (handle & vaddr & _ & H).
    apply xdp_release_pd_inv in H as (d & Hpd & Hget & Hlt & Hcase).
    apply pd_by_owner_Some in Hpd as (_ & Hr & _).
    pose proof (Hn _ d Hget) as (Hf & Hc & _).
    destruct Hcase as [(Hne & _ & ->)|(_ & _ & ->)].
    + apply nic_counts_put; [lia|exact Hn1|]. unfold pd_counts. simpl.
      rewrite slong_small in * by lia. lia.
    + apply nic_counts_put; [lia|exact Hn1|]. unfold pd_counts. simpl. lia.
Qed.

Lemma bt_run_counts BS cs : forall n h nic h' nic',
  nic_counts n nic -> n + Z.of_nat (length cs) < 2 ^ 63 ->
  bt_run BS cs (h, nic) = Done (h', nic') ->
  nic_counts (n + Z.of_nat (length cs)) nic'.
Proof.
  induction cs as [|c cs IH]; intros n h nic h' nic' Hn Hb H.
  - injection H as <- <-. simpl. rewrite Z.add_0_r. exact Hn.
  - simpl in H. apply bind_inv in H as ([h1 nic1] & Hstep & Hrun).
    simpl length in *.
    replace (n + Z.of_nat (S (length cs))) with (n + 1 + Z.of_nat (length cs)) by lia.
    eapply IH; [|lia|exact Hrun].
    eapply bt_step_counts; [exact Hn|lia|exact Hstep].
Qed.

Section BufferTableAccounting.

Variable BS : Z.
Hypothesis BS_pos : 0 < BS.

(** Allocating a block for a PD that has none outstanding and freeing it
    again resets the PD and releases all of its memory. *)
Lemma alloc_free_resets h nic owner order d bs b h1 nic1 :
  0 <= owner < MAX_PDS ->
  pd_get nic owner = Done d ->
  buffer_table_count d = 0 ->
  freed_buffer_table_count d = 0 ->
  umem_tracks h (umem d) bs ->
  0 <= order <= 10 ->
  BS * 2 ^ order < 2 ^ 31 ->
  0 <= page_count (umem d) ->
  page_count (umem d) + BS * 2 ^ order + 511 < 2 ^ 51 ->
  af_xdp_nic_buffer_table_alloc BS h nic owner order = Done (0, Some b, h1, nic1) ->
  exists h2 nic2,
    af_xdp_nic_buffer_table_free h1 nic1 b = Done (h2, nic2)
    /\ pd_get nic2 owner = Done pd_zero
    /\ forall l, objs h2 !! l = outside (owned (umem d) bs) h l.
Proof.
  intros Ho Hget Hc0 Hf0 Htr Hord Hbs Hpc0 Hpc Hrun.
  destruct (af_xdp_nic_buffer_table_alloc_post BS BS_pos h nic owner order d bs
              Ho Hget Htr Hord Hbs Hpc0 Hpc)
    as (rc & blk & h' & nic' & u' & new & Hrun' & Htr' & _ & Hcase).
  rewrite Hrun in Hrun'. injection Hrun' as <- <- <- <-.
  destruct Hcase as [(Hrc & _)|(_ & b' & Hb' & Hfresh & Hbn & Hb & Hnic & _ & _ & Hfr)];
    [discriminate|].
  injection Hb' as <-.
  unfold af_xdp_nic_buffer_table_free, btb_get. rewrite Hb, bind_Done.
  change MAX_PDS with 256 in Ho.
  destruct (btb_handle_fields owner order) as [Hown _]; [lia..|].
  rewrite Hown. rewrite (kfree_live _ _ _ Hb), bind_Done.
  set (h1' := Heap (delete b (objs h1)) (script h1)).
  assert (Hget1 : pd_get nic1 owner
                  = Done (Pd u' (C.slong (buffer_table_count d + 1))
                             (freed_buffer_table_count d)))
    by (rewrite Hnic; eapply pd_get_put; exact Hget).
  unfold xdp_release_pd.
  rewrite (pd_by_owner_in_range nic1 owner _ ltac:(change MAX_PDS with 256; lia) Hget1).
  rewrite Hget1, bind_Done. simpl. rewrite Hc0, Hf0.
  change (C.slong (0 + 1)) with 1. change (0 >=? 1) with false.
  change (negb (1 =? 1)) with false. cbv iota.
  assert (Htr1 : umem_tracks h1' u' (bs ++ new)).
  { eapply umem_tracks_agree; [|exact Htr']. intros l Hl. subst h1'. simpl.
    apply lookup_delete_ne. intros ->. contradiction. }
  destruct (umem_pages_free_spec h1' u' (bs ++ new) Htr1) as (h2 & Hfree & _ & Hout).
  rewrite Hfree, bind_Done. eexists _, _. split; [reflexivity|].
  split; [eapply pd_get_put; exact Hget1|].
  intros l. rewrite Hout.
  destruct (decide (l = b)) as [->|Hlb].
  - unfold outside. rewrite (decide_False (P := b ∈ owned u' (bs ++ new))) by exact Hbn.
    subst h1'. simpl. rewrite lookup_delete_eq.
    destruct (decide (b ∈ owned (umem d) bs)); [reflexivity|]. symmetry. exact Hfresh.
  - rewrite <- (Hfr l Hlb). unfold outside.
    destruct (decide (l ∈ owned u' (bs ++ new))); [reflexivity|].
    subst h1'. simpl. apply lookup_delete_ne. congruence.
Qed.

(** C2: over every sequence of block allocations and frees on a NIC as
    hardware initialisation leaves it, and whichever allocations run out
    of memory, each PD keeps [freed_buffer_table_count] within
    [buffer_table_count].  A free that returns found the PD of the block
    with [freed_buffer_table_count] below [buffer_table_count], so that
    [buffer_table_count] is positive, and it resets that PD, releasing its
    page directory and zeroing it, exactly when the count it increments
    reaches [buffer_table_count]; otherwise only the increment is stored.
    An allocation for a PD with no block outstanding followed by the free
    of that block resets the PD, [page_count] being 0 again, and gives
    back everything the PD held. *)
Theorem buffer_table_accounting :
  (forall cs lim map script h nic,
     Z.of_nat (length cs) < 2 ^ 63 ->
     bt_run BS cs (Heap ∅ script, nic_init lim map) = Done (h, nic) ->
     forall i d, pd_get nic i = Done d ->
                 0 <= freed_buffer_table_count d <= buffer_table_count d)
  /\ (forall h nic block h' nic',
        af_xdp_nic_buffer_table_free h nic block = Done (h', nic') ->
        exists handle vaddr d,
          let owner := C.sint (Z.shiftr handle 8) in
          let rest := Heap (delete block (objs h)) (script h) in
          btb_get h block = Done (handle, vaddr)
          /\ pd_get nic owner = Done d
          /\ freed_buffer_table_count d < buffer_table_count d
          /\ (0 <= freed_buffer_table_count d ->
              buffer_table_count d < 2 ^ 63 ->
              0 < buffer_table_count d
              /\ (freed_buffer_table_count d + 1 = buffer_table_count d ->
                  pd_get nic' owner = Done pd_zero
                  /\ umem_pages_free rest (umem d) = Done h')
              /\ (freed_buffer_table_count d + 1 <> buffer_table_count d ->
                  pd_get nic' owner
                  = Done (Pd (umem d) (buffer_table_count d)
                             (freed_buffer_table_count d + 1))
                  /\ pd_get nic' owner <> Done pd_zero
                  /\ h' = rest)))
  /\ (forall h nic owner order d bs b h1 nic1,
        0 <= owner < MAX_PDS ->
        pd_get nic owner = Done d ->
        buffer_table_count d = 0 ->
        freed_buffer_table_count d = 0 ->
        umem_tracks h (umem d) bs ->
        0 <= order <= 10 ->
        BS * 2 ^ order < 2 ^ 31 ->
        0 <= page_count (umem d) ->
        page_count (umem d) + BS * 2 ^ order + 511 < 2 ^ 51 ->
        af_xdp_nic_buffer_table_alloc BS h nic owner order = Done (0, Some b, h1, nic1) ->
        exists h2 nic2 d2,
          af_xdp_nic_buffer_table_free h1 nic1 b = Done (h2, nic2)
          /\ pd_get nic2 owner = Done d2
          /\ d2 = pd_zero
          /\ page_count (umem d2) = 0
          /\ forall l, objs h2 !! l = outside (owned (umem d) bs) h l).
Proof.
  split; [|split].
  - intros cs lim map script h nic Hlen Hrun i d Hget.
    pose proof (bt_run_counts BS cs 0 _ _ _ _ (nic_counts_init lim map) ltac:(lia) Hrun)
      as Hn.
    destruct (Hn i d Hget) as (H0 & _ & Hcase). lia.
  - intros h nic block h' nic' H.
    apply af_xdp_nic_buffer_table_free_inv in H as (handle & vaddr & Hb & H).
    apply xdp_release_pd_inv in H as (d & Hpd & Hget & Hlt & Hcase).
    exists handle, vaddr, d. cbv zeta.
    split; [exact Hb|]. split; [exact Hget|]. split; [exact Hlt|].
    intros H0 Hlong. split; [lia|].
    rewrite slong_small in Hcase by lia.
    destruct Hcase as [(Hne & -> & ->)|(Heq & Hfree & ->)].
    + split; [intros E; contradiction|]. intros _.
      rewrite (pd_get_put _ _ _ _ Hget). split; [reflexivity|]. split; [|reflexivity].
      intros [= _ Hc Hf]. lia.
    + split; [|intros Hne; contradiction]. intros _.
      split; [eapply pd_get_put; exact Hget | exact Hfree].
  - intros h nic owner order d bs b h1 nic1 Ho Hget Hc0 Hf0 Htr Hord Hbs Hpc0 Hpc Hrun.
    destruct (alloc_free_resets h nic owner order d bs b h1 nic1
                Ho Hget Hc0 Hf0 Htr Hord Hbs Hpc0 Hpc Hrun) as (h2 & nic2 & Hfree & Hg & Hout).
    exists h2, nic2, pd_zero. repeat split; assumption.
Qed.

End BufferTableAccounting.

Lemma buffer_table_accounting_witness :
  (exists h nic,
     bt_run 32 [BtAlloc 5 2; BtAlloc 5 2; BtFree 0%nat] (heap0, nic_init 4 0) = Done (h, nic)
     /\ forall i d, pd_get nic i = Done d ->
                    0 <= freed_buffer_table_count d <= buffer_table_count d)
  /\ (exists b h1 nic1,
        af_xdp_nic_buffer_table_alloc 32 heap0 (nic_init 4 0) 5 2 = Done (0, Some b, h1, nic1)
        /\ exists h2 nic2 d2,
             af_xdp_nic_buffer_table_free h1 nic1 b = Done (h2, nic2)
             /\ pd_get nic2 5 = Done d2
             /\ d2 = pd_zero
             /\ page_count (umem d2) = 0
             /\ forall l, objs h2 !! l = outside (owned umem_zero []) heap0 l).
Proof.
  destruct (buffer_table_accounting 32 ltac:(lia)) as (Ha & _ & Hc). split.
  - eexists _, _. split; [vm_compute; reflexivity|].
    eapply (Ha [BtAlloc 5 2; BtAlloc 5 2; BtFree 0%nat] 4 0 []).
    + simpl. lia.
    + vm_compute. reflexivity.
  - eexists _, _, _. split; [vm_compute; reflexivity|].
    apply (Hc heap0 (nic_init 4 0) 5 2 pd_zero []).
    + vm_compute. split; congruence.
    + reflexivity.
    + reflexivity.
    + reflexivity.
    + apply umem_tracks_zero.
    + lia.
    + reflexivity.
    + simpl. lia.
    + reflexivity.
    + vm_compute. reflexivity.
Defined.

(** * Storing page addresses *)

Lemma tracked_block h u bs q :
  umem_tracks h u bs ->
  0 <= q < block_count u * UMEM_BLOCK -> q < 2 ^ 63 ->
  exists b addrs,
    bs !! Z.to_nat (q / UMEM_BLOCK) = Some b
    /\ objs h !! b = Some (OBlock addrs)
    /\ length addrs = Z.to_nat UMEM_BLOCK
    /\ umem_pages_addr_ptr h u q = Done (b, q mod UMEM_BLOCK).
Proof.
  intros [Hc Hl [rest Hs] Hnd Hlive] Hq Hq63. change UMEM_BLOCK with 512 in *.
  assert (Hidx : 0 <= q / 512 < Z.of_nat (length bs)).
  { split; [apply Z.div_pos; lia|]. apply Z.div_lt_upper_bound; lia. }
  destruct (lookup_lt_is_Some_2 bs (Z.to_nat (q / 512)) ltac:(lia)) as [b Hb].
  destruct (proj1 (Forall_forall _ _) Hlive b (list_elem_of_lookup_2 _ _ _ Hb))
    as (addrs & Hbl & Hlen).
  exists b, addrs. split; [exact Hb|]. split; [exact Hbl|]. split; [exact Hlen|].
  unfold umem_pages_addr_ptr, read_slot. rewrite ulong_small by lia.
  change UMEM_BLOCK with 512.
  destruct (blocks u) as [| |a]; simpl in Hs.
  1,2: injection Hs as Hs; destruct bs; [simpl in Hidx; lia|discriminate].
  destruct (objs h !! a) as [[s| |]|]; try discriminate. injection Hs as ->.
  rewrite (proj2 (Z.ltb_ge (q / 512) 0)) by lia.
  rewrite lookup_app_l by (rewrite length_fmap; lia).
  rewrite list_lookup_fmap, Hb. reflexivity.
Qed.

Lemma umem_pages_get_addr_tracked h u bs q :
  umem_tracks h u bs ->
  0 <= q < block_count u * UMEM_BLOCK -> q < 2 ^ 63 ->
  exists b addrs x,
    bs !! Z.to_nat (q / UMEM_BLOCK) = Some b
    /\ objs h !! b = Some (OBlock addrs)
    /\ addrs !! Z.to_nat (q mod UMEM_BLOCK) = Some x
    /\ umem_pages_get_addr h u q = Done x.
Proof.
  intros Htr Hq Hq63.
  destruct (tracked_block h u bs q Htr Hq Hq63) as (b & addrs & Hb & Hbl & Hlen & Hptr).
  pose proof (Z.mod_pos_bound q UMEM_BLOCK ltac:(reflexivity)) as Hm.
  destruct (lookup_lt_is_Some_2 addrs (Z.to_nat (q mod UMEM_BLOCK)) ltac:(lia)) as [x Hx].
  exists b, addrs, x. repeat split; try assumption.
  unfold umem_pages_get_addr. rewrite Hptr, bind_Done. cbv beta iota.
  rewrite Hbl, Hx. reflexivity.
Qed.

Lemma same_block_same_page (bs : list loc) q p b :
  NoDup bs ->
  0 <= q -> 0 <= p ->
  bs !! Z.to_nat (q / UMEM_BLOCK) = Some b ->
  bs !! Z.to_nat (p / UMEM_BLOCK) = Some b ->
  q mod UMEM_BLOCK = p mod UMEM_BLOCK ->
  q = p.
Proof.
  intros Hnd Hq Hp Hbq Hbp Hm. change UMEM_BLOCK with 512 in *.
  pose proof (NoDup_lookup bs _ _ _ Hnd Hbq Hbp) as E.
  assert (q / 512 = p / 512).
  { pose proof (Z.div_pos q 512 Hq ltac:(lia)). pose proof (Z.div_pos p 512 Hp ltac:(lia)).
    lia. }
  rewrite (Z.div_mod q 512), (Z.div_mod p 512) by lia. congruence.
Qed.

(** One store into a tracked directory. *)
Lemma umem_pages_set_addr_spec h u bs p a :
  umem_tracks h u bs ->
  0 <= p < block_count u * UMEM_BLOCK -> p < 2 ^ 63 ->
  exists h' u',
    umem_pages_set_addr h u p a = Done (h', u')
    /\ umem_tracks h' u' bs
    /\ block_count u' = block_count u
    /\ page_count u' = page_count u
    /\ used_page_count u' = Z.max (used_page_count u) p
    /\ umem_pages_get_addr h' u' p = Done a
    /\ (forall q, 0 <= q < block_count u * UMEM_BLOCK -> q < 2 ^ 63 -> q <> p ->
                  umem_pages_get_addr h' u' q = umem_pages_get_addr h u q)
    /\ (forall l, l ∉ bs -> objs h' !! l = objs h !! l).
Proof.
  intros Htr Hp Hp63.
  destruct (tracked_block h u bs p Htr Hp Hp63) as (b & addrs & Hb & Hbl & Hlen & Hptr).
  pose proof (Z.mod_pos_bound p UMEM_BLOCK ltac:(reflexivity)) as Hm.
  pose proof (list_elem_of_lookup_2 _ _ _ Hb) as Hbin.
  set (addrs' := <[Z.to_nat (p mod UMEM_BLOCK) := a]> addrs).
  set (h' := Heap (<[b := OBlock addrs']> (objs h)) (script h)).
  set (u' := if p >? used_page_count u then set_used_page_count u p else u).
  assert (Hrun : umem_pages_set_addr h u p a = Done (h', u')).
  { unfold umem_pages_set_addr. rewrite Hptr, bind_Done. cbv beta iota. rewrite Hbl.
    rewrite (proj2 (Z.leb_gt _ _)) by lia. reflexivity. }
  assert (Hf : blocks u' = blocks u /\ block_count u' = block_count u
               /\ page_count u' = page_count u
               /\ used_page_count u' = Z.max (used_page_count u) p).
  { pose proof (umem_pages_set_addr_mark _ _ _ _ _ _ Hrun). tauto. }
  destruct Hf as (Hfb & Hfc & Hfp & Hfu).
  assert (Hab : forall l, l ∈ ptr_locs (blocks u) -> l <> b).
  { intros l Hl ->. pose proof (tr_nodup _ _ _ Htr) as Hnd.
    apply NoDup_app in Hnd as (_ & Hdisj & _). exact (Hdisj b Hl Hbin). }
  assert (Htr' : umem_tracks h' u' bs).
  { destruct Htr as [Hc Hl [rest Hs] Hnd Hlive]. split.
    - rewrite Hfc. exact Hc.
    - rewrite Hfc. exact Hl.
    - exists rest. rewrite Hfb, <- Hs. unfold ptr_slots.
      destruct (blocks u) as [| |a0]; try reflexivity.
      subst h'. simpl. rewrite lookup_insert_ne; [reflexivity|].
      intros <-. eapply Hab; [left|reflexivity].
    - rewrite Hfb. exact Hnd.
    - apply Forall_forall. intros x Hx.
      destruct (proj1 (Forall_forall _ _) Hlive x Hx) as (ad & Hxl & L).
      subst h'. unfold is_block. simpl.
      destruct (decide (x = b)) as [->|Hxb].
      + rewrite lookup_insert_eq. eexists. split; [reflexivity|].
        subst addrs'. rewrite length_insert. exact Hlen.
      + rewrite lookup_insert_ne by congruence. eauto. }
  exists h', u'. split; [exact Hrun|]. split; [exact Htr'|].
  split; [exact Hfc|]. split; [exact Hfp|]. split; [exact Hfu|].
  assert (Hnd : NoDup bs).
  { pose proof (tr_nodup _ _ _ Htr) as Hnd. apply NoDup_app in Hnd. tauto. }
  split; [|split].
  - destruct (umem_pages_get_addr_tracked h' u' bs p Htr') as (b1 & ad1 & x & Hb1 & Hbl1 & Hx & Hg);
      [rewrite Hfc; exact Hp|exact Hp63|].
    rewrite Hg. rewrite Hb in Hb1. injection Hb1 as <-.
    subst h'. simpl in Hbl1. rewrite lookup_insert_eq in Hbl1. injection Hbl1 as <-.
    subst addrs'. rewrite list_lookup_insert_eq in Hx by lia. congruence.
  - intros q Hq Hq63 Hne.
    destruct (umem_pages_get_addr_tracked h u bs q Htr Hq Hq63)
      as (b0 & ad0 & x0 & Hb0 & Hbl0 & Hx0 & Hg0).
    destruct (umem_pages_get_addr_tracked h' u' bs q Htr') as (b1 & ad1 & x1 & Hb1 & Hbl1 & Hx1 & Hg1);
      [rewrite Hfc; exact Hq|exact Hq63|].
    rewrite Hg0, Hg1. rewrite Hb0 in Hb1. injection Hb1 as <-.
    subst h'. simpl in Hbl1.
    destruct (decide (b0 = b)) as [->|Hbb].
    + rewrite lookup_insert_eq in Hbl1. injection Hbl1 as <-.
      rewrite Hbl in Hbl0. injection Hbl0 as <-.
      subst addrs'. rewrite list_lookup_insert_ne in Hx1.
      * congruence.
      * intros E. apply Hne.
        apply (same_block_same_page bs q p b); try assumption; try lia.
        pose proof (Z.mod_pos_bound q UMEM_BLOCK ltac:(reflexivity)). lia.
    + rewrite lookup_insert_ne in Hbl1 by congruence. congruence.
  - intros l Hl. subst h'. simpl. apply lookup_insert_ne. intros <-. contradiction.
Qed.

Ltac loop_done Htr :=
  split; [reflexivity|]; split; [exact Htr|]; split; [reflexivity|];
  split; [reflexivity|]; split; [intros; lia|]; split; intros; reflexivity.

Lemma ulong_add_idemp x y : C.ulong (C.ulong x + y) = C.ulong (x + y).
Proof. unfold C.ulong. apply Zplus_mod_idemp_l. Qed.

(** The pages of one entry. *)
Lemma buffer_table_set_pages_spec bs :
  forall fuel lim j h u page dma,
    umem_tracks h u bs ->
    0 <= j <= lim -> lim < 2 ^ 31 -> lim - j <= Z.of_nat fuel ->
    0 <= page -> page + (lim - j) <= block_count u * UMEM_BLOCK ->
    block_count u * UMEM_BLOCK < 2 ^ 62 ->
    0 <= dma < 2 ^ 64 ->
    exists h' u',
      buffer_table_set_pages fuel lim j h u page dma = Done (h', u', page + (lim - j))
      /\ umem_tracks h' u' bs
      /\ block_count u' = block_count u
      /\ page_count u' = page_count u
      /\ (forall q, page <= q < page + (lim - j) ->
                    umem_pages_get_addr h' u' q
                    = Done (C.ulong (dma + (q - page) * PAGE_SIZE)))
      /\ (forall q, 0 <= q < block_count u * UMEM_BLOCK ->
                    ~ (page <= q < page + (lim - j)) ->
                    umem_pages_get_addr h' u' q = umem_pages_get_addr h u q)
      /\ (forall l, l ∉ bs -> objs h' !! l = objs h !! l).
Proof.
  induction fuel as [|fuel IH]; intros lim j h u page dma Htr Hj Hlim Hfuel Hpage Hfit Hcap Hdma.
  - assert (lim = j) as -> by lia. exists h, u. simpl.
    replace (page + (j - j)) with page by lia.
    loop_done Htr.
  - cbn [buffer_table_set_pages].
    destruct (j <? lim) eqn:Hg; zbool.
    2:{ assert (lim = j) as -> by lia. exists h, u.
        replace (page + (j - j)) with page by lia.
        loop_done Htr. }
    destruct (umem_pages_set_addr_spec h u bs page dma Htr ltac:(lia) ltac:(lia))
      as (h1 & u1 & Hset & Htr1 & Hc1 & Hp1 & _ & Hget1 & Hother1 & Hfr1).
    rewrite Hset, bind_Done. cbv beta iota.
    rewrite (sint_small (j + 1)) by lia. rewrite (slong_small (page + 1)) by lia.
    destruct (IH lim (j + 1) h1 u1 (page + 1) (C.ulong (dma + PAGE_SIZE)) Htr1
                ltac:(lia) Hlim ltac:(lia) ltac:(lia) ltac:(rewrite Hc1; lia)
                ltac:(rewrite Hc1; lia) (ulong_range _))
      as (h' & u' & Hrun & Htr' & Hc' & Hp' & Hin & Hout & Hfr').
    exists h', u'.
    replace (page + (lim - j)) with (page + 1 + (lim - (j + 1))) by lia.
    split; [exact Hrun|]. split; [exact Htr'|].
    split; [lia|]. split; [congruence|]. split; [|split].
    + intros q Hq. destruct (Z.eq_dec q page) as [->|Hne].
      * rewrite Hout by (rewrite ?Hc1; lia). rewrite Hget1.
        replace (dma + (page - page) * PAGE_SIZE) with dma by lia.
        rewrite ulong_small by lia. reflexivity.
      * rewrite Hin by lia. rewrite ulong_add_idemp. f_equal. f_equal. lia.
    + intros q Hq Hnot. rewrite Hout by (rewrite ?Hc1; lia).
      apply Hother1; lia.
    + intros l Hl. rewrite Hfr', Hfr1 by exact Hl. reflexivity.
Qed.

Lemma one_shl order : 0 <= order <= 10 ->
  C.sint (Z.shiftl 1 order) = 2 ^ order /\ 0 < 2 ^ order <= 1024.
Proof.
  intros H. rewrite Z.shiftl_mul_pow2, Z.mul_1_l by lia.
  assert (0 < 2 ^ order) by (apply Z.pow_pos_nonneg; lia).
  assert (2 ^ order <= 2 ^ 10) by (apply Z.pow_le_mono_r; lia).
  change (2 ^ 10) with 1024 in *. split; [apply sint_small|]; lia.
Qed.

(** The entries of one call. *)
Lemma buffer_table_set_entries_spec bs order :
  0 <= order <= 10 ->
  forall fuel n i (dma_addrs : list Z) h u page,
    umem_tracks h u bs ->
    0 <= i <= n -> n < 2 ^ 31 -> n - i <= Z.of_nat fuel ->
    n <= Z.of_nat (length dma_addrs) ->
    Forall (fun a => 0 <= a < 2 ^ 64) dma_addrs ->
    0 <= page -> page + (n - i) * 2 ^ order <= block_count u * UMEM_BLOCK ->
    block_count u * UMEM_BLOCK < 2 ^ 62 ->
    exists h' u',
      buffer_table_set_entries fuel n order i dma_addrs h u page
      = Done (h', u', page + (n - i) * 2 ^ order)
      /\ umem_tracks h' u' bs
      /\ block_count u' = block_count u
      /\ page_count u' = page_count u
      /\ (forall k j, i <= k < n -> 0 <= j < 2 ^ order ->
                      exists a,
                        dma_addrs !! Z.to_nat k = Some a
                        /\ umem_pages_get_addr h' u' (page + (k - i) * 2 ^ order + j)
                           = Done (C.ulong (a + j * PAGE_SIZE)))
      /\ (forall q, 0 <= q < block_count u * UMEM_BLOCK ->
                    ~ (page <= q < page + (n - i) * 2 ^ order) ->
                    umem_pages_get_addr h' u' q = umem_pages_get_addr h u q)
      /\ (forall l, l ∉ bs -> objs h' !! l = objs h !! l).
Proof.
  intros Hord. destruct (one_shl order Hord) as [Hshl Hpow].
  induction fuel as [|fuel IH];
    intros n i dma_addrs h u page Htr Hi Hn Hfuel Hlen Hrange Hpage Hfit Hcap.
  - assert (n = i) as -> by lia. exists h, u. simpl.
    replace (page + (i - i) * 2 ^ order) with page by lia.
    loop_done Htr.
  - cbn [buffer_table_set_entries].
    destruct (i <? n) eqn:Hg; zbool.
    2:{ assert (n = i) as -> by lia. exists h, u.
        replace (page + (i - i) * 2 ^ order) with page by lia.
        loop_done Htr. }
    destruct (lookup_lt_is_Some_2 dma_addrs (Z.to_nat i) ltac:(lia)) as [a Ha].
    assert (Hag : array_get dma_addrs i = Done a).
    { unfold array_get. rewrite (proj2 (Z.ltb_ge i 0)) by lia. rewrite Ha. reflexivity. }
    rewrite Hag, bind_Done, Hshl.
    pose proof (proj1 (Forall_forall _ _) Hrange a (list_elem_of_lookup_2 _ _ _ Ha)) as Har.
    destruct (buffer_table_set_pages_spec bs (Z.to_nat (2 ^ order)) (2 ^ order) 0 h u page a
                Htr ltac:(lia) ltac:(lia) ltac:(lia) Hpage ltac:(nia) Hcap Har)
      as (h1 & u1 & Hrun1 & Htr1 & Hc1 & Hp1 & Hin1 & Hout1 & Hfr1).
    rewrite Hrun1, bind_Done. cbv beta iota.
    rewrite (sint_small (i + 1)) by lia.
    replace (page + (2 ^ order - 0)) with (page + 2 ^ order) in * by lia.
    destruct (IH n (i + 1) dma_addrs h1 u1 (page + 2 ^ order) Htr1
                ltac:(lia) Hn ltac:(lia) Hlen Hrange ltac:(lia)
                ltac:(rewrite Hc1; nia) ltac:(rewrite Hc1; lia))
      as (h' & u' & Hrun & Htr' & Hc' & Hp' & Hin & Hout & Hfr').
    exists h', u'.
    replace (page + (n - i) * 2 ^ order) with (page + 2 ^ order + (n - (i + 1)) * 2 ^ order)
      by lia.
    split; [exact Hrun|]. split; [exact Htr'|].
    split; [lia|]. split; [congruence|]. split; [|split].
    + intros k j Hk Hj. destruct (Z.eq_dec k i) as [->|Hne].
      * exists a. split; [exact Ha|].
        replace (page + (i - i) * 2 ^ order + j) with (page + j) by lia.
        rewrite Hout by (rewrite ?Hc1; nia).
        rewrite Hin1 by lia. f_equal. f_equal. lia.
      * destruct (Hin k j ltac:(lia) Hj) as (a' & Ha' & Hg').
        exists a'. split; [exact Ha'|]. rewrite <- Hg'. f_equal. lia.
    + intros q Hq Hnot. rewrite Hout by (rewrite ?Hc1; nia).
      apply Hout1; [lia|]. nia.
    + intros l Hl. rewrite Hfr', Hfr1 by exact Hl. reflexivity.
Qed.

(** Entry ranges that start at or after the first entry of the block: for
    a block of owner [owner] and order [order] that starts at page [base]
    of the PD's directory and [first_entry >= 0],
    [af_xdp_nic_buffer_table_set] looks at the pages from
    [base + (first_entry << order)] on.  If [n_entries << order] of them
    end beyond [page_count], it returns [-EINVAL] and leaves the heap and
    the NIC as they are.  Otherwise it returns 0 and the directory holds,
    for entry [k] and [j] below [2^order], the address
    [dma_addrs[k] + j * PAGE_SIZE] at page
    [base + ((first_entry + k) << order) + j]; the pages outside the
    range keep what they held. *)
Theorem af_xdp_nic_buffer_table_set_spec
  h nic block owner order base first_entry n_entries (dma_addrs : list Z) d bs :
  btb_get h block = Done (btb_handle owner order, base * PAGE_SIZE) ->
  0 <= owner < MAX_PDS ->
  0 <= order <= 10 ->
  0 <= base < 2 ^ 50 ->
  pd_get nic owner = Done d ->
  umem_tracks h (umem d) bs ->
  0 <= page_count (umem d) <= block_count (umem d) * UMEM_BLOCK ->
  block_count (umem d) * UMEM_BLOCK < 2 ^ 62 ->
  0 <= first_entry -> first_entry * 2 ^ order < 2 ^ 31 ->
  0 <= n_entries -> n_entries * 2 ^ order < 2 ^ 31 ->
  Z.of_nat (length dma_addrs) = n_entries ->
  Forall (fun a => 0 <= a < 2 ^ 64) dma_addrs ->
  let page := base + first_entry * 2 ^ order in
  (page_count (umem d) < page + n_entries * 2 ^ order ->
   af_xdp_nic_buffer_table_set h nic block first_entry n_entries dma_addrs
   = Done (- EINVAL, h, nic))
  /\ (page + n_entries * 2 ^ order <= page_count (umem d) ->
      exists h' nic' d',
        af_xdp_nic_buffer_table_set h nic block first_entry n_entries dma_addrs
        = Done (0, h', nic')
        /\ pd_get nic' owner = Done d'
        /\ page_count (umem d') = page_count (umem d)
        /\ (forall k j, 0 <= k < n_entries -> 0 <= j < 2 ^ order ->
                        exists a,
                          dma_addrs !! Z.to_nat k = Some a
                          /\ umem_pages_get_addr h' (umem d') (page + k * 2 ^ order + j)
                             = Done (C.ulong (a + j * PAGE_SIZE)))
        /\ (forall q, 0 <= q < page_count (umem d) ->
                      ~ (page <= q < page + n_entries * 2 ^ order) ->
                      umem_pages_get_addr h' (umem d') q
                      = umem_pages_get_addr h (umem d) q)).
Proof.
  intros Hblk Ho Hord Hbase Hget Htr Hpc Hcap Hf Hfs Hn Hns Hlen Hrange page.
  destruct (one_shl order Hord) as [_ Hpow].
  assert (Hprefix :
            af_xdp_nic_buffer_table_set h nic block first_entry n_entries dma_addrs
            = if page + n_entries * 2 ^ order >? page_count (umem d)
              then Done (- EINVAL, h, nic)
              else
                '(h1, u, _) ←
                  buffer_table_set_entries (Z.to_nat n_entries) n_entries order 0
                    dma_addrs h (umem d) page;
                Done (0, h1,
                      pd_put nic owner
                        (Pd u (buffer_table_count d) (freed_buffer_table_count d)))).
  { unfold af_xdp_nic_buffer_table_set. rewrite Hblk, bind_Done. cbv beta iota.
    change MAX_PDS with 256 in Ho.
    destruct (btb_handle_fields owner order) as [-> ->]; [lia..|].
    rewrite (pd_by_owner_in_range nic owner d) by (try assumption; change MAX_PDS with 256; lia).
    rewrite Hget, bind_Done.
    change PAGE_SHIFT with 12. change PAGE_SIZE with 4096.
    rewrite Z.shiftr_div_pow2 by lia. change (2 ^ 12) with 4096.
    rewrite Z.div_mul by lia.
    rewrite !Z.shiftl_mul_pow2 by lia.
    rewrite (sint_small (first_entry * 2 ^ order)) by nia.
    rewrite (sint_small (n_entries * 2 ^ order)) by nia.
    rewrite ulong_small by nia. rewrite (slong_small (base + _)) by nia.
    fold page. rewrite slong_small by (subst page; nia). reflexivity. }
  rewrite Hprefix. split.
  - intros Hbeyond. rewrite (proj2 (Z.gtb_lt _ _)) by lia. reflexivity.
  - intros Hfit. rewrite Z.gtb_ltb, (proj2 (Z.ltb_ge _ _)) by lia.
    destruct (buffer_table_set_entries_spec bs order Hord (Z.to_nat n_entries) n_entries 0
                dma_addrs h (umem d) page Htr ltac:(lia) ltac:(nia) ltac:(lia) ltac:(lia)
                Hrange ltac:(subst page; nia) ltac:(subst page; nia) Hcap)
      as (h' & u' & Hrun & Htr' & Hc' & Hp' & Hin & Hout & _).
    rewrite Hrun, bind_Done. cbv beta iota.
    eexists h', _, _. split; [reflexivity|].
    split; [eapply pd_get_put; exact Hget|]. simpl.
    split; [exact Hp'|]. split.
    + intros k j Hk Hj. destruct (Hin k j ltac:(lia) Hj) as (a & Ha & Hg).
      exists a. split; [exact Ha|]. rewrite <- Hg. f_equal. lia.
    + intros q Hq Hnot. apply Hout; [lia|].
      replace (n_entries - 0) with n_entries by lia. exact Hnot.
Qed.

Lemma af_xdp_nic_buffer_table_set_spec_witness :
  (exists h' nic' d',
     af_xdp_nic_buffer_table_set example_heap example_nic 0%nat 1 2 [4096000; 8192000]
     = Done (0, h', nic')
     /\ pd_get nic' 5 = Done d'
     /\ page_count (umem d') = 128
     /\ (forall k j, 0 <= k < 2 -> 0 <= j < 2 ^ 2 ->
                     exists a,
                       [4096000; 8192000] !! Z.to_nat k = Some a
                       /\ umem_pages_get_addr h' (umem d') (0 + 1 * 2 ^ 2 + k * 2 ^ 2 + j)
                          = Done (C.ulong (a + j * PAGE_SIZE)))
     /\ (forall q, 0 <= q < 128 ->
                   ~ (0 + 1 * 2 ^ 2 <= q < 0 + 1 * 2 ^ 2 + 2 * 2 ^ 2) ->
                   umem_pages_get_addr h' (umem d') q
                   = umem_pages_get_addr example_heap (UmemPages 128 1 0 (Ptr 1%nat)) q))
  /\ af_xdp_nic_buffer_table_set example_heap example_nic 0%nat 31 2 [4096000; 8192000]
     = Done (- EINVAL, example_heap, example_nic).
Proof.
  assert (Htr : umem_tracks example_heap (UmemPages 128 1 0 (Ptr 1%nat)) [2%nat]).
  { split.
    - reflexivity.
    - reflexivity.
    - eexists. vm_compute. reflexivity.
    - apply (bool_decide_unpack _). vm_compute. exact I.
    - apply Forall_singleton. eexists. split; vm_compute; reflexivity. }
  split.
  - apply (proj2 (af_xdp_nic_buffer_table_set_spec example_heap example_nic 0%nat 5 2 0 1 2
                    [4096000; 8192000] (Pd (UmemPages 128 1 0 (Ptr 1%nat)) 1 0) [2%nat]
                    eq_refl ltac:(vm_compute; split; congruence) ltac:(lia) ltac:(lia)
                    eq_refl Htr ltac:(vm_compute; split; congruence) eq_refl
                    ltac:(lia) eq_refl ltac:(lia) eq_refl eq_refl
                    ltac:(repeat constructor; lia))).
    vm_compute. congruence.
  - apply (proj1 (af_xdp_nic_buffer_table_set_spec example_heap example_nic 0%nat 5 2 0 31 2
                    [4096000; 8192000] (Pd (UmemPages 128 1 0 (Ptr 1%nat)) 1 0) [2%nat]
                    eq_refl ltac:(vm_compute; split; congruence) ltac:(lia) ltac:(lia)
                    eq_refl Htr ltac:(vm_compute; split; congruence) eq_refl
                    ltac:(lia) eq_refl ltac:(lia) eq_refl eq_refl
                    ltac:(repeat constructor; lia))).
    reflexivity.
Defined.

(** C8 (fails on the code): the range is checked against [page_count]
    only, not against the start of the directory.  For the block of
    order 2 at page 0 of a directory of 128 pages and any negative
    [first_entry], the range of one entry starts below page 0 and does
    not end beyond [page_count]; the check passes, so the call does not
    return [-EINVAL], and the first store goes through a block pointer
    far outside the pointer array: the call neither fails validation nor
    writes the pages. *)
Theorem af_xdp_nic_buffer_table_set_negative_entry first_entry :
  - 2 ^ 28 <= first_entry < 0 ->
  btb_get example_heap 0%nat = Done (btb_handle 5 2, 0 * PAGE_SIZE)
  /\ (exists d, pd_get example_nic 5 = Done d /\ page_count (umem d) = 128)
  /\ 0 + first_entry * 2 ^ 2 < 0
  /\ 0 + first_entry * 2 ^ 2 + 1 * 2 ^ 2 <= 128
  /\ af_xdp_nic_buffer_table_set example_heap example_nic 0%nat first_entry 1 [4096000]
     = Fault OUT_OF_BOUNDS.
Proof.
  intros Hfe.
  assert (Hblk : btb_get example_heap 0%nat = Done (1282, 0)) by (vm_compute; reflexivity).
  assert (Hpd : pd_get example_nic 5 = Done (Pd (UmemPages 128 1 0 (Ptr 1%nat)) 1 0))
    by (vm_compute; reflexivity).
  split; [exact Hblk|]. split; [eexists; split; [exact Hpd|reflexivity]|].
  split; [lia|]. split; [lia|].
  unfold af_xdp_nic_buffer_table_set. rewrite Hblk, bind_Done. cbv beta iota zeta.
  change (C.sint (Z.shiftr 1282 8)) with 5. change (C.sint (Z.land 1282 255)) with 2.
  change (pd_by_owner example_nic 5) with (Some 5). cbv iota beta.
  rewrite Hpd, bind_Done. cbn [umem page_count buffer_table_count freed_buffer_table_count].
  change (Z.shiftr 0 PAGE_SHIFT) with 0. change (C.sint (Z.shiftl 1 2)) with 4.
  rewrite Z.shiftl_mul_pow2 by lia. change (2 ^ 2) with 4.
  rewrite (sint_small (first_entry * 4)) by lia.
  assert (Eu : C.ulong (0 + first_entry * 4) = 2 ^ 64 + first_entry * 4).
  { unfold C.ulong. rewrite <- (Z.mod_add _ 1 (2 ^ 64)) by lia.
    rewrite Z.mod_small by lia. lia. }
  assert (Es : C.slong (C.ulong (0 + first_entry * 4)) = first_entry * 4).
  { rewrite Eu. unfold C.slong, C.wrap_signed. change (2 ^ (64 - 1)) with (2 ^ 63).
    rewrite <- (Z.mod_add _ (-1) (2 ^ 64)) by lia.
    rewrite Z.mod_small by lia. lia. }
  rewrite Es. rewrite (slong_small (first_entry * 4 + 4)) by lia.
  rewrite Z.gtb_ltb, (proj2 (Z.ltb_ge 128 _)) by lia.
  change (Z.to_nat 1) with 1%nat. cbn [buffer_table_set_entries].
  change (0 <? 1) with true. cbv iota.
  change (array_get [4096000] 0) with (Done 4096000 : outcome Z). rewrite bind_Done.
  change (C.sint (Z.shiftl 1 2)) with 4. change (Z.to_nat 4) with 4%nat.
  cbn [buffer_table_set_pages]. change (0 <? 4) with true. cbv iota.
  assert (Hset : umem_pages_set_addr example_heap (UmemPages 128 1 0 (Ptr 1%nat))
                   (first_entry * 4) 4096000 = Fault OUT_OF_BOUNDS).
  { unfold umem_pages_set_addr, umem_pages_addr_ptr, read_slot. cbn [blocks].
    assert (Harr : objs example_heap !! 1%nat = Some (OPtrs [Some 2%nat]))
      by (vm_compute; reflexivity).
    rewrite Harr.
    replace (C.ulong (first_entry * 4)) with (2 ^ 64 + first_entry * 4)
      by (rewrite <- Eu; f_equal; lia).
    change UMEM_BLOCK with 512.
    assert (Hidx : 2 ^ 54 <= (2 ^ 64 + first_entry * 4) / 512)
      by (apply Z.div_le_lower_bound; lia).
    rewrite (proj2 (Z.ltb_ge _ 0)) by lia.
    rewrite (lookup_ge_None_2 [Some 2%nat]) by (simpl; lia).
    reflexivity. }
  rewrite Hset. reflexivity.
Qed.

Lemma af_xdp_nic_buffer_table_set_negative_entry_witness :
  af_xdp_nic_buffer_table_set example_heap example_nic 0%nat (-1) 1 [4096000]
  = Fault OUT_OF_BOUNDS.
Proof.
  destruct (af_xdp_nic_buffer_table_set_negative_entry (-1) ltac:(lia))
    as (_ & _ & _ & _ & H).
  exact H.
Defined.

(** * Further properties of the page directory *)

Lemma krealloc_keeps p n h p' h' l o :
  krealloc p n h = Done (p', h') ->
  objs h !! l = Some o -> p <> Ptr l ->
  objs h' !! l = Some o.
Proof.
  unfold krealloc. intros H Hl Hp.
  destruct (n =? 0).
  - apply bind_inv in H as (h1 & Hf & [= <- <-]). unfold kfree in Hf.
    destruct p as [| |a]; try (injection Hf as <-; exact Hl).
    destruct (objs h !! a); [|discriminate]. injection Hf as <-. simpl.
    rewrite lookup_delete_ne by congruence. exact Hl.
  - apply bind_inv in H as (old & _ & H).
    destruct p as [| |a].
    1,2: destruct (kalloc _ h) as [[a'|] h1] eqn:Hk;
      [apply kalloc_Some in Hk as [Hfresh Hh1]; injection H as <- <-;
       rewrite Hh1, lookup_insert_ne by congruence; exact Hl
      |apply kalloc_None in Hk; injection H as <- <-; rewrite Hk; exact Hl].
    destruct (n <=? Z.of_nat (length old)); [injection H as <- <-; exact Hl|].
    destruct (kalloc _ h) as [[a'|] h1] eqn:Hk.
    + apply kalloc_Some in Hk as [Hfresh Hh1].
      apply bind_inv in H as (h2 & Hf & [= <- <-]). unfold kfree in Hf.
      destruct (objs h1 !! a); [|discriminate]. injection Hf as <-. simpl.
      rewrite lookup_delete_ne, Hh1, lookup_insert_ne by congruence. exact Hl.
    + apply kalloc_None in Hk. injection H as <- <-. rewrite Hk. exact Hl.
Qed.

Lemma umem_pages_alloc_loop_keeps l o :
  forall fuel nblocks h u ok h' u',
    umem_pages_alloc_loop fuel nblocks h u = Done (ok, h', u') ->
    objs h !! l = Some o -> blocks u <> Ptr l ->
    objs h' !! l = Some o.
Proof.
  induction fuel as [|fuel IH]; intros nblocks h u ok h' u' H Hl Hp.
  - injection H as _ <- _. exact Hl.
  - cbn [umem_pages_alloc_loop] in H.
    destruct (block_count u <? nblocks); [|injection H as _ <- _; exact Hl].
    destruct (kalloc _ h) as [[b|] h1] eqn:Hk.
    + apply kalloc_Some in Hk as [Hfresh Hh1].
      apply bind_inv in H as (h2 & Hw & H).
      eapply IH; [exact H| |exact Hp].
      unfold write_slot in Hw. destruct (blocks u) as [| |a]; try discriminate.
      destruct (objs h1 !! a) as [[s| |]|]; try discriminate.
      destruct (_ || _); [discriminate|]. injection Hw as <-. simpl.
      rewrite lookup_insert_ne, Hh1, lookup_insert_ne by congruence. exact Hl.
    + apply kalloc_None in Hk. injection H as _ <- _. rewrite Hk. exact Hl.
Qed.

(** Growing leaves every object but the pointer array as it is. *)
Lemma umem_pages_alloc_keeps h u new_pages rc h' u' l o :
  umem_pages_alloc h u new_pages = Done (rc, h', u') ->
  objs h !! l = Some o -> blocks u <> Ptr l ->
  objs h' !! l = Some o.
Proof.
  unfold umem_pages_alloc. intros H Hl Hp.
  apply bind_inv in H as ([p h1] & Hre & H).
  pose proof (krealloc_keeps _ _ _ _ _ l o Hre Hl Hp) as Hl1.
  assert (Hp1 : p <> Ptr l).
  { intros ->. unfold krealloc in Hre. destruct (_ =? 0).
    - apply bind_inv in Hre as (? & _ & [= ]).
    - apply bind_inv in Hre as (old & _ & Hre).
      destruct (blocks u) as [| |a].
      1,2: destruct (kalloc _ h) as [[a'|] h2] eqn:Hk; [|discriminate];
        apply kalloc_Some in Hk as [Hfresh _]; injection Hre as -> _; congruence.
      destruct (_ <=? _); [injection Hre as -> _; congruence|].
      destruct (kalloc _ h) as [[a'|] h2] eqn:Hk; [|discriminate].
      apply kalloc_Some in Hk as [Hfresh _].
      apply bind_inv in Hre as (? & _ & [= -> _]). congruence. }
  destruct p as [| |a]; [injection H as _ <- _; exact Hl1| |];
    apply bind_inv in H as ([[ok h2] u2] & Hloop & H);
    (assert (Hl2 : objs h2 !! l = Some o)
      by (eapply umem_pages_alloc_loop_keeps; [exact Hloop|exact Hl1|exact Hp1]));
    destruct ok; injection H as _ <- _; exact Hl2.
Qed.

(** One request for more pages on a tracked directory. *)
Lemma umem_pages_alloc_step h u bs new_pages :
  umem_tracks h u bs ->
  0 <= page_count u ->
  0 < new_pages ->
  page_count u + new_pages + 511 < 2 ^ 63 ->
  exists rc h' u' new,
    umem_pages_alloc h u new_pages = Done (rc, h', u')
    /\ umem_tracks h' u' (bs ++ new)
    /\ used_page_count u' = used_page_count u
    /\ block_count u <= block_count u'
    /\ (forall q, 0 <= q < block_count u * UMEM_BLOCK -> q < 2 ^ 63 ->
                  umem_pages_get_addr h' u' q = umem_pages_get_addr h u q)
    /\ ((rc = 0
         /\ page_count u' = page_count u + new_pages
         /\ page_count u' <= block_count u' * UMEM_BLOCK)
        \/ (rc = - ENOMEM /\ page_count u' = page_count u)).
Proof.
  intros Htr Hpc Hnp Hsum.
  destruct (umem_pages_alloc_spec h u bs new_pages Htr)
    as (rc & h' & u' & new & Hrun & Hused & Hcase).
  destruct (alloc_blocks_value u new_pages Hpc Hnp Hsum) as [Hnb Hnz].
  assert (Hall : umem_tracks h' u' (bs ++ new)
                 /\ ((rc = 0 /\ page_count u' = page_count u + new_pages
                      /\ page_count u' <= block_count u' * UMEM_BLOCK)
                     \/ (rc = - ENOMEM /\ page_count u' = page_count u))).
  { destruct Hcase as [(-> & Hp & Htr' & _)|(-> & Hp & Hrest)].
    - split; [exact Htr'|]. right. auto.
    - destruct (Hrest Hnz) as (Htr' & _ & Hcnt). split; [exact Htr'|]. left.
      rewrite slong_small in Hp by lia.
      split; [reflexivity|]. split; [exact Hp|].
      rewrite Hp. rewrite Hnb in Hcnt.
      pose proof (div_round_up (page_count u + new_pages) ltac:(lia)) as R.
      change UMEM_BLOCK with 512 in *. nia. }
  destruct Hall as [Htr' Hres].
  assert (Hcnt : block_count u <= block_count u').
  { rewrite (tr_count _ _ _ Htr), (tr_count _ _ _ Htr'), length_app. lia. }
  exists rc, h', u', new. split; [exact Hrun|]. split; [exact Htr'|].
  split; [exact Hused|]. split; [exact Hcnt|]. split; [|exact Hres].
  intros q Hq Hq63.
  destruct (umem_pages_get_addr_tracked h u bs q Htr Hq Hq63)
    as (b & addrs & x & Hb & Hbl & Hx & Hg).
  assert (Hq' : 0 <= q < block_count u' * UMEM_BLOCK)
    by (change UMEM_BLOCK with 512 in *; lia).
  destruct (umem_pages_get_addr_tracked h' u' (bs ++ new) q Htr' Hq' Hq63)
    as (b' & addrs' & x' & Hb' & Hbl' & Hx' & Hg').
  rewrite Hg, Hg'.
  rewrite lookup_app_l in Hb' by (apply lookup_lt_Some in Hb; exact Hb).
  rewrite Hb in Hb'. injection Hb' as <-.
  assert (Hnot : blocks u <> Ptr b).
  { intros E. pose proof (tr_nodup _ _ _ Htr) as Hnd. rewrite E in Hnd. simpl in Hnd.
    apply NoDup_cons in Hnd as [Hna _]. apply Hna.
    eapply list_elem_of_lookup_2. exact Hb. }
  rewrite (umem_pages_alloc_keeps _ _ _ _ _ _ b _ Hrun Hbl Hnot) in Hbl'.
  injection Hbl' as <-. congruence.
Qed.

(** X1: a request for more pages on a tracked directory returns 0 or
    [-ENOMEM]; in both cases every page that had a slot before still reads
    the same address, the mark is unchanged, no counted block is lost and
    every object of the heap other than the pointer array is as it was;
    with 0 the page count has grown by the request and lies within the
    slots of the counted blocks, with [-ENOMEM] it is unchanged. *)
Theorem umem_pages_alloc_grows h u bs new_pages :
  umem_tracks h u bs ->
  0 <= page_count u ->
  0 < new_pages ->
  page_count u + new_pages + 511 < 2 ^ 63 ->
  exists rc h' u' new,
    umem_pages_alloc h u new_pages = Done (rc, h', u')
    /\ umem_tracks h' u' (bs ++ new)
    /\ used_page_count u' = used_page_count u
    /\ block_count u <= block_count u'
    /\ (forall q, 0 <= q < block_count u * UMEM_BLOCK -> q < 2 ^ 63 ->
                  umem_pages_get_addr h' u' q = umem_pages_get_addr h u q)
    /\ (forall l o, objs h !! l = Some o -> blocks u <> Ptr l ->
                    objs h' !! l = Some o)
    /\ ((rc = 0
         /\ page_count u' = page_count u + new_pages
         /\ page_count u' <= block_count u' * UMEM_BLOCK)
        \/ (rc = - ENOMEM /\ page_count u' = page_count u)).
Proof.
  intros Htr Hpc Hnp Hsum.
  destruct (umem_pages_alloc_step h u bs new_pages Htr Hpc Hnp Hsum)
    as (rc & h' & u' & new & Hrun & Htr' & Hused & Hcnt & Hkeep & Hres).
  exists rc, h', u', new.
  split; [exact Hrun|]. split; [exact Htr'|]. split; [exact Hused|].
  split; [exact Hcnt|]. split; [exact Hkeep|]. split; [|exact Hres].
  intros l o Hl Hne.
  exact (umem_pages_alloc_keeps _ _ _ _ _ _ l o Hrun Hl Hne).
Qed.

Lemma umem_pages_alloc_grows_witness :
  exists rc h' u' new,
    umem_pages_alloc example_heap (UmemPages 128 1 0 (Ptr 1%nat)) 1000 = Done (rc, h', u')
    /\ umem_tracks h' u' ([2%nat] ++ new)
    /\ used_page_count u' = 0
    /\ 1 <= block_count u'
    /\ (forall q, 0 <= q < 1 * UMEM_BLOCK -> q < 2 ^ 63 ->
                  umem_pages_get_addr h' u' q
                  = umem_pages_get_addr example_heap (UmemPages 128 1 0 (Ptr 1%nat)) q)
    /\ (forall l o, objs example_heap !! l = Some o -> Ptr 1%nat <> Ptr l ->
                    objs h' !! l = Some o)
    /\ ((rc = 0
         /\ page_count u' = 128 + 1000
         /\ page_count u' <= block_count u' * UMEM_BLOCK)
        \/ (rc = - ENOMEM /\ page_count u' = 128)).
Proof.
  apply (umem_pages_alloc_grows example_heap (UmemPages 128 1 0 (Ptr 1%nat)) [2%nat] 1000).
  - split.
    + reflexivity.
    + reflexivity.
    + eexists. vm_compute. reflexivity.
    + apply (bool_decide_unpack _). vm_compute. exact I.
    + apply Forall_singleton. eexists. split; vm_compute; reflexivity.
  - simpl. lia.
  - lia.
  - simpl. lia.
Defined.

(** X2: when a tracked directory is grown several times in a row, up to
    the first request that runs out of memory, the page count ends as the
    count before plus the requests that were served, all of them when the
    result is 0, and the pages that had a slot before read as before. *)
Theorem umem_pages_alloc_all_sum ns h u bs :
  umem_tracks h u bs ->
  0 <= page_count u ->
  Forall (fun n => 0 < n) ns ->
  page_count u + foldr Z.add 0 ns + 511 < 2 ^ 63 ->
  exists rc h' u' new served rest,
    umem_pages_alloc_all ns h u = Done (rc, h', u')
    /\ ns = served ++ rest
    /\ umem_tracks h' u' (bs ++ new)
    /\ page_count u' = page_count u + foldr Z.add 0 served
    /\ ((rc = 0 /\ rest = []) \/ (rc = - ENOMEM /\ rest <> []))
    /\ (forall q, 0 <= q < block_count u * UMEM_BLOCK -> q < 2 ^ 63 ->
                  umem_pages_get_addr h' u' q = umem_pages_get_addr h u q).
Proof.
  revert h u bs. induction ns as [|n ns IH]; intros h u bs Htr Hpc Hpos Hsum.
  - exists 0, h, u, [], [], []. rewrite (app_nil_r bs). simpl.
    split; [reflexivity|]. split; [reflexivity|]. split; [exact Htr|].
    split; [lia|]. split; [left; auto|]. reflexivity.
  - apply Forall_cons in Hpos as [Hn Hpos]. simpl in Hsum.
    assert (Hrest : 0 <= foldr Z.add 0 ns).
    { clear -Hpos. induction Hpos; simpl; lia. }
    destruct (umem_pages_alloc_step h u bs n Htr Hpc Hn ltac:(lia))
      as (rc & h1 & u1 & new1 & Hrun & Htr1 & _ & Hcnt & Hkeep & Hres).
    cbn [umem_pages_alloc_all]. rewrite Hrun, bind_Done. cbv beta iota.
    destruct Hres as [(-> & Hp1 & _)|(-> & Hp1)].
    + change (0 <? 0) with false. cbv iota.
      destruct (IH h1 u1 (bs ++ new1) Htr1 ltac:(lia) Hpos ltac:(lia))
        as (rc & h' & u' & new & served & rest & Hall & Hns & Htr' & Hp' & Hrc & Hkeep').
      exists rc, h', u', (new1 ++ new), (n :: served), rest.
      split; [exact Hall|]. split; [rewrite Hns; reflexivity|].
      split; [rewrite app_assoc; exact Htr'|].
      split; [simpl; lia|]. split; [exact Hrc|].
      intros q Hq Hq63. rewrite Hkeep' by (change UMEM_BLOCK with 512 in *; lia).
      apply Hkeep; assumption.
    + change (- ENOMEM <? 0) with true. cbv iota.
      exists (- ENOMEM), h1, u1, new1, [], (n :: ns).
      split; [reflexivity|]. split; [reflexivity|]. split; [exact Htr1|].
      split; [simpl; lia|]. split; [right; split; [reflexivity|discriminate]|].
      exact Hkeep.
Qed.


Lemma umem_pages_alloc_all_sum_witness :
  exists rc h' u' new served rest,
    umem_pages_alloc_all [32; 600; 64] (Heap ∅ [true; true; true; true; false]) umem_zero
    = Done (rc, h', u')
    /\ [32; 600; 64] = served ++ rest
    /\ umem_tracks h' u' ([] ++ new)
    /\ page_count u' = 0 + foldr Z.add 0 served
    /\ ((rc = 0 /\ rest = []) \/ (rc = - ENOMEM /\ rest <> []))
    /\ (forall q, 0 <= q < 0 * UMEM_BLOCK -> q < 2 ^ 63 ->
                  umem_pages_get_addr h' u' q
                  = umem_pages_get_addr (Heap ∅ [true; true; true; true; false]) umem_zero q).
Proof.
  apply (umem_pages_alloc_all_sum [32; 600; 64] (Heap ∅ [true; true; true; true; false])
           umem_zero []).
  - apply umem_tracks_zero.
  - reflexivity.
  - repeat constructor.
  - reflexivity.
Defined.

(** * Further properties of the fault handler *)

(** The fault handler at an offset inside page [q]. *)
Lemma fault_at_page h u q off :
  0 <= q < 2 ^ 51 -> 0 <= off < PAGE_SIZE ->
  fault h u (q * PAGE_SIZE + off)
  = if q >=? used_page_count u then Done VM_FAULT_SIGSEGV
    else a ← umem_pages_get_addr h u q; Done (VM_FAULT_PAGE a).
Proof.
  intros Hq Hoff. unfold fault. change PAGE_SIZE with 4096 in *.
  rewrite ulong_small by lia.
  change PAGE_SHIFT with 12. rewrite Z.shiftr_div_pow2 by lia.
  change (2 ^ 12) with 4096.
  replace ((q * 4096 + off) / 4096) with q
    by (apply (Z.div_unique_pos _ 4096 q off); lia).
  rewrite slong_small by lia. reflexivity.
Qed.

(** X3: below the mark the fault handler and the store agree: on a
    tracked directory whose mark lies within its slots, storing [a] at a
    page [p] below the mark leaves the mark where it is, a fault anywhere
    in page [p] then resolves to [a], and a fault in any other page ends
    as it did before the store. *)
Theorem fault_after_set_below_mark h u bs p a off :
  umem_tracks h u bs ->
  0 <= p < used_page_count u ->
  used_page_count u <= block_count u * UMEM_BLOCK ->
  used_page_count u < 2 ^ 51 ->
  0 <= off < PAGE_SIZE ->
  exists h' u',
    umem_pages_set_addr h u p a = Done (h', u')
    /\ used_page_count u' = used_page_count u
    /\ fault h' u' (p * PAGE_SIZE + off) = Done (VM_FAULT_PAGE a)
    /\ (forall q o, 0 <= q < 2 ^ 51 -> q <> p -> 0 <= o < PAGE_SIZE ->
                    fault h' u' (q * PAGE_SIZE + o) = fault h u (q * PAGE_SIZE + o)).
Proof.
  intros Htr Hp Hcap Hsmall Hoff.
  destruct (umem_pages_set_addr_spec h u bs p a Htr ltac:(lia) ltac:(lia))
    as (h' & u' & Hset & _ & _ & _ & Hused & Hget & Hother & _).
  rewrite Z.max_l in Hused by lia.
  exists h', u'. split; [exact Hset|]. split; [exact Hused|]. split.
  - rewrite fault_at_page by lia. rewrite Hused.
    rewrite Z.geb_leb, (proj2 (Z.leb_gt _ _)) by lia.
    rewrite Hget. reflexivity.
  - intros q o Hq Hne Ho. rewrite !fault_at_page by lia. rewrite Hused.
    rewrite Z.geb_leb. destruct (used_page_count u <=? q) eqn:E; [reflexivity|].
    apply Z.leb_gt in E. rewrite Hother by lia. reflexivity.
Qed.

Lemma fault_after_set_below_mark_witness :
  exists h' u',
    umem_pages_set_addr example_heap (UmemPages 128 1 100 (Ptr 1%nat)) 40 77
    = Done (h', u')
    /\ used_page_count u' = 100
    /\ fault h' u' (40 * PAGE_SIZE + 8) = Done (VM_FAULT_PAGE 77)
    /\ (forall q o, 0 <= q < 2 ^ 51 -> q <> 40 -> 0 <= o < PAGE_SIZE ->
                    fault h' u' (q * PAGE_SIZE + o)
                    = fault example_heap (UmemPages 128 1 100 (Ptr 1%nat))
                        (q * PAGE_SIZE + o)).
Proof.
  apply (fault_after_set_below_mark example_heap (UmemPages 128 1 100 (Ptr 1%nat))
           [2%nat] 40 77 8).
  - split.
    + reflexivity.
    + reflexivity.
    + eexists. vm_compute. reflexivity.
    + apply (bool_decide_unpack _). vm_compute. exact I.
    + apply Forall_singleton. eexists. split; vm_compute; reflexivity.
  - simpl. lia.
  - simpl. change UMEM_BLOCK with 512. lia.
  - simpl. lia.
  - change PAGE_SIZE with 4096. lia.
Defined.

(** * Queue configuration and release *)

Lemma vi_get_put_ne nic i j v' :
  0 <= i -> i <> j -> vi_get (vi_put nic i v') j = vi_get nic j.
Proof.
  intros Hi Hne. unfold vi_get, vi_put, array_get.
  destruct nic as [[x|] lim]; [|reflexivity]. simpl.
  destruct (j <? 0) eqn:E; [reflexivity|]. apply Z.ltb_ge in E.
  rewrite list_lookup_insert_ne by lia. reflexivity.
Qed.

Lemma vi_get_nonneg nic i v : vi_get nic i = Done v -> 0 <= i.
Proof.
  unfold vi_get, array_get. destruct (af_xdp nic); [|discriminate].
  destruct (i <? 0) eqn:E; [discriminate|]. apply Z.ltb_ge in E. intros _. exact E.
Qed.

Lemma pd_get_vi_put nic i v j : pd_get (vi_put nic i v) j = pd_get nic j.
Proof. unfold pd_get, vi_put. destruct nic as [[x|] lim]; reflexivity. Qed.

Lemma vi_get_pd_put nic i d j : vi_get (pd_put nic i d) j = vi_get nic j.
Proof. unfold vi_get, pd_put. destruct nic as [[x|] lim]; reflexivity. Qed.

Lemma vi_by_instance_vi_put t nic i v j :
  vi_by_instance t (vi_put nic i v) j = vi_by_instance t nic j.
Proof. unfold vi_by_instance, vi_put. destruct nic as [[x|] lim]; reflexivity. Qed.

Lemma pd_by_owner_vi_put nic i v j : pd_by_owner (vi_put nic i v) j = pd_by_owner nic j.
Proof. unfold pd_by_owner, vi_put. destruct nic as [[x|] lim]; reflexivity. Qed.

Lemma uint_lor_bits a b n :
  0 <= n < 32 ->
  Z.testbit (C.uint (Z.lor a b)) n = Z.testbit a n || Z.testbit b n.
Proof.
  intros Hn. unfold C.uint. rewrite Z.mod_pow2_bits_low by lia. apply Z.lor_spec.
Qed.

(** X4: [af_xdp_dmaq_rx_q_init] on a VI that exists returns 0 and sets
    the owner and the RX capacity; the copy mode asked for is added to the
    flags and no flag that was set is cleared, so a VI configured once for
    copy and once for zero copy carries both modes; the socket, the TX
    capacity and the offsets of the VI, every other VI and every PD are as
    before. *)
Theorem af_xdp_dmaq_rx_q_init_spec ZC t nic evq_id own_id dmaq_size fl i v :
  vi_by_instance t nic (C.sint evq_id) = Some i ->
  vi_get nic i = Done v ->
  exists nic' v',
    af_xdp_dmaq_rx_q_init ZC t nic evq_id own_id dmaq_size fl = Done (0, nic')
    /\ vi_get nic' i = Done v'
    /\ owner_id v' = C.sint own_id
    /\ rxq_capacity v' = C.sint dmaq_size
    /\ (forall n, 0 <= n < 32 ->
          Z.testbit (flags v') n
          = Z.testbit (flags v) n
            || Z.testbit (if Z.land fl ZC =? 0 then XDP_COPY else XDP_ZEROCOPY) n)
    /\ sock v' = sock v
    /\ txq_capacity v' = txq_capacity v
    /\ kernel_offsets v' = kernel_offsets v
    /\ user_offsets_page v' = user_offsets_page v
    /\ (forall j, j <> i -> vi_get nic' j = vi_get nic j)
    /\ (forall j, pd_get nic' j = pd_get nic j)
    /\ vi_lim nic' = vi_lim nic.
Proof.
  intros Hvi Hget. unfold af_xdp_dmaq_rx_q_init. rewrite Hvi, Hget, bind_Done.
  eexists _, _. split; [reflexivity|].
  split; [eapply vi_get_put; exact Hget|]. simpl.
  split; [reflexivity|]. split; [reflexivity|].
  split; [intros n Hn; apply uint_lor_bits; exact Hn|].
  split; [reflexivity|]. split; [reflexivity|]. split; [reflexivity|].
  split; [reflexivity|].
  split; [intros j Hj; apply vi_get_put_ne; [eapply vi_get_nonneg; exact Hget|congruence]|].
  split; [intros j; apply pd_get_vi_put|].
  unfold vi_put. destruct nic as [[x|] lim]; reflexivity.
Qed.

Lemma af_xdp_dmaq_rx_q_init_spec_witness :
  exists nic' v',
    af_xdp_dmaq_rx_q_init 1 Unsigned (nic_init 4 7) 2 5 511 1 = Done (0, nic')
    /\ vi_get nic' 2 = Done v'
    /\ owner_id v' = C.sint 5
    /\ rxq_capacity v' = C.sint 511
    /\ (forall n, 0 <= n < 32 ->
          Z.testbit (flags v') n
          = Z.testbit (flags vi_zero) n
            || Z.testbit (if Z.land 1 1 =? 0 then XDP_COPY else XDP_ZEROCOPY) n)
    /\ sock v' = sock vi_zero
    /\ txq_capacity v' = txq_capacity vi_zero
    /\ kernel_offsets v' = kernel_offsets vi_zero
    /\ user_offsets_page v' = user_offsets_page vi_zero
    /\ (forall j, j <> 2 -> vi_get nic' j = vi_get (nic_init 4 7) j)
    /\ (forall j, pd_get nic' j = pd_get (nic_init 4 7) j)
    /\ vi_lim nic' = vi_lim (nic_init 4 7).
Proof.
  apply (af_xdp_dmaq_rx_q_init_spec 1 Unsigned (nic_init 4 7) 2 5 511 1 2 vi_zero).
  - reflexivity.
  - reflexivity.
Defined.

(** X5: [af_xdp_dmaq_tx_q_init] and [af_xdp_dmaq_rx_q_init] answer
    [-ENODEV] and leave the NIC as it is when the event queue is no VI of
    the NIC; on a VI that exists the TX call returns 0 and changes the
    owner and the TX capacity only, so that after an RX and a TX
    configuration, in either order, the VI has the RX capacity of the one
    and the TX capacity of the other, and the owner of the later call. *)
Theorem af_xdp_dmaq_q_init_both ZC t nic evq_id i v rx_own rx_size fl tx_own tx_size :
  vi_by_instance t nic (C.sint evq_id) = Some i ->
  vi_get nic i = Done v ->
  (forall nic0 own size,
      vi_by_instance t nic0 (C.sint evq_id) = None ->
      af_xdp_dmaq_tx_q_init t nic0 evq_id own size = Done (- ENODEV, nic0)
      /\ af_xdp_dmaq_rx_q_init ZC t nic0 evq_id own size fl = Done (- ENODEV, nic0))
  /\ af_xdp_dmaq_tx_q_init t nic evq_id tx_own tx_size
     = Done (0, vi_put nic i
                  (Vi (sock v) (C.sint tx_own) (rxq_capacity v) (C.sint tx_size)
                      (flags v) (kernel_offsets v) (user_offsets_page v)))
  /\ exists nic_rt nic_tr v_rt v_tr,
      (af_xdp_dmaq_rx_q_init ZC t nic evq_id rx_own rx_size fl
         ≫= λ '(_, n), af_xdp_dmaq_tx_q_init t n evq_id tx_own tx_size)
      = Done (0, nic_rt)
      /\ (af_xdp_dmaq_tx_q_init t nic evq_id tx_own tx_size
            ≫= λ '(_, n), af_xdp_dmaq_rx_q_init ZC t n evq_id rx_own rx_size fl)
         = Done (0, nic_tr)
      /\ vi_get nic_rt i = Done v_rt
      /\ vi_get nic_tr i = Done v_tr
      /\ owner_id v_rt = C.sint tx_own
      /\ owner_id v_tr = C.sint rx_own
      /\ v_tr = Vi (sock v_rt) (C.sint rx_own) (rxq_capacity v_rt) (txq_capacity v_rt)
                   (flags v_rt) (kernel_offsets v_rt) (user_offsets_page v_rt)
      /\ rxq_capacity v_rt = C.sint rx_size
      /\ txq_capacity v_rt = C.sint tx_size.
Proof.
  intros Hvi Hget. split; [|split].
  - intros nic0 own size Hnone.
    unfold af_xdp_dmaq_tx_q_init, af_xdp_dmaq_rx_q_init. rewrite Hnone. split; reflexivity.
  - unfold af_xdp_dmaq_tx_q_init. rewrite Hvi, Hget, bind_Done. reflexivity.
  - unfold af_xdp_dmaq_tx_q_init, af_xdp_dmaq_rx_q_init.
    rewrite Hvi, Hget, !bind_Done. cbv beta iota.
    rewrite !vi_by_instance_vi_put, Hvi.
    rewrite !(vi_get_put _ _ _ _ Hget), !bind_Done. simpl.
    eexists _, _, _, _. split; [reflexivity|]. split; [reflexivity|].
    split; [eapply vi_get_put; eapply vi_get_put; exact Hget|].
    split; [eapply vi_get_put; eapply vi_get_put; exact Hget|].
    simpl. repeat (split; [reflexivity|]). reflexivity.
Qed.

Lemma af_xdp_dmaq_q_init_both_witness :
  af_xdp_dmaq_tx_q_init Unsigned (nic_init 4 7) 2 5 255
  = Done (0, vi_put (nic_init 4 7) 2 (Vi None 5 0 255 0 offsets_zero None)).
Proof.
  exact (proj1 (proj2 (af_xdp_dmaq_q_init_both 1 Unsigned (nic_init 4 7) 2 2 vi_zero
                         5 511 1 5 255 eq_refl eq_refl))).
Defined.

Lemma vi_put_put nic i v v' : vi_put (vi_put nic i v) i v' = vi_put nic i v'.
Proof.
  unfold vi_put. destruct nic as [[x|] lim]; [|reflexivity]. simpl.
  rewrite list_insert_insert_eq. reflexivity.
Qed.

(** X6: disabling the event queue of a VI that exists resets the whole VI,
    its queue configuration included, frees the offsets page and puts the
    socket file when there is one; every other VI and every PD are as
    before; disabling it once more frees the page again but puts no file a
    second time; for an event queue that is no VI of the NIC nothing is
    done. *)
Theorem af_xdp_nic_event_queue_disable_spec t nic evq i v :
  vi_by_instance t nic (C.sint evq) = Some i ->
  vi_get nic i = Done v ->
  exists nic',
    af_xdp_nic_event_queue_disable t nic evq
    = Done (nic', EfhwPageFree :: match sock v with
                                  | Some file => [Fput file]
                                  | None => []
                                  end)
    /\ vi_get nic' i = Done vi_zero
    /\ (forall j, j <> i -> vi_get nic' j = vi_get nic j)
    /\ (forall j, pd_get nic' j = pd_get nic j)
    /\ af_xdp_nic_event_queue_disable t nic' evq = Done (nic', [EfhwPageFree])
    /\ (forall nic0, vi_by_instance t nic0 (C.sint evq) = None ->
                     af_xdp_nic_event_queue_disable t nic0 evq = Done (nic0, [])).
Proof.
  intros Hvi Hget. exists (vi_put nic i vi_zero).
  unfold af_xdp_nic_event_queue_disable.
  rewrite vi_by_instance_vi_put, Hvi, Hget, (vi_get_put _ _ _ _ Hget), !bind_Done.
  simpl. rewrite vi_put_put.
  split; [reflexivity|]. split; [reflexivity|].
  split; [intros j Hj; apply vi_get_put_ne;
          [eapply vi_get_nonneg; exact Hget|congruence]|].
  split; [intros j; apply pd_get_vi_put|]. split; [reflexivity|].
  intros nic0 Hnone. rewrite Hnone. reflexivity.
Qed.

Lemma af_xdp_nic_event_queue_disable_spec_witness :
  exists nic',
    af_xdp_nic_event_queue_disable Unsigned nic_busy 0
    = Done (nic', [EfhwPageFree; Fput 7]).
Proof.
  destruct (af_xdp_nic_event_queue_disable_spec Unsigned nic_busy 0 0
              (Vi (Some 7) 5 128 128 0 offsets_zero None) eq_refl eq_refl)
    as (nic' & H & _).
  exists nic'. exact H.
Defined.

(** * Activation and the state of the VI *)

Ltac vi_exit H :=
  injection H as <- <-; right; eexists; simpl;
  split; [reflexivity|]; split; [reflexivity|]; split; [reflexivity|];
  split; [reflexivity|]; split; [reflexivity|]; split; [reflexivity|];
  split; [zbool; lia|]; split; [reflexivity|];
  right; split; [intros [= ?]; zbool; lia|reflexivity].

(** Where an activation that has started can stop: before the socket file
    is stored, with the NIC as it was, or after it, with the file in the
    VI whatever happens later. *)
Lemma af_xdp_init_resources_vi e nic instance i v pd chunk_size headroom pm r st :
  af_xdp_init_resources e nic instance i v pd chunk_size headroom pm = (r, st) ->
  (is_nic st = nic /\ is_sock_out st = None /\ r <> Rc 0
   /\ (fst (e_sock_create e) < 0
       \/ IS_ERR_VALUE (C.ulong (e_sock_alloc_file e)) = true))
  \/ (exists v',
        is_nic st = vi_put nic i v'
        /\ sock v' = Some (C.ulong (e_sock_alloc_file e))
        /\ owner_id v' = owner_id v
        /\ rxq_capacity v' = rxq_capacity v
        /\ txq_capacity v' = txq_capacity v
        /\ flags v' = flags v
        /\ 0 <= fst (e_sock_create e)
        /\ IS_ERR_VALUE (C.ulong (e_sock_alloc_file e)) = false
        /\ ((r = Rc 0 /\ is_sock_out st = Some (snd (e_sock_create e)))
            \/ (r <> Rc 0 /\ is_sock_out st = None))).
Proof.
  unfold af_xdp_init_resources. intros H.
  destruct (e_sock_create e) as [rc sk]. simpl.
  destruct (rc <? 0) eqn:E1.
  { injection H as <- <-. left. simpl. zbool.
    split; [reflexivity|]. split; [reflexivity|]. split; [intros [= ?]; lia|]. left. lia. }
  destruct (IS_ERR_VALUE (C.ulong (e_sock_alloc_file e))) eqn:E2.
  { injection H as <- <-. left. simpl. pose proof (IS_ERR_VALUE_negative _ E2).
    split; [reflexivity|]. split; [reflexivity|]. split; [intros [= ?]; lia|].
    right. reflexivity. }
  destruct (e_page_alloc e) as [rc1 page].
  destruct (rc1 <? 0) eqn:E3; [vi_exit H|].
  unfold efhw_page_map_add_page, efhw_page_map_add_lump in H.
  destruct (e_add_page e <? 0) eqn:E4; [rewrite E4 in H; vi_exit H|].
  change (0 <? 0) with false in H. cbv iota in H.
  destruct (match pd with
            | Some i0 => pd_get nic i0 ≫= λ d, Done (umem d)
            | None => Fault NULL_DEREF
            end) as [pages|f]; [|vi_exit H].
  destruct (xdp_register_umem e pages chunk_size headroom) as [[rc2|f] tu];
    [|vi_exit H].
  destruct (rc2 <? 0) eqn:E5; [vi_exit H|].
  simpl in H.
  destruct (xdp_create_rings _ _ _ _ _ _ _) as [[[[rc3 pm2] k] u] tr] eqn:R.
  destruct (rc3 <? 0) eqn:E6; [vi_exit H|].
  destruct (e_map_update e <? 0) eqn:E7; [vi_exit H|].
  destruct (e_bind e <? 0) eqn:E8; [vi_exit H|].
  injection H as <- <-. right. eexists. simpl.
  split; [reflexivity|]. split; [reflexivity|]. split; [reflexivity|].
  split; [reflexivity|]. split; [reflexivity|]. split; [reflexivity|].
  split; [zbool; lia|]. split; [reflexivity|]. left. split; reflexivity.
Qed.

Lemma vi_by_instance_Some t nic instance i :
  vi_by_instance t nic instance = Some i -> i = instance.
Proof.
  unfold vi_by_instance. destruct (af_xdp nic); [|discriminate].
  destruct (_ >=? _); [discriminate|]. intros [= <-]. reflexivity.
Qed.

Lemma vi_lim_vi_put nic i v : vi_lim (vi_put nic i v) = vi_lim nic.
Proof. unfold vi_put. destruct nic as [[x|] lim]; reflexivity. Qed.

(** X7: whichever way [af_xdp_init] ends, it leaves every PD and every VI
    other than the one it was called for as they were, and of that VI it
    never changes the owner, the queue capacities or the flags; a socket
    is handed out exactly when the result is 0, and it is the socket
    [__sock_create] made. *)
Theorem af_xdp_init_frame t e nic instance chunk_size headroom pm r st :
  af_xdp_init t e nic instance chunk_size headroom pm = (r, st) ->
  (forall j, pd_get (is_nic st) j = pd_get nic j)
  /\ (forall j, j <> instance -> vi_get (is_nic st) j = vi_get nic j)
  /\ vi_lim (is_nic st) = vi_lim nic
  /\ (forall v v',
        vi_get nic instance = Done v ->
        vi_get (is_nic st) instance = Done v' ->
        owner_id v' = owner_id v
        /\ rxq_capacity v' = rxq_capacity v
        /\ txq_capacity v' = txq_capacity v
        /\ flags v' = flags v)
  /\ ((r = Rc 0 /\ is_sock_out st = Some (snd (e_sock_create e)))
      \/ (r <> Rc 0 /\ is_sock_out st = None)).
Proof.
  assert (Hsame : forall r0,
             r0 <> Rc 0 ->
             (r0, InitState nic pm None []) = (r, st) ->
             (forall j, pd_get (is_nic st) j = pd_get nic j)
             /\ (forall j, j <> instance -> vi_get (is_nic st) j = vi_get nic j)
             /\ vi_lim (is_nic st) = vi_lim nic
             /\ (forall v v',
                   vi_get nic instance = Done v ->
                   vi_get (is_nic st) instance = Done v' ->
                   owner_id v' = owner_id v
                   /\ rxq_capacity v' = rxq_capacity v
                   /\ txq_capacity v' = txq_capacity v
                   /\ flags v' = flags v)
             /\ ((r = Rc 0 /\ is_sock_out st = Some (snd (e_sock_create e)))
                 \/ (r <> Rc 0 /\ is_sock_out st = None))).
  { intros r0 Hr0 [= <- <-]. simpl.
    split; [reflexivity|]. split; [reflexivity|]. split; [reflexivity|].
    split; [intros v v' Hv Hv'; rewrite Hv in Hv'; injection Hv' as <-; auto|].
    right. auto. }
  unfold af_xdp_init.
  destruct (_ || _ || _ || _); [apply Hsame; discriminate|].
  destruct (vi_by_instance t nic instance) as [i|] eqn:Hvi; [|apply Hsame; discriminate].
  apply vi_by_instance_Some in Hvi as ->.
  destruct (vi_get nic instance) as [v|f] eqn:Hget; [|apply Hsame; discriminate].
  destruct (sock v); [apply Hsame; discriminate|].
  intros H. pose proof (vi_get_nonneg _ _ _ Hget) as Hi.
  apply af_xdp_init_resources_vi in H
    as [(-> & Hs & Hr & _)|(v' & -> & _ & Ho & Hrx & Htx & Hfl & _ & _ & Hres)].
  - split; [reflexivity|]. split; [reflexivity|]. split; [reflexivity|].
    split; [intros w w' Hw Hw'; rewrite Hget in Hw'; injection Hw as <-;
            injection Hw' as <-; auto|].
    right. auto.
  - split; [intros j; apply pd_get_vi_put|].
    split; [intros j Hj; apply vi_get_put_ne; [exact Hi|congruence]|].
    split; [apply vi_lim_vi_put|]. split; [|exact Hres].
    intros w w' Hw Hw'. rewrite (vi_get_put _ _ _ _ Hget) in Hw'.
    injection Hw as <-. injection Hw' as <-. auto.
Qed.

Lemma af_xdp_init_frame_witness :
  exists r st,
    af_xdp_init Unsigned env0 (nic_init 2 7) 1 2048 0 (PageMap 0 []) = (r, st)
    /\ vi_get (is_nic st) 0 = vi_get (nic_init 2 7) 0
    /\ vi_lim (is_nic st) = 2.
Proof.
  eexists _, _. split; [vm_compute; reflexivity|].
  pose proof (af_xdp_init_frame Unsigned env0 (nic_init 2 7) 1 2048 0 (PageMap 0 [])
                _ _ eq_refl) as (_ & Hvi & Hlim & _).
  split; [apply Hvi; discriminate|exact Hlim].
Defined.

(** X8: once [af_xdp_init] has stored the socket file in the VI, the VI
    stays busy however the call ends, with 0 or with the error of any
    later step: a further activation of the instance returns [-EBUSY]
    without a call into the kernel, until the event queue is disabled,
    which puts exactly that file and resets the VI; the next activation
    then starts with a new socket. *)
Theorem af_xdp_init_busy_until_disabled t e nic instance chunk_size headroom pm r st v :
  - 2 ^ 31 <= instance < 2 ^ 31 ->
  0 < chunk_size -> chunk_size <= PAGE_SIZE -> PAGE_SIZE mod chunk_size = 0 ->
  headroom <= chunk_size ->
  vi_by_instance t nic instance = Some instance ->
  vi_get nic instance = Done v ->
  sock v = None ->
  0 <= fst (e_sock_create e) ->
  IS_ERR_VALUE (C.ulong (e_sock_alloc_file e)) = false ->
  af_xdp_init t e nic instance chunk_size headroom pm = (r, st) ->
  (forall e2 pm2,
      af_xdp_init t e2 (is_nic st) instance chunk_size headroom pm2
      = (Rc (- EBUSY), InitState (is_nic st) pm2 None []))
  /\ exists nic',
      af_xdp_nic_event_queue_disable t (is_nic st) instance
      = Done (nic', [EfhwPageFree; Fput (C.ulong (e_sock_alloc_file e))])
      /\ vi_get nic' instance = Done vi_zero
      /\ forall e2 pm2, exists tr,
           is_trace (snd (af_xdp_init t e2 nic' instance chunk_size headroom pm2))
           = SockCreate :: tr.
Proof.
  intros Hi H0 H1 H2 H3 Hvi Hget Hsock Hcreate Hfile H.
  pose proof (sizing_accepted _ _ H0 H1 H2 H3) as Hsz.
  unfold af_xdp_init in H. rewrite Hsz, Hvi, Hget, Hsock in H.
  apply af_xdp_init_resources_vi in H as [(_ & _ & _ & [Hc|Hf])|(v' & Hnic & Hs & _)];
    [lia|congruence|].
  assert (Hget' : vi_get (is_nic st) instance = Done v')
    by (rewrite Hnic; eapply vi_get_put; exact Hget).
  assert (Hvi' : vi_by_instance t (is_nic st) instance = Some instance)
    by (rewrite Hnic, vi_by_instance_vi_put; exact Hvi).
  split.
  - intros e2 pm2. unfold af_xdp_init. rewrite Hsz, Hvi', Hget', Hs. reflexivity.
  - exists (vi_put (is_nic st) instance vi_zero).
    unfold af_xdp_nic_event_queue_disable.
    rewrite sint_small by exact Hi. rewrite Hvi', Hget', bind_Done. simpl. rewrite Hs.
    split; [reflexivity|].
    split; [eapply vi_get_put; exact Hget'|].
    intros e2 pm2. unfold af_xdp_init.
    rewrite Hsz, vi_by_instance_vi_put, Hvi', (vi_get_put _ _ _ _ Hget'). simpl.
    apply af_xdp_init_resources_trace.
Qed.

Lemma af_xdp_init_busy_until_disabled_witness :
  exists r st,
    af_xdp_init Unsigned
      (InitEnv (0, 7) 4096 (- ENOMEM, 0) 0 0 (Some 0) 0 (e_getsockopt env0)
         (e_rx env0) (e_tx env0) (e_fr env0) (e_cr env0) 0 0 0 0)
      (nic_init 2 7) 1 2048 0 (PageMap 0 []) = (r, st)
    /\ r = Rc (- ENOMEM)
    /\ af_xdp_init Unsigned env0 (is_nic st) 1 2048 0 (PageMap 0 [])
       = (Rc (- EBUSY), InitState (is_nic st) (PageMap 0 []) None []).
Proof.
  eexists _, _. split; [vm_compute; reflexivity|]. split; [reflexivity|].
  refine (proj1 (af_xdp_init_busy_until_disabled Unsigned
                   (InitEnv (0, 7) 4096 (- ENOMEM, 0) 0 0 (Some 0) 0 (e_getsockopt env0)
                      (e_rx env0) (e_tx env0) (e_fr env0) (e_cr env0) 0 0 0 0)
                   (nic_init 2 7) 1 2048 0 (PageMap 0 []) _ _ vi_zero
                   _ _ _ _ _ _ _ _ _ _ eq_refl) env0 (PageMap 0 [])).
  - lia.
  - lia.
  - vm_compute. congruence.
  - reflexivity.
  - lia.
  - reflexivity.
  - reflexivity.
  - reflexivity.
  - simpl. lia.
  - reflexivity.
Defined.

(** * Descriptors and the redirect map *)

(** X9: [xdp_map_update] closes every descriptor it installs, in the
    reverse order, on each of its paths; the map is updated at most once,
    with the key given and the two descriptors installed for the map and
    the socket, and exactly when the result is the result of that update;
    when no descriptor can be had the result is the negative result of the
    allocation, [-EAGAIN] without any call when the task has no files. *)
Theorem xdp_map_update_fds e map key sock :
  let rc := fst (xdp_map_update e map key sock) in
  let tr := snd (xdp_map_update e map key sock) in
  closed_fds tr = rev (installed_fds tr)
  /\ (fe_files e = false -> rc = - EAGAIN /\ tr = [])
  /\ ((map_updates tr = [] /\ rc < 0 /\ (length (installed_fds tr) <= 1)%nat)
      \/ (exists map_fd sock_fd,
             map_updates tr = [(map_fd, key, sock_fd)]
             /\ rc = C.sint (fe_bpf e)
             /\ 0 <= map_fd /\ 0 <= sock_fd
             /\ tr = [GetFile map; FdInstall map_fd map;
                      GetFile sock; FdInstall sock_fd sock;
                      BpfMapUpdateElem map_fd key sock_fd;
                      CloseFd sock_fd; CloseFd map_fd])).
Proof.
  unfold xdp_map_update, xdp_alloc_fd, xdp_map_update_fd.
  destruct (fe_files e); simpl.
  2: { split; [reflexivity|]. split; [auto|]. left. unfold EAGAIN. simpl.
       split; [reflexivity|]. split; lia. }
  destruct (C.sint (fe_map_fd e) <? 0) eqn:E1; simpl; rewrite ?E1; simpl.
  { split; [reflexivity|]. split; [discriminate|]. left. zbool.
    split; [reflexivity|]. split; [lia|]. simpl. lia. }
  destruct (C.sint (fe_sock_fd e) <? 0) eqn:E2; simpl; rewrite ?E2; simpl.
  { split; [reflexivity|]. split; [discriminate|]. left. zbool.
    split; [reflexivity|]. split; [lia|]. simpl. lia. }
  split; [reflexivity|]. split; [discriminate|]. right. zbool.
  eexists _, _. split; [reflexivity|]. split; [reflexivity|].
  split; [lia|]. split; [lia|]. reflexivity.
Qed.

(** * Hardware initialisation and release *)

(** X10: with six bytes of MAC address at hand, hardware initialisation
    either returns 0, and then the NIC has the zeroed AF_XDP state
    [nic_init] with the map file [fget] gave, the MAC address copied and
    the hardware fields tweaked, and nothing was freed; or it returns a
    negative result with the NIC and the hardware fields as they were and
    the state, if it was allocated, freed once.  Either way each of the
    two descriptors it got from the kernel is closed exactly once, and
    after success the release puts the map file and frees the state. *)
Theorem af_xdp_nic_init_hardware_spec F e nic hw mac r nic' hw' tr :
  af_xdp_nic_init_hardware F e nic hw mac = (r, nic', hw', tr) ->
  ETH_ALEN <= Z.of_nat (length mac) ->
  let map_fd := C.sint (he_map_create e) in
  let prog_fd := C.sint (he_prog_load e) in
  closed_fds tr
  = (if negb (he_kzalloc e) || (map_fd <? 0) then []
     else if prog_fd <? 0 then [map_fd] else [prog_fd; map_fd])
  /\ ((r = Rc 0
       /\ nic' = nic_init (vi_lim nic) (he_fget e)
       /\ hw' = NicHw (take (Z.to_nat ETH_ALEN) mac
                        ++ drop (Z.to_nat ETH_ALEN) (mac_addr hw))
                      0 0 0 0 0 0 0 0 F
       /\ kfrees tr = 0%nat
       /\ 0 <= map_fd /\ 0 <= prog_fd
       /\ af_xdp_nic_release_hardware (he_ndo_bpf e) nic'
          = [SetLink 0; Fput (he_fget e); Kfree])
      \/ (exists rc,
             r = Rc rc /\ rc < 0
             /\ nic' = nic /\ hw' = hw
             /\ kfrees tr = (if he_kzalloc e then 1%nat else 0%nat))).
Proof.
  unfold af_xdp_nic_init_hardware. intros H Hmac.
  destruct (he_kzalloc e); simpl in H |- *.
  2: { injection H as <- <- <- <-. split; [reflexivity|]. right.
       exists (- ENOMEM). unfold ENOMEM. split; [reflexivity|]. split; [lia|]. auto. }
  destruct (C.sint (he_map_create e) <? 0) eqn:E1.
  { injection H as <- <- <- <-. split; [reflexivity|]. right. zbool.
    eexists. split; [reflexivity|]. split; [lia|]. auto. }
  destruct (C.sint (he_prog_load e) <? 0) eqn:E2.
  { injection H as <- <- <- <-. split; [reflexivity|]. right. zbool.
    eexists. split; [reflexivity|]. split; [lia|]. auto. }
  destruct (IS_ERR_VALUE (C.ulong (he_prog_get e))) eqn:E3.
  { injection H as <- <- <- <-. split; [reflexivity|]. right.
    apply IS_ERR_VALUE_negative in E3.
    eexists. split; [reflexivity|]. split; [exact E3|]. auto. }
  unfold xdp_set_link in H |- *. destruct (he_ndo_bpf e) as [op|]; simpl in H.
  2: { injection H as <- <- <- <-. split; [reflexivity|]. right.
       exists (- ENOSYS). unfold ENOSYS. split; [reflexivity|]. split; [lia|]. auto. }
  destruct (C.sint op <? 0) eqn:E4.
  { injection H as <- <- <- <-. split; [reflexivity|]. right. zbool.
    eexists. split; [reflexivity|]. split; [lia|]. auto. }
  rewrite (proj2 (Z.ltb_ge _ _) Hmac) in H.
  injection H as <- <- <- <-. split; [reflexivity|]. left. zbool.
  split; [reflexivity|]. split; [reflexivity|]. split; [reflexivity|].
  split; [reflexivity|]. split; [lia|]. split; [lia|]. reflexivity.
Qed.

Lemma af_xdp_nic_init_hardware_spec_witness :
  exists nic' hw' tr,
    af_xdp_nic_init_hardware 8 (HwEnv true 3 4 4096 (Some 0) 77) (Nic None 2)
      (NicHw [0; 0; 0; 0; 0; 0] 1 2 3 4 5 6 7 8 9) [10; 11; 12; 13; 14; 15; 16]
    = (Rc 0, nic', hw', tr)
    /\ closed_fds tr = [4; 3]
    /\ nic' = nic_init 2 77
    /\ mac_addr hw' = [10; 11; 12; 13; 14; 15].
Proof.
  eexists _, _, _. split; [vm_compute; reflexivity|].
  pose proof (af_xdp_nic_init_hardware_spec 8 (HwEnv true 3 4 4096 (Some 0) 77)
                (Nic None 2) (NicHw [0; 0; 0; 0; 0; 0] 1 2 3 4 5 6 7 8 9)
                [10; 11; 12; 13; 14; 15; 16] _ _ _ _ eq_refl) as Hw.
  destruct Hw as [Hc [(_ & Hn & Hh & _)|(rc & Hr & Hneg & _)]].
  - simpl. unfold ETH_ALEN. lia.
  - split; [exact Hc|]. split; [exact Hn|]. reflexivity.
  - exfalso. injection Hr as <-. lia.
Defined.

(** * The redirect program and the block handle *)

Lemma lor_disjoint a b k :
  0 <= k -> 0 <= b < 2 ^ k -> Z.lor (a * 2 ^ k) b = a * 2 ^ k + b.
Proof.
  intros Hk Hb.
  assert (E : Z.land (a * 2 ^ k) b = 0).
  { apply Z.bits_inj'. intros n Hn. rewrite Z.land_spec, Z.bits_0.
    destruct (Z_lt_dec n k).
    - rewrite (Z.mul_pow2_bits_low a k n) by lia. reflexivity.
    - replace (Z.testbit b n) with false; [apply andb_false_r|].
      symmetry. destruct (Z.eq_dec b 0) as [->|]; [apply Z.bits_0|].
      apply (Z.bits_above_log2 b n); [lia|].
      apply Z.lt_le_trans with k; [|lia].
      apply Z.log2_lt_pow2; lia. }
  rewrite <- Z.lxor_lor by exact E. symmetry. apply Z.add_nocarry_lxor. exact E.
Qed.

Lemma xdp_prog_fdH map_fd :
  C.ulong (Z.shiftl (C.ulong map_fd) 32) = C.uint map_fd * 2 ^ 32.
Proof.
  unfold C.ulong, C.uint. rewrite Z.shiftl_mul_pow2 by lia.
  change (2 ^ 64) with (2 ^ 32 * 2 ^ 32).
  rewrite Z.mul_mod_distr_r by lia. f_equal.
  apply Z.mod_mod_divide. exists (2 ^ 32). reflexivity.
Qed.

(** X11: the program [xdp_prog_load] hands to the kernel has 31
    instruction slots; the slots 19 and 26, and only they, depend on the
    map descriptor: each is a 64-bit immediate load ([BPF_LD | BPF_DW |
    BPF_IMM], code 0x18) into register 1 with the source
    [BPF_PSEUDO_MAP_FD] and the descriptor as its immediate, followed by
    the empty second slot of that load; every slot fits 64 bits. *)
Theorem xdp_prog_relocation map_fd :
  - 2 ^ 31 <= map_fd < 2 ^ 31 ->
  xdp_prog_insn_cnt map_fd = 31
  /\ Forall (fun w => 0 <= w < 2 ^ 64) (xdp_prog map_fd)
  /\ (forall k, k = 19%nat \/ k = 26%nat ->
        exists w,
          xdp_prog map_fd !! k = Some w
          /\ insn_code w = 0x18
          /\ insn_dst_reg w = 1
          /\ insn_src_reg w = 1
          /\ insn_imm w = C.uint map_fd
          /\ xdp_prog map_fd !! S k = Some 0)
  /\ (forall k, k <> 19%nat -> k <> 26%nat -> xdp_prog map_fd !! k = xdp_prog 0 !! k).
Proof.
  intros Hfd.
  assert (Hu : 0 <= C.uint map_fd < 2 ^ 32) by (apply Z.mod_pos_bound; lia).
  assert (Hw : Z.lor (C.ulong (Z.shiftl (C.ulong map_fd) 32)) 0x00001118
               = C.uint map_fd * 2 ^ 32 + 0x1118).
  { rewrite xdp_prog_fdH. apply lor_disjoint; lia. }
  assert (Hfields : let w := C.uint map_fd * 2 ^ 32 + 0x1118 in
                    insn_code w = 0x18 /\ insn_dst_reg w = 1 /\ insn_src_reg w = 1
                    /\ insn_imm w = C.uint map_fd).
  { unfold insn_code, insn_dst_reg, insn_src_reg, insn_imm.
    set (u := C.uint map_fd) in *. clearbody u. cbv zeta.
    change 255 with (Z.ones 8). change 15 with (Z.ones 4).
    change (2 ^ 32 - 1) with (Z.ones 32).
    rewrite !Z.land_ones, !Z.shiftr_div_pow2 by lia.
    change (2 ^ 32) with 4294967296. change (2 ^ 8) with 256.
    change (2 ^ 12) with 4096. change (2 ^ 4) with 16.
    repeat split.
    - symmetry. apply (Z.mod_unique_pos _ _ (u * 16777216 + 17)); lia.
    - replace ((u * 4294967296 + 4376) / 256) with (u * 16777216 + 17)
        by (apply (Z.div_unique_pos _ 256 _ 24); lia).
      symmetry. apply (Z.mod_unique_pos _ _ (u * 1048576 + 1)); lia.
    - replace ((u * 4294967296 + 4376) / 4096) with (u * 1048576 + 1)
        by (apply (Z.div_unique_pos _ 4096 _ 280); lia).
      symmetry. apply (Z.mod_unique_pos _ _ (u * 65536)); lia.
    - replace ((u * 4294967296 + 4376) / 4294967296) with u
        by (apply (Z.div_unique_pos _ 4294967296 _ 4376); lia).
      apply Z.mod_small. lia. }
  split; [reflexivity|]. split; [|split].
  - unfold xdp_prog. rewrite Hw.
    repeat (apply Forall_cons; split; [lia|]). apply Forall_nil. exact I.
  - intros k [-> | ->]; unfold xdp_prog; rewrite Hw; eexists;
      (split; [reflexivity|]);
      destruct Hfields as (H1 & H2 & H3 & H4); auto.
  - intros k H19 H26. unfold xdp_prog.
    do 31 (destruct k as [|k]; [first [reflexivity | congruence]|]).
    reflexivity.
Qed.

Lemma xdp_prog_relocation_witness :
  xdp_prog_insn_cnt 5 = 31
  /\ exists w, xdp_prog 5 !! 19%nat = Some w /\ insn_imm w = 5.
Proof.
  destruct (xdp_prog_relocation 5 ltac:(lia)) as (Hc & _ & Hk & _).
  split; [exact Hc|].
  destruct (Hk 19%nat (or_introl eq_refl)) as (w & Hw & _ & _ & _ & Hi & _).
  exists w. split; [exact Hw|exact Hi].
Defined.

Lemma lor_low_byte order t :
  0 <= order < 256 -> Z.lor order (t * 256) = order + t * 256.
Proof.
  intros Hr. rewrite Z.lor_comm. change 256 with (2 ^ 8).
  rewrite lor_disjoint by lia. lia.
Qed.

(** X12: the handle of a block is decoded as it was encoded for exactly
    the owners below [1 << 24], the bound [af_xdp_nic_buffer_table_alloc]
    tests: for an order below 256 the order always comes back, and the
    owner comes back reduced modulo [1 << 24]. *)
Theorem btb_handle_round_trip owner order :
  0 <= owner < 2 ^ 31 -> 0 <= order < 256 ->
  C.sint (Z.land (btb_handle owner order) 255) = order
  /\ C.sint (Z.shiftr (btb_handle owner order) 8) = owner mod 2 ^ 24
  /\ (C.sint (Z.shiftr (btb_handle owner order) 8) = owner <-> owner < 2 ^ 24).
Proof.
  intros Ho Hr. unfold btb_handle.
  rewrite Z.shiftl_mul_pow2 by lia. change (2 ^ 8) with 256.
  assert (Es : exists q, C.sint (owner * 256) = (owner - q * 2 ^ 24) * 256).
  { exists ((owner * 256 + 2 ^ 31) / 2 ^ 32). unfold C.sint, C.wrap_signed.
    change (2 ^ (32 - 1)) with (2 ^ 31).
    pose proof (Z.div_mod (owner * 256 + 2 ^ 31) (2 ^ 32) ltac:(lia)). lia. }
  destruct Es as [q ->]. rewrite lor_low_byte by exact Hr.
  assert (Eh : C.uint (order + (owner - q * 2 ^ 24) * 256)
               = order + (owner mod 2 ^ 24) * 256).
  { unfold C.uint. symmetry.
    pose proof (Z.mod_pos_bound owner (2 ^ 24) ltac:(lia)).
    pose proof (Z.div_mod owner (2 ^ 24) ltac:(lia)).
    apply (Z.mod_unique_pos _ _ (owner / 2 ^ 24 - q)); lia. }
  rewrite Eh. pose proof (Z.mod_pos_bound owner (2 ^ 24) ltac:(lia)) as Hm.
  assert (E1 : Z.land (order + owner mod 2 ^ 24 * 256) 255 = order).
  { change 255 with (Z.ones 8). rewrite Z.land_ones by lia. change (2 ^ 8) with 256.
    rewrite Z.mod_add by lia. apply Z.mod_small. lia. }
  assert (E2 : Z.shiftr (order + owner mod 2 ^ 24 * 256) 8 = owner mod 2 ^ 24).
  { rewrite Z.shiftr_div_pow2 by lia. change (2 ^ 8) with 256.
    rewrite Z.div_add by lia. rewrite Z.div_small by lia. reflexivity. }
  rewrite E1, E2, !sint_small by lia.
  split; [reflexivity|]. split; [reflexivity|]. split.
  - intros E. lia.
  - intros Hlt. apply Z.mod_small. lia.
Qed.

Lemma btb_handle_round_trip_witness :
  C.sint (Z.land (btb_handle 300 7) 255) = 7
  /\ C.sint (Z.shiftr (btb_handle 300 7) 8) = 300 mod 2 ^ 24.
Proof.
  destruct (btb_handle_round_trip 300 7 ltac:(lia) ltac:(lia)) as (H1 & H2 & _).
  split; [exact H1|exact H2].
Defined.

(** * Releasing a directory *)

(** X13: [umem_pages_free] releases the pointer array and every counted
    block of a tracked directory and nothing else, but leaves the
    structure pointing at them: freeing the same structure once more runs
    into the released array, whereas after the [memset] of
    [xdp_release_pd] a further free does nothing. *)
Theorem umem_pages_free_stale h u bs a :
  umem_tracks h u bs ->
  blocks u = Ptr a ->
  exists h',
    umem_pages_free h u = Done h'
    /\ (forall l, l ∈ owned u bs -> objs h' !! l = None)
    /\ (forall l, l ∉ owned u bs -> objs h' !! l = objs h !! l)
    /\ (exists f, umem_pages_free h' u = Fault f)
    /\ umem_pages_free h' umem_zero = Done h'.
Proof.
  intros Htr Ha.
  destruct (umem_pages_free_spec h u bs Htr) as (h' & Hrun & _ & Hout).
  exists h'. split; [exact Hrun|].
  assert (Hgone : forall l, l ∈ owned u bs -> objs h' !! l = None).
  { intros l Hl. rewrite Hout. unfold outside. rewrite decide_True by exact Hl.
    reflexivity. }
  split; [exact Hgone|]. split.
  { intros l Hl. rewrite Hout. unfold outside. rewrite decide_False by exact Hl.
    reflexivity. }
  split; [|reflexivity].
  assert (Hna : objs h' !! a = None).
  { apply Hgone. unfold owned. rewrite Ha. simpl. left. }
  unfold umem_pages_free. rewrite (tr_count _ _ _ Htr), Nat2Z.id.
  destruct bs as [|b bs].
  - simpl. rewrite Ha. unfold kfree. rewrite Hna. eauto.
  - cbn [length umem_pages_free_loop].
    rewrite (proj2 (Z.ltb_lt 0 (block_count u)))
      by (rewrite (tr_count _ _ _ Htr); simpl; lia).
    unfold read_slot. rewrite Ha, Hna. simpl. eauto.
Qed.

Lemma umem_pages_free_stale_witness :
  exists h',
    umem_pages_free example_heap (UmemPages 128 1 0 (Ptr 1%nat)) = Done h'
    /\ exists f, umem_pages_free h' (UmemPages 128 1 0 (Ptr 1%nat)) = Fault f.
Proof.
  destruct (umem_pages_free_stale example_heap (UmemPages 128 1 0 (Ptr 1%nat))
              [2%nat] 1%nat) as (h' & Hrun & _ & _ & Hf & _).
  - split.
    + reflexivity.
    + reflexivity.
    + eexists. vm_compute. reflexivity.
    + apply (bool_decide_unpack _). vm_compute. exact I.
    + apply Forall_singleton. eexists. split; vm_compute; reflexivity.
  - reflexivity.
  - exists h'. split; [exact Hrun|exact Hf].
Defined.

(** * Blocks of one owner *)

(** X14: two blocks allocated one after the other for one owner are
    distinct live descriptors with the handles of their orders; the
    second starts, in bytes, where the pages of the first end, and the
    directory has grown by the pages of both. *)
Theorem af_xdp_nic_buffer_table_alloc_adjacent
  BS h nic owner o1 o2 d bs b1 h1 nic1 b2 h2 nic2 :
  0 < BS ->
  0 <= owner < MAX_PDS ->
  pd_get nic owner = Done d ->
  umem_tracks h (umem d) bs ->
  0 <= o1 <= 10 -> 0 <= o2 <= 10 ->
  BS * 2 ^ o1 < 2 ^ 31 -> BS * 2 ^ o2 < 2 ^ 31 ->
  0 <= page_count (umem d) ->
  page_count (umem d) + BS * 2 ^ o1 + BS * 2 ^ o2 + 511 < 2 ^ 51 ->
  af_xdp_nic_buffer_table_alloc BS h nic owner o1 = Done (0, Some b1, h1, nic1) ->
  af_xdp_nic_buffer_table_alloc BS h1 nic1 owner o2 = Done (0, Some b2, h2, nic2) ->
  b1 <> b2
  /\ btb_get h2 b1 = Done (btb_handle owner o1, page_count (umem d) * PAGE_SIZE)
  /\ btb_get h2 b2
     = Done (btb_handle owner o2, (page_count (umem d) + BS * 2 ^ o1) * PAGE_SIZE)
  /\ exists d2,
       pd_get nic2 owner = Done d2
       /\ page_count (umem d2) = page_count (umem d) + BS * 2 ^ o1 + BS * 2 ^ o2
       /\ page_count (umem d2) <= block_count (umem d2) * UMEM_BLOCK
       /\ used_page_count (umem d2) = used_page_count (umem d)
       /\ buffer_table_count d2
          = C.slong (C.slong (buffer_table_count d + 1) + 1)
       /\ freed_buffer_table_count d2 = freed_buffer_table_count d.
Proof.
  intros HBS Ho Hget Htr Ho1 Ho2 Hs1 Hs2 Hpc Hsum Hrun1 Hrun2.
  assert (Hp1 : 0 < BS * 2 ^ o1) by (apply Z.mul_pos_pos; [lia|apply Z.pow_pos_nonneg; lia]).
  destruct (af_xdp_nic_buffer_table_alloc_post BS HBS h nic owner o1 d bs
              Ho Hget Htr Ho1 Hs1 Hpc ltac:(lia))
    as (rc & blk & h1' & nic1' & u1 & new1 & Hr1 & Htr1 & Hu1 & Hcase1).
  rewrite Hrun1 in Hr1. injection Hr1 as <- <- <- <-.
  destruct Hcase1 as [(Hrc & _)|(_ & b & Hb & Hfree1 & Hnot1 & Hlive1 & Hnic1 & Hpc1 & _ & _)];
    [unfold ENOMEM in Hrc; lia|].
  injection Hb as <-.
  set (d1 := Pd u1 (C.slong (buffer_table_count d + 1)) (freed_buffer_table_count d)) in *.
  assert (Hget1 : pd_get nic1 owner = Done d1)
    by (rewrite Hnic1; eapply pd_get_put; exact Hget).
  destruct (af_xdp_nic_buffer_table_alloc_post BS HBS h1 nic1 owner o2 d1 (bs ++ new1)
              Ho Hget1 Htr1 Ho2 Hs2 ltac:(simpl; lia) ltac:(simpl; lia))
    as (rc & blk & h2' & nic2' & u2 & new2 & Hr2 & Htr2 & Hu2 & Hcase2).
  rewrite Hrun2 in Hr2. injection Hr2 as <- <- <- <-.
  destruct Hcase2
    as [(Hrc & _)|(_ & b & Hb & Hfree2 & Hnot2 & Hlive2 & Hnic2 & Hpc2 & Hcap2 & Hframe2)];
    [unfold ENOMEM in Hrc; lia|].
  injection Hb as <-. simpl in Hlive2, Hpc2, Hu2.
  assert (Hne : b1 <> b2) by (intros ->; congruence).
  split; [exact Hne|].
  assert (Hkeep : objs h2 !! b1
                  = Some (OBtb (btb_handle owner o1) (page_count (umem d) * PAGE_SIZE))).
  { pose proof (Hframe2 b1 Hne) as E. unfold outside in E. simpl in E.
    rewrite (decide_False (P := b1 ∈ owned u1 (bs ++ new1))) in E by exact Hnot1.
    rewrite Hlive1 in E.
    destruct (decide (b1 ∈ owned u2 ((bs ++ new1) ++ new2))); [discriminate|exact E]. }
  split; [unfold btb_get; rewrite Hkeep; reflexivity|].
  split; [unfold btb_get; rewrite Hlive2, Hpc1; reflexivity|].
  eexists. split; [rewrite Hnic2; eapply pd_get_put; exact Hget1|]. simpl.
  split; [lia|]. split; [exact Hcap2|]. split; [congruence|].
  split; reflexivity.
Qed.

Lemma af_xdp_nic_buffer_table_alloc_adjacent_witness :
  exists b1 b2 h2 nic2,
    b1 <> b2
    /\ btb_get h2 b1 = Done (btb_handle 5 2, 0 * PAGE_SIZE)
    /\ btb_get h2 b2 = Done (btb_handle 5 1, (0 + 32 * 2 ^ 2) * PAGE_SIZE)
    /\ exists d2,
         pd_get nic2 5 = Done d2
         /\ page_count (umem d2) = 0 + 32 * 2 ^ 2 + 32 * 2 ^ 1
         /\ page_count (umem d2) <= block_count (umem d2) * UMEM_BLOCK
         /\ used_page_count (umem d2) = 0
         /\ buffer_table_count d2 = C.slong (C.slong (0 + 1) + 1)
         /\ freed_buffer_table_count d2 = 0.
Proof.
  eexists _, _, _, _.
  eapply (af_xdp_nic_buffer_table_alloc_adjacent 32 heap0 (nic_init 4 0) 5 2 1 pd_zero []).
  - lia.
  - vm_compute. split; congruence.
  - reflexivity.
  - apply umem_tracks_zero.
  - lia.
  - lia.
  - reflexivity.
  - reflexivity.
  - simpl. lia.
  - reflexivity.
  - vm_compute. reflexivity.
  - vm_compute. reflexivity.
Defined.

(** * The mark after a block has been filled *)

Lemma buffer_table_set_pages_mark :
  forall fuel lim j h u page dma h' u' p',
    0 <= j <= lim -> lim < 2 ^ 31 -> lim - j <= Z.of_nat fuel ->
    0 <= page -> page + (lim - j) < 2 ^ 62 ->
    buffer_table_set_pages fuel lim j h u page dma = Done (h', u', p') ->
    p' = page + (lim - j)
    /\ used_page_count u'
       = if j <? lim then Z.max (used_page_count u) (page + (lim - j) - 1)
         else used_page_count u.
Proof.
  induction fuel as [|fuel IH]; intros lim j h u page dma h' u' p' Hj Hlim Hfuel Hpage Hfit H.
  - assert (lim = j) as -> by lia. simpl in H. injection H as _ <- <-.
    rewrite Z.ltb_irrefl. split; [lia|reflexivity].
  - cbn [buffer_table_set_pages] in H.
    destruct (j <? lim) eqn:Hg; zbool.
    2:{ injection H as _ <- <-. split; [lia|reflexivity]. }
    apply bind_inv in H as ([h1 u1] & Hset & H).
    apply umem_pages_set_addr_mark in Hset as (Hm & _).
    rewrite (sint_small (j + 1)), (slong_small (page + 1)) in H by lia.
    apply IH in H as [-> Hu]; try lia.
    split; [lia|]. rewrite Hu, Hm.
    destruct (j + 1 <? lim) eqn:Hg'; zbool; lia.
Qed.

Lemma buffer_table_set_entries_mark order :
  0 <= order <= 10 ->
  forall fuel n i (dma_addrs : list Z) h u page h' u' p',
    0 <= i <= n -> n < 2 ^ 31 -> n - i <= Z.of_nat fuel ->
    0 <= page -> page + (n - i) * 2 ^ order < 2 ^ 62 ->
    buffer_table_set_entries fuel n order i dma_addrs h u page = Done (h', u', p') ->
    p' = page + (n - i) * 2 ^ order
    /\ used_page_count u'
       = if i <? n then Z.max (used_page_count u) (page + (n - i) * 2 ^ order - 1)
         else used_page_count u.
Proof.
  intros Hord. destruct (one_shl order Hord) as [Hshl Hpow].
  induction fuel as [|fuel IH];
    intros n i dma_addrs h u page h' u' p' Hi Hn Hfuel Hpage Hfit H.
  - assert (n = i) as -> by lia. simpl in H. injection H as _ <- <-.
    rewrite Z.ltb_irrefl. split; [lia|reflexivity].
  - cbn [buffer_table_set_entries] in H.
    destruct (i <? n) eqn:Hg; zbool.
    2:{ assert (n = i) as -> by lia. injection H as _ <- <-.
        split; [lia|reflexivity]. }
    apply bind_inv in H as (a & _ & H). rewrite Hshl in H.
    apply bind_inv in H as ([[h1 u1] p1] & Hin & H).
    assert (Hstep : 1 * 2 ^ order <= (n - i) * 2 ^ order)
      by (apply Z.mul_le_mono_nonneg_r; lia).
    destruct (buffer_table_set_pages_mark (Z.to_nat (2 ^ order)) (2 ^ order) 0 h u page a
                h1 u1 p1 ltac:(lia) ltac:(lia) ltac:(lia) Hpage ltac:(lia) Hin)
      as [-> Hu1].
    rewrite (proj2 (Z.ltb_lt 0 (2 ^ order))) in Hu1 by lia.
    rewrite (sint_small (i + 1)) in H by lia.
    assert (Hnext : page + (2 ^ order - 0) + (n - (i + 1)) * 2 ^ order
                    = page + (n - i) * 2 ^ order) by lia.
    destruct (IH n (i + 1) dma_addrs h1 u1 (page + (2 ^ order - 0)) h' u' p'
                ltac:(lia) Hn ltac:(lia) ltac:(lia) ltac:(lia) H)
      as [-> Hu].
    split; [lia|]. rewrite Hu, Hu1.
    destruct (i + 1 <? n) eqn:Hg'; zbool; [lia|].
    assert (n = i + 1) as -> by lia. lia.
Qed.

(** The call on a block as [af_xdp_nic_buffer_table_alloc] makes them. *)
Lemma af_xdp_nic_buffer_table_set_unfold
  h nic block owner order base first_entry n_entries (dma_addrs : list Z) d :
  btb_get h block = Done (btb_handle owner order, base * PAGE_SIZE) ->
  0 <= owner < MAX_PDS ->
  0 <= order <= 10 ->
  0 <= base < 2 ^ 50 ->
  pd_get nic owner = Done d ->
  0 <= page_count (umem d) < 2 ^ 62 ->
  0 <= first_entry -> first_entry * 2 ^ order < 2 ^ 31 ->
  0 <= n_entries -> n_entries * 2 ^ order < 2 ^ 31 ->
  af_xdp_nic_buffer_table_set h nic block first_entry n_entries dma_addrs
  = if base + first_entry * 2 ^ order + n_entries * 2 ^ order >? page_count (umem d)
    then Done (- EINVAL, h, nic)
    else
      '(h1, u, _) ←
        buffer_table_set_entries (Z.to_nat n_entries) n_entries order 0
          dma_addrs h (umem d) (base + first_entry * 2 ^ order);
      Done (0, h1,
            pd_put nic owner
              (Pd u (buffer_table_count d) (freed_buffer_table_count d))).
Proof.
  intros Hblk Ho Hord Hbase Hget Hpc Hf Hfs Hn Hns.
  destruct (one_shl order Hord) as [_ Hpow].
  unfold af_xdp_nic_buffer_table_set. rewrite Hblk, bind_Done. cbv beta iota.
  change MAX_PDS with 256 in Ho.
  destruct (btb_handle_fields owner order) as [-> ->]; [lia..|].
  rewrite (pd_by_owner_in_range nic owner d) by (try assumption; change MAX_PDS with 256; lia).
  rewrite Hget, bind_Done.
  change PAGE_SHIFT with 12. change PAGE_SIZE with 4096.
  rewrite Z.shiftr_div_pow2 by lia. change (2 ^ 12) with 4096.
  rewrite Z.div_mul by lia.
  rewrite !Z.shiftl_mul_pow2 by lia.
  rewrite (sint_small (first_entry * 2 ^ order)) by nia.
  rewrite (sint_small (n_entries * 2 ^ order)) by nia.
  rewrite ulong_small by nia. rewrite (slong_small (base + _)) by nia.
  rewrite slong_small by nia. reflexivity.
Qed.

(** X15: after a block range has been filled with at least one entry, the
    mark of the directory is the larger of the old mark and the last page
    written, not one past it: a fault in any written page below that
    mark resolves to the address stored for it, but when the range ends
    at or above the old mark a fault in its last page is refused, although
    the page holds its address. *)
Theorem af_xdp_nic_buffer_table_set_mark
  h nic block owner order base first_entry n_entries (dma_addrs : list Z) d bs :
  btb_get h block = Done (btb_handle owner order, base * PAGE_SIZE) ->
  0 <= owner < MAX_PDS ->
  0 <= order <= 10 ->
  0 <= base < 2 ^ 50 ->
  pd_get nic owner = Done d ->
  umem_tracks h (umem d) bs ->
  0 <= page_count (umem d) <= block_count (umem d) * UMEM_BLOCK ->
  block_count (umem d) * UMEM_BLOCK < 2 ^ 51 ->
  0 <= first_entry -> first_entry * 2 ^ order < 2 ^ 31 ->
  0 < n_entries -> n_entries * 2 ^ order < 2 ^ 31 ->
  Z.of_nat (length dma_addrs) = n_entries ->
  Forall (fun a => 0 <= a < 2 ^ 64) dma_addrs ->
  let page := base + first_entry * 2 ^ order in
  let last := page + n_entries * 2 ^ order - 1 in
  last < page_count (umem d) ->
  exists h' nic' d',
    af_xdp_nic_buffer_table_set h nic block first_entry n_entries dma_addrs
    = Done (0, h', nic')
    /\ pd_get nic' owner = Done d'
    /\ used_page_count (umem d') = Z.max (used_page_count (umem d)) last
    /\ umem_pages_get_addr h' (umem d') last
       = Done (C.ulong (default 0 (dma_addrs !! Z.to_nat (n_entries - 1))
                        + (2 ^ order - 1) * PAGE_SIZE))
    /\ (forall k j off,
          0 <= k < n_entries -> 0 <= j < 2 ^ order -> 0 <= off < PAGE_SIZE ->
          page + k * 2 ^ order + j < Z.max (used_page_count (umem d)) last ->
          exists a,
            dma_addrs !! Z.to_nat k = Some a
            /\ fault h' (umem d') ((page + k * 2 ^ order + j) * PAGE_SIZE + off)
               = Done (VM_FAULT_PAGE (C.ulong (a + j * PAGE_SIZE))))
    /\ (forall off,
          used_page_count (umem d) <= last -> 0 <= off < PAGE_SIZE ->
          fault h' (umem d') (last * PAGE_SIZE + off) = Done VM_FAULT_SIGSEGV).
Proof.
  intros Hblk Ho Hord Hbase Hget Htr Hpc Hcap Hf Hfs Hn Hns Hlen Hrange page last Hfit.
  destruct (one_shl order Hord) as [_ Hpow].
  rewrite (af_xdp_nic_buffer_table_set_unfold h nic block owner order base first_entry
             n_entries dma_addrs d Hblk Ho Hord Hbase Hget ltac:(lia) Hf Hfs
             ltac:(lia) Hns).
  fold page.
  rewrite Z.gtb_ltb, (proj2 (Z.ltb_ge _ _)) by (subst last; lia).
  destruct (buffer_table_set_entries_spec bs order Hord (Z.to_nat n_entries) n_entries 0
              dma_addrs h (umem d) page Htr ltac:(lia) ltac:(nia) ltac:(lia) ltac:(lia)
              Hrange ltac:(subst page; nia) ltac:(subst last page; nia) ltac:(lia))
    as (h' & u' & Hrun & Htr' & Hc' & Hp' & Hin & Hout & _).
  destruct (buffer_table_set_entries_mark order Hord (Z.to_nat n_entries) n_entries 0
              dma_addrs h (umem d) page h' u' _
              ltac:(lia) ltac:(nia) ltac:(lia) ltac:(subst page; nia)
              ltac:(subst last page; nia) Hrun) as [_ Hmark].
  rewrite (proj2 (Z.ltb_lt 0 n_entries)) in Hmark by lia.
  replace (page + (n_entries - 0) * 2 ^ order - 1) with last in Hmark by (subst last; lia).
  rewrite Hrun, bind_Done. cbv beta iota.
  eexists h', _, _. split; [reflexivity|].
  split; [eapply pd_get_put; exact Hget|]. simpl.
  split; [exact Hmark|].
  assert (Hpage : 0 <= page) by (subst page; nia).
  split; [|split].
  - destruct (Hin (n_entries - 1) (2 ^ order - 1) ltac:(lia) ltac:(lia))
      as (a & Ha & Hg).
    rewrite Ha. simpl.
    replace last with (page + (n_entries - 1 - 0) * 2 ^ order + (2 ^ order - 1))
      by (subst last; lia).
    exact Hg.
  - intros k j off Hk Hj Hoff Hbelow.
    destruct (Hin k j ltac:(lia) Hj) as (a & Ha & Hg).
    exists a. split; [exact Ha|].
    rewrite fault_at_page by (try exact Hoff; subst last; nia).
    rewrite Hmark, Z.geb_leb, (proj2 (Z.leb_gt _ _)) by exact Hbelow.
    replace (page + k * 2 ^ order + j) with (page + (k - 0) * 2 ^ order + j) by lia.
    rewrite Hg. reflexivity.
  - intros off Hmk Hoff.
    rewrite fault_at_page by (try exact Hoff; subst last; nia).
    rewrite Hmark, Z.max_r by exact Hmk.
    rewrite Z.geb_leb, (proj2 (Z.leb_le _ _)) by lia. reflexivity.
Qed.

Lemma af_xdp_nic_buffer_table_set_mark_witness :
  exists h' nic' d',
    af_xdp_nic_buffer_table_set example_heap example_nic 0%nat 1 2 [4096000; 8192000]
    = Done (0, h', nic')
    /\ pd_get nic' 5 = Done d'
    /\ used_page_count (umem d') = 11
    /\ fault h' (umem d') (10 * PAGE_SIZE + 0)
       = Done (VM_FAULT_PAGE (C.ulong (8192000 + 2 * PAGE_SIZE)))
    /\ fault h' (umem d') (11 * PAGE_SIZE + 0) = Done VM_FAULT_SIGSEGV.
Proof.
  assert (Htr : umem_tracks example_heap (UmemPages 128 1 0 (Ptr 1%nat)) [2%nat]).
  { split.
    - reflexivity.
    - reflexivity.
    - eexists. vm_compute. reflexivity.
    - apply (bool_decide_unpack _). vm_compute. exact I.
    - apply Forall_singleton. eexists. split; vm_compute; reflexivity. }
  destruct (af_xdp_nic_buffer_table_set_mark example_heap example_nic 0%nat 5 2 0 1 2
              [4096000; 8192000] (Pd (UmemPages 128 1 0 (Ptr 1%nat)) 1 0) [2%nat]
              eq_refl ltac:(vm_compute; split; congruence) ltac:(lia) ltac:(lia)
              eq_refl Htr ltac:(vm_compute; split; congruence) eq_refl
              ltac:(lia) eq_refl ltac:(lia) eq_refl eq_refl
              ltac:(repeat constructor; lia) eq_refl)
    as (h' & nic' & d' & Hrun & Hget & Hmark & _ & Hbelow & Hlast).
  exists h', nic', d'. split; [exact Hrun|]. split; [exact Hget|].
  split; [exact Hmark|]. split.
  - destruct (Hbelow 1 2 0) as (a & Ha & Hf); try (simpl; lia).
    + change PAGE_SIZE with 4096. lia.
    + injection Ha as <-. exact Hf.
  - apply (Hlast 0).
    + simpl. lia.
    + change PAGE_SIZE with 4096. lia.
Defined.

(** * What the buffer table leaves alone *)

Lemma pd_frame_refl owner nic : pd_frame owner nic nic.
Proof. unfold pd_frame. auto. Qed.

Lemma pd_frame_put nic i d : 0 <= i -> pd_frame i nic (pd_put nic i d).
Proof.
  intros Hi. unfold pd_frame.
  split; [unfold pd_put; destruct nic as [[x|] lim]; reflexivity|].
  split; [intros j; apply vi_get_pd_put|].
  intros j Hj. unfold pd_get, pd_put, array_get.
  destruct nic as [[x|] lim]; [|reflexivity]. simpl.
  destruct (j <? 0) eqn:E; [reflexivity|]. apply Z.ltb_ge in E.
  rewrite list_lookup_insert_ne by lia. reflexivity.
Qed.

(** X16: the calls of the buffer table touch one PD only: whatever
    [af_xdp_nic_buffer_table_alloc], [af_xdp_nic_buffer_table_free] and
    [af_xdp_nic_buffer_table_set] return, every VI and every PD other
    than the one of the owner given, or of the owner in the handle of the
    block, is as before. *)
Theorem buffer_table_isolation BS h nic owner order block first_entry n_entries dma_addrs :
  (forall rc blk h' nic',
      af_xdp_nic_buffer_table_alloc BS h nic owner order = Done (rc, blk, h', nic') ->
      pd_frame owner nic nic')
  /\ (forall handle vaddr,
        btb_get h block = Done (handle, vaddr) ->
        (forall h' nic',
            af_xdp_nic_buffer_table_free h nic block = Done (h', nic') ->
            pd_frame (C.sint (Z.shiftr handle 8)) nic nic')
        /\ (forall rc h' nic',
              af_xdp_nic_buffer_table_set h nic block first_entry n_entries dma_addrs
              = Done (rc, h', nic') ->
              pd_frame (C.sint (Z.shiftr handle 8)) nic nic')).
Proof.
  split; [|intros handle vaddr Hblk; split].
  - intros rc blk h' nic'. unfold af_xdp_nic_buffer_table_alloc.
    destruct (pd_by_owner nic owner) as [i|] eqn:Hpd.
    2:{ intros [= _ _ _ <-]. apply pd_frame_refl. }
    apply pd_by_owner_Some in Hpd as (-> & Ho & _).
    destruct (owner >=? _); [intros [= _ _ _ <-]; apply pd_frame_refl|].
    destruct (kalloc (OBtb 0 0) h) as [[b|] h1];
      [|intros [= _ _ _ <-]; apply pd_frame_refl].
    intros H. apply bind_inv in H as (d & _ & H).
    apply bind_inv in H as ([[rc' h3] u] & _ & H).
    destruct (rc' <? 0).
    + apply bind_inv in H as (h4 & _ & H). injection H as _ _ _ <-.
      apply pd_frame_put. lia.
    + injection H as _ _ _ <-. apply pd_frame_put. lia.
  - intros h' nic' H.
    apply af_xdp_nic_buffer_table_free_inv in H as (handle' & vaddr' & Hblk' & H).
    rewrite Hblk in Hblk'. injection Hblk' as <- <-.
    apply xdp_release_pd_inv in H as (d & Hpd & _ & _ & Hcase).
    apply pd_by_owner_Some in Hpd as (_ & Ho & _).
    destruct Hcase as [(_ & _ & ->)|(_ & _ & ->)]; apply pd_frame_put; lia.
  - intros rc h' nic'. unfold af_xdp_nic_buffer_table_set.
    rewrite Hblk, bind_Done. cbv beta iota.
    destruct (pd_by_owner nic _) as [i|] eqn:Hpd.
    2:{ intros [= _ _ <-]. apply pd_frame_refl. }
    apply pd_by_owner_Some in Hpd as (-> & Ho & _).
    intros H. apply bind_inv in H as (d & _ & H).
    destruct (_ >? _); [injection H as _ _ <-; apply pd_frame_refl|].
    apply bind_inv in H as ([[h1 u] p] & _ & H). injection H as _ _ <-.
    apply pd_frame_put. lia.
Qed.

Lemma kfree_None p h h' l :
  kfree p h = Done h' -> objs h !! l = None -> objs h' !! l = None.
Proof.
  unfold kfree. destruct p as [| |a]; try (intros [= <-]; auto).
  destruct (objs h !! a); [|discriminate]. intros [= <-] Hl. simpl.
  apply lookup_delete_None. auto.
Qed.

Lemma umem_pages_free_loop_None u l :
  forall fuel blk h h',
    umem_pages_free_loop fuel u blk h = Done h' ->
    objs h !! l = None -> objs h' !! l = None.
Proof.
  induction fuel as [|fuel IH]; intros blk h h' H Hl.
  - injection H as <-. exact Hl.
  - cbn [umem_pages_free_loop] in H. destruct (blk <? block_count u).
    + apply bind_inv in H as (b & _ & H). apply bind_inv in H as (h1 & Hk & H).
      eapply IH; [exact H|]. eapply kfree_None; [exact Hk|exact Hl].
    + injection H as <-. exact Hl.
Qed.

Lemma umem_pages_free_None h u h' l :
  umem_pages_free h u = Done h' -> objs h !! l = None -> objs h' !! l = None.
Proof.
  unfold umem_pages_free. intros H Hl. apply bind_inv in H as (h1 & Hloop & H).
  eapply kfree_None; [exact H|]. eapply umem_pages_free_loop_None; [exact Hloop|exact Hl].
Qed.

(** X17: a block that has been freed is gone.  When
    [af_xdp_nic_buffer_table_free] returns, the PD of the owner in the
    handle had a block outstanding and the descriptor is released, so
    that freeing or filling the same block again is a use after free;
    unless it was the last outstanding block, nothing else changes: the
    directory keeps every page, those of the freed block too, and only
    the count of freed blocks goes up; with the last block the directory
    is freed and the PD zeroed. *)
Theorem af_xdp_nic_buffer_table_free_spec h nic block h' nic' :
  af_xdp_nic_buffer_table_free h nic block = Done (h', nic') ->
  exists handle vaddr d,
    btb_get h block = Done (handle, vaddr)
    /\ pd_get nic (C.sint (Z.shiftr handle 8)) = Done d
    /\ freed_buffer_table_count d < buffer_table_count d
    /\ objs h' !! block = None
    /\ (forall nic2, af_xdp_nic_buffer_table_free h' nic2 block = Fault WILD_POINTER)
    /\ (forall nic2 first_entry n_entries dma_addrs,
          af_xdp_nic_buffer_table_set h' nic2 block first_entry n_entries dma_addrs
          = Fault WILD_POINTER)
    /\ ((C.slong (freed_buffer_table_count d + 1) <> buffer_table_count d
         /\ objs h' = delete block (objs h)
         /\ pd_get nic' (C.sint (Z.shiftr handle 8))
            = Done (Pd (umem d) (buffer_table_count d)
                       (C.slong (freed_buffer_table_count d + 1))))
        \/ (C.slong (freed_buffer_table_count d + 1) = buffer_table_count d
            /\ umem_pages_free (Heap (delete block (objs h)) (script h)) (umem d) = Done h'
            /\ pd_get nic' (C.sint (Z.shiftr handle 8)) = Done pd_zero)).
Proof.
  intros H.
  apply af_xdp_nic_buffer_table_free_inv in H as (handle & vaddr & Hblk & H).
  apply xdp_release_pd_inv in H as (d & _ & Hget & Hlt & Hcase).
  exists handle, vaddr, d.
  split; [exact Hblk|]. split; [exact Hget|]. split; [exact Hlt|].
  assert (Hgone : objs h' !! block = None).
  { destruct Hcase as [(_ & -> & _)|(_ & Hfree & _)].
    - simpl. apply lookup_delete_eq.
    - eapply umem_pages_free_None; [exact Hfree|]. simpl. apply lookup_delete_eq. }
  split; [exact Hgone|].
  split; [intros nic2; unfold af_xdp_nic_buffer_table_free, btb_get;
          rewrite Hgone; reflexivity|].
  split; [intros nic2 fe ne dma; unfold af_xdp_nic_buffer_table_set, btb_get;
          rewrite Hgone; reflexivity|].
  destruct Hcase as [(Hne & -> & ->)|(He & Hfree & ->)].
  - left. split; [exact Hne|]. split; [reflexivity|]. eapply pd_get_put. exact Hget.
  - right. split; [exact He|]. split; [exact Hfree|]. eapply pd_get_put. exact Hget.
Qed.

Lemma af_xdp_nic_buffer_table_free_spec_witness :
  exists h' nic',
    af_xdp_nic_buffer_table_free example_heap example_nic 0%nat = Done (h', nic')
    /\ af_xdp_nic_buffer_table_free h' nic' 0%nat = Fault WILD_POINTER
    /\ pd_get nic' 5 = Done pd_zero.
Proof.
  eexists _, _. split; [vm_compute; reflexivity|].
  destruct (af_xdp_nic_buffer_table_free_spec example_heap example_nic 0%nat _ _ eq_refl)
    as (handle & vaddr & d & Hblk & Hget & _ & _ & Htwice & _ & Hcase).
  split; [apply Htwice|]. vm_compute. reflexivity.
Defined.

(** * Temporary mappings and the page map *)

Lemma mapped_app t1 t2 : mapped (t1 ++ t2) = mapped t1 ++ mapped t2.
Proof. apply omap_app. Qed.

Lemma unmapped_app t1 t2 : unmapped (t1 ++ t2) = unmapped t1 ++ unmapped t2.
Proof. apply omap_app. Qed.

(** How the creation of one ring can end. *)
Lemma xdp_create_ring_cases e po pm kb cap ds xo k u rc pm' k' u' tr :
  xdp_create_ring e po pm kb cap ds xo k u = (rc, pm', k', u', tr) ->
  (rc = 0
   /\ (exists base,
          pm' = PageMap (n_pages pm + ring_pages e) (lumps pm ++ [(base, ring_pages e)]))
   /\ mapped tr = unmapped tr
   /\ length (mapped tr) = 1%nat)
  \/ (rc < 0 /\ pm' = pm /\ k' = k /\ u' = u
      /\ exists rest, mapped tr = unmapped tr ++ rest /\ (length rest <= 1)%nat).
Proof.
  unfold xdp_create_ring, ring_pages, efhw_page_map_add_lump. intros H.
  destruct (re_setsockopt e <? 0) eqn:E1.
  { injection H as <- <- <- <- <-. right. zbool.
    split; [lia|]. repeat (split; [reflexivity|]). exists []. simpl. auto. }
  destruct (IS_ERR_VALUE (C.ulong (re_vm_mmap e))) eqn:E2.
  { injection H as <- <- <- <- <-. right. apply IS_ERR_VALUE_sint in E2.
    split; [lia|]. repeat (split; [reflexivity|]). eexists [_]. simpl. auto. }
  destruct (re_find_vma e) as [[vs ve]|].
  - destruct (fst (re_follow_pfn e) >=? 0) eqn:E3.
    + destruct (re_add_lump e <? 0) eqn:E4; simpl in H.
      * rewrite E4 in H. injection H as <- <- <- <- <-. right. zbool.
        split; [lia|]. repeat (split; [reflexivity|]). exists []. simpl. auto.
      * injection H as <- <- <- <- <-. left.
        split; [reflexivity|]. split; [eauto|]. simpl. auto.
    + destruct (fst (re_follow_pfn e) <? 0) eqn:E4; zbool; [|lia].
      injection H as <- <- <- <- <-. right.
      split; [lia|]. repeat (split; [reflexivity|]). exists []. simpl. auto.
  - simpl in H. injection H as <- <- <- <- <-. right. unfold EFAULT.
    split; [lia|]. repeat (split; [reflexivity|]). exists []. simpl. auto.
Qed.

(** The mappings of the four rings. *)
Lemma xdp_create_rings_maps e pm kb rxc txc k u rc pm' k' u' tr :
  xdp_create_rings e pm kb rxc txc k u = (rc, pm', k', u', tr) ->
  (rc = 0 \/ rc < 0)
  /\ exists rest,
       mapped tr = unmapped tr ++ rest
       /\ (length rest <= 1)%nat
       /\ (rc = 0 -> rest = [] /\ length (mapped tr) = 4%nat).
Proof.
  unfold xdp_create_rings. intros H.
  destruct (e_getsockopt e) as [rc0 mo].
  destruct (rc0 <? 0) eqn:E0.
  { injection H as <- <- <- <- <-. zbool. split; [lia|].
    exists []. simpl. split; [reflexivity|]. split; [lia|]. intros; lia. }
  destruct (xdp_create_ring (e_rx e) _ _ _ _ _ _ _ _) as [[[[r1 pm1] k1] u1] t1] eqn:R1.
  apply xdp_create_ring_cases in R1
    as [(-> & _ & M1 & L1)|(N1 & _ & _ & _ & rest & M1 & L1)].
  2:{ rewrite (proj2 (Z.ltb_lt r1 0) N1) in H. injection H as <- <- <- <- <-.
      split; [lia|].
      exists rest. simpl. split; [exact M1|]. split; [exact L1|]. intros; lia. }
  change (0 <? 0) with false in H. cbv iota in H.
  destruct (xdp_create_ring (e_tx e) _ _ _ _ _ _ _ _) as [[[[r2 pm2] k2] u2] t2] eqn:R2.
  apply xdp_create_ring_cases in R2
    as [(-> & _ & M2 & L2)|(N2 & _ & _ & _ & rest & M2 & L2)].
  2:{ rewrite (proj2 (Z.ltb_lt r2 0) N2) in H. injection H as <- <- <- <- <-.
      split; [lia|]. exists rest. simpl.
      rewrite mapped_app, unmapped_app, M1, M2, app_assoc.
      split; [reflexivity|]. split; [exact L2|]. intros; lia. }
  change (0 <? 0) with false in H. cbv iota in H.
  destruct (xdp_create_ring (e_fr e) _ _ _ _ _ _ _ _) as [[[[r3 pm3] k3] u3] t3] eqn:R3.
  apply xdp_create_ring_cases in R3
    as [(-> & _ & M3 & L3)|(N3 & _ & _ & _ & rest & M3 & L3)].
  2:{ rewrite (proj2 (Z.ltb_lt r3 0) N3) in H. injection H as <- <- <- <- <-.
      split; [lia|]. exists rest. simpl.
      rewrite !mapped_app, !unmapped_app, M1, M2, M3, !app_assoc.
      split; [reflexivity|]. split; [exact L3|]. intros; lia. }
  change (0 <? 0) with false in H. cbv iota in H.
  destruct (xdp_create_ring (e_cr e) _ _ _ _ _ _ _ _) as [[[[r4 pm4] k4] u4] t4] eqn:R4.
  apply xdp_create_ring_cases in R4
    as [(-> & _ & M4 & L4)|(N4 & _ & _ & _ & rest & M4 & L4)].
  2:{ rewrite (proj2 (Z.ltb_lt r4 0) N4) in H. injection H as <- <- <- <- <-.
      split; [lia|]. exists rest. simpl.
      rewrite !mapped_app, !unmapped_app, M1, M2, M3, M4, !app_assoc.
      split; [reflexivity|]. split; [exact L4|]. intros; lia. }
  change (0 <? 0) with false in H. cbv iota in H.
  injection H as <- <- <- <- <-.
  split; [lia|]. exists []. simpl.
  rewrite !mapped_app, !unmapped_app, !length_app, M1, M2, M3, M4, app_nil_r.
  rewrite <- M1, <- M2, <- M3, <- M4, L1, L2, L3, L4. auto.
Qed.

Ltac rings_added :=
  eexists; simpl; rewrite <- ?app_assoc;
  split; [first [reflexivity | symmetry; apply app_nil_r]|];
  split; [simpl; lia|]; split; [simpl; lia|];
  split; intros; simpl in *; first [lia | discriminate | reflexivity].

(** X18: [xdp_create_rings] returns 0 or a negative value; the page map
    only grows, by one lump for each ring created, which are all four
    exactly when the result is 0; the offsets of the completion ring are
    written only then; and every temporary mapping but possibly the last
    one made is removed again, all four of them when the result is 0. *)
Theorem xdp_create_rings_outcome e pm kb rxc txc k u rc pm' k' u' tr :
  xdp_create_rings e pm kb rxc txc k u = (rc, pm', k', u', tr) ->
  (rc = 0 \/ rc < 0)
  /\ (exists added,
         lumps pm' = lumps pm ++ added
         /\ n_pages pm' = n_pages pm + foldr Z.add 0 (snd <$> added)
         /\ (length added <= 4)%nat
         /\ (rc = 0 <-> length added = 4%nat))
  /\ (rc < 0 -> ring_cr k' = ring_cr k /\ ring_cr u' = ring_cr u)
  /\ (exists rest,
         mapped tr = unmapped tr ++ rest
         /\ (length rest <= 1)%nat
         /\ (rc = 0 -> rest = [] /\ length (mapped tr) = 4%nat)).
Proof.
  intros H. destruct (xdp_create_rings_maps _ _ _ _ _ _ _ _ _ _ _ _ H) as [Hrc Hmaps].
  split; [exact Hrc|]. split; [|split; [|exact Hmaps]]; clear Hrc Hmaps.
  - unfold xdp_create_rings in H.
    destruct (e_getsockopt e) as [rc0 mo].
    destruct (rc0 <? 0) eqn:E0; [injection H as <- <- <- <- <-; zbool; rings_added|].
    destruct (xdp_create_ring (e_rx e) _ _ _ _ _ _ _ _) as [[[[r1 pm1] k1] u1] t1] eqn:R1.
    apply xdp_create_ring_cases in R1 as [(-> & [b1 ->] & _)|(N1 & -> & _)].
    2:{ rewrite (proj2 (Z.ltb_lt r1 0) N1) in H. injection H as <- <- <- <- <-.
        rings_added. }
    change (0 <? 0) with false in H. cbv iota in H.
    destruct (xdp_create_ring (e_tx e) _ _ _ _ _ _ _ _) as [[[[r2 pm2] k2] u2] t2] eqn:R2.
    apply xdp_create_ring_cases in R2 as [(-> & [b2 ->] & _)|(N2 & -> & _)].
    2:{ rewrite (proj2 (Z.ltb_lt r2 0) N2) in H. injection H as <- <- <- <- <-.
        rings_added. }
    change (0 <? 0) with false in H. cbv iota in H.
    destruct (xdp_create_ring (e_fr e) _ _ _ _ _ _ _ _) as [[[[r3 pm3] k3] u3] t3] eqn:R3.
    apply xdp_create_ring_cases in R3 as [(-> & [b3 ->] & _)|(N3 & -> & _)].
    2:{ rewrite (proj2 (Z.ltb_lt r3 0) N3) in H. injection H as <- <- <- <- <-.
        rings_added. }
    change (0 <? 0) with false in H. cbv iota in H.
    destruct (xdp_create_ring (e_cr e) _ _ _ _ _ _ _ _) as [[[[r4 pm4] k4] u4] t4] eqn:R4.
    apply xdp_create_ring_cases in R4 as [(-> & [b4 ->] & _)|(N4 & -> & _)].
    2:{ rewrite (proj2 (Z.ltb_lt r4 0) N4) in H. injection H as <- <- <- <- <-.
        rings_added. }
    change (0 <? 0) with false in H. cbv iota in H.
    injection H as <- <- <- <- <-. rings_added.
  - intros Hneg. unfold xdp_create_rings in H.
    destruct (e_getsockopt e) as [rc0 mo].
    destruct (rc0 <? 0); [injection H as _ _ <- <- _; auto|].
    destruct (xdp_create_ring (e_rx e) _ _ _ _ _ _ _ _) as [[[[r1 pm1] k1] u1] t1].
    destruct (r1 <? 0); [injection H as _ _ <- <- _; auto|]. simpl in H.
    destruct (xdp_create_ring (e_tx e) _ _ _ _ _ _ _ _) as [[[[r2 pm2] k2] u2] t2].
    destruct (r2 <? 0); [injection H as _ _ <- <- _; auto|]. simpl in H.
    destruct (xdp_create_ring (e_fr e) _ _ _ _ _ _ _ _) as [[[[r3 pm3] k3] u3] t3].
    destruct (r3 <? 0); [injection H as _ _ <- <- _; auto|]. simpl in H.
    destruct (xdp_create_ring (e_cr e) _ _ _ _ _ _ _ _) as [[[[r4 pm4] k4] u4] t4] eqn:R4.
    apply xdp_create_ring_cases in R4 as [(-> & _)|(N4 & _ & -> & -> & _)].
    + change (0 <? 0) with false in H. cbv iota in H. injection H as <- _ _ _ _. lia.
    + rewrite (proj2 (Z.ltb_lt r4 0) N4) in H. injection H as _ _ <- <- _. auto.
Qed.

Lemma xdp_create_rings_outcome_witness :
  exists pm' k' u' tr,
    xdp_create_rings env0 (PageMap 1 [(8192, 1)]) 0 128 128
      (rings offsets_zero) (rings offsets_zero) = (0, pm', k', u', tr)
    /\ mapped tr = unmapped tr
    /\ length (mapped tr) = 4%nat.
Proof.
  eexists _, _, _, _. split; [vm_compute; reflexivity|].
  destruct (xdp_create_rings_outcome env0 (PageMap 1 [(8192, 1)]) 0 128 128
              (rings offsets_zero) (rings offsets_zero) _ _ _ _ _ eq_refl)
    as (_ & _ & _ & rest & Hm & _ & Hz).
  destruct (Hz eq_refl) as [-> Hl]. rewrite app_nil_r in Hm. split; [exact Hm|exact Hl].
Defined.

(** The mapping of the user memory: removed again when the registration
    is reached; it stays when [vm_mmap] fails or the area is not found. *)
Lemma xdp_register_umem_cases e pages chunk_size headroom r tu :
  xdp_register_umem e pages chunk_size headroom = (r, tu) ->
  offset_in_page (C.ulong (e_umem_mmap e)) = 0
  \/ C.sint (C.ulong (e_umem_mmap e)) < 0 ->
  mapped tu = [C.ulong (Z.shiftl (used_page_count pages) PAGE_SHIFT)]
  /\ ((r = Done (e_umem_reg e) /\ unmapped tu = mapped tu)
      \/ (unmapped tu = [] /\ forall rc, r = Done rc -> rc < 0)).
Proof.
  unfold xdp_register_umem. intros H Hal.
  destruct (offset_in_page (C.ulong (e_umem_mmap e)) =? 0) eqn:E; simpl in H.
  - destruct (e_umem_vma e) as [vs|].
    + destruct (vs =? C.ulong (e_umem_mmap e)); simpl in H; injection H as <- <-.
      * split; [reflexivity|]. left. split; reflexivity.
      * split; [reflexivity|]. right. split; [reflexivity|]. intros rc [=].
    + injection H as <- <-. split; [reflexivity|]. right.
      split; [reflexivity|]. intros rc [=].
  - injection H as <- <-. split; [reflexivity|]. right. split; [reflexivity|].
    intros rc [= <-]. apply Z.eqb_neq in E. destruct Hal as [Hal|Hal]; [contradiction|exact Hal].
Qed.

Ltac unmap_exit H :=
  injection H as <- <-; simpl;
  rewrite ?mapped_app, ?unmapped_app; simpl;
  first [ exists []; rewrite ?app_nil_r; simpl;
          split; [reflexivity|]; split; [lia|]; intros [= ?]; zbool; lia
        | idtac ].

(** X19: [af_xdp_init] removes each temporary mapping it makes before it
    makes the next one or returns, except for a mapping that failed or
    that the kernel cannot find again, after which it stops: as long as
    [vm_mmap] yields a page-aligned address or an error for the user
    memory, the mappings removed are the mappings made, but possibly the
    last, at every exit; a successful activation made five and left
    none. *)
Theorem af_xdp_init_unmaps t e nic instance chunk_size headroom pm r st :
  af_xdp_init t e nic instance chunk_size headroom pm = (r, st) ->
  offset_in_page (C.ulong (e_umem_mmap e)) = 0
  \/ C.sint (C.ulong (e_umem_mmap e)) < 0 ->
  exists rest,
    mapped (is_trace st) = unmapped (is_trace st) ++ rest
    /\ (length rest <= 1)%nat
    /\ (r = Rc 0 -> rest = [] /\ length (mapped (is_trace st)) = 5%nat).
Proof.
  intros H Hal.
  assert (Hsame : forall r0,
             r0 <> Rc 0 ->
             (r0, InitState nic pm None []) = (r, st) ->
             exists rest,
               mapped (is_trace st) = unmapped (is_trace st) ++ rest
               /\ (length rest <= 1)%nat
               /\ (r = Rc 0 -> rest = [] /\ length (mapped (is_trace st)) = 5%nat)).
  { intros r0 Hr0 [= <- <-]. exists []. simpl.
    split; [reflexivity|]. split; [lia|]. intros E. contradiction. }
  unfold af_xdp_init in H.
  destruct (_ || _ || _ || _); [(eapply Hsame; [|exact H]; discriminate)|].
  destruct (vi_by_instance t nic instance) as [i|];
    [|(eapply Hsame; [|exact H]; discriminate)].
  destruct (vi_get nic i) as [v|f]; [|(eapply Hsame; [|exact H]; discriminate)].
  destruct (sock v); [(eapply Hsame; [|exact H]; discriminate)|].
  clear Hsame. unfold af_xdp_init_resources in H.
  destruct (e_sock_create e) as [rc sk].
  destruct (rc <? 0) eqn:E1; [unmap_exit H|].
  destruct (IS_ERR_VALUE (C.ulong (e_sock_alloc_file e))) eqn:E2.
  { injection H as <- <-. simpl. exists []. simpl.
    pose proof (IS_ERR_VALUE_negative _ E2).
    split; [reflexivity|]. split; [lia|]. intros [= ?]. lia. }
  destruct (e_page_alloc e) as [rc1 page].
  destruct (rc1 <? 0) eqn:E3; [unmap_exit H|].
  unfold efhw_page_map_add_page, efhw_page_map_add_lump in H.
  destruct (e_add_page e <? 0) eqn:E4; [rewrite E4 in H; unmap_exit H|].
  change (0 <? 0) with false in H. cbv iota in H.
  destruct (match pd_by_owner nic (owner_id v) with
            | Some i0 => pd_get nic i0 ≫= λ d, Done (umem d)
            | None => Fault NULL_DEREF
            end) as [pages|f].
  2:{ injection H as <- <-. simpl. exists []. simpl.
      split; [reflexivity|]. split; [lia|]. intros [=]. }
  destruct (xdp_register_umem e pages chunk_size headroom) as [ru tu] eqn:U.
  apply xdp_register_umem_cases in U as [Mu Hu]; [|exact Hal].
  destruct Hu as [(-> & Uu)|(Uu & Hneg)].
  2:{ destruct ru as [rc2|f].
      - pose proof (Hneg rc2 eq_refl) as N.
        rewrite (proj2 (Z.ltb_lt rc2 0) N) in H. injection H as <- <-. simpl.
        rewrite ?mapped_app, ?unmapped_app; rewrite Uu, Mu. simpl. eexists [_].
        split; [reflexivity|]. split; [simpl; lia|]. intros [= ?]. lia.
      - injection H as <- <-. simpl.
        rewrite ?mapped_app, ?unmapped_app; rewrite Uu, Mu. simpl. eexists [_].
        split; [reflexivity|]. split; [simpl; lia|]. intros [=]. }
  destruct (e_umem_reg e <? 0) eqn:E5.
  { injection H as <- <-. simpl. rewrite ?mapped_app, ?unmapped_app; rewrite Uu. simpl.
    exists []. rewrite app_nil_r. split; [reflexivity|]. split; [simpl; lia|].
    intros [= ?]. zbool. lia. }
  simpl in H.
  destruct (xdp_create_rings _ _ _ _ _ _ _) as [[[[rc3 pm2] k] u] tr] eqn:R.
  apply xdp_create_rings_maps in R as (Hrc3 & rest & Mr & Lr & Hok).
  destruct (rc3 <? 0) eqn:E6.
  { injection H as <- <-. simpl. rewrite ?mapped_app, ?unmapped_app; rewrite Uu, Mr. simpl.
    exists rest. rewrite !app_assoc. split; [reflexivity|]. split; [exact Lr|].
    intros [= ?]. zbool. lia. }
  zbool. destruct (Hok ltac:(lia)) as [-> L4]. rewrite app_nil_r in Mr.
  destruct (e_map_update e <? 0) eqn:E7.
  { injection H as <- <-. simpl. rewrite ?mapped_app, ?unmapped_app; rewrite Uu, Mr. simpl.
    exists []. rewrite !app_nil_r. split; [reflexivity|]. split; [simpl; lia|].
    intros [= ?]. zbool. lia. }
  destruct (e_bind e <? 0) eqn:E8.
  { injection H as <- <-. simpl. rewrite ?mapped_app, ?unmapped_app; rewrite Uu, Mr. simpl.
    exists []. rewrite !app_nil_r. split; [reflexivity|]. split; [simpl; lia|].
    intros [= ?]. zbool. lia. }
  injection H as <- <-. simpl. rewrite ?mapped_app, ?unmapped_app; rewrite Uu, Mr. simpl.
  exists []. rewrite !app_nil_r. split; [reflexivity|]. split; [simpl; lia|].
  intros _. split; [reflexivity|].
  rewrite !length_app, <- Mr, L4, Mu. reflexivity.
Qed.

Lemma af_xdp_init_unmaps_witness :
  exists st,
    af_xdp_init Unsigned env0
      (vi_put (nic_init 2 0) 0 (Vi None 5 128 128 0 offsets_zero None))
      0 2048 0 (PageMap 0 []) = (Rc 0, st)
    /\ mapped (is_trace st) = unmapped (is_trace st)
    /\ length (mapped (is_trace st)) = 5%nat.
Proof.
  eexists. split; [vm_compute; reflexivity|].
  destruct (af_xdp_init_unmaps Unsigned env0
              (vi_put (nic_init 2 0) 0 (Vi None 5 128 128 0 offsets_zero None))
              0 2048 0 (PageMap 0 []) _ _ eq_refl (or_introl eq_refl))
    as (rest & Hm & _ & Hz).
  destruct (Hz eq_refl) as [-> Hl]. rewrite app_nil_r in Hm. split; [exact Hm|exact Hl].
Defined.

Lemma xdp_register_umem_mapped e pages chunk_size headroom :
  mapped (snd (xdp_register_umem e pages chunk_size headroom))
  = [C.ulong (Z.shiftl (used_page_count pages) PAGE_SHIFT)].
Proof.
  unfold xdp_register_umem.
  destruct (negb _); [reflexivity|].
  destruct (e_umem_vma e) as [vs|]; [|reflexivity].
  destruct (negb _); reflexivity.
Qed.

Lemma mapped_started tl :
  mapped (SockCreate :: SockAllocFile :: PageAllocZeroed :: PageMapAdd :: tl) = mapped tl.
Proof. reflexivity. Qed.

(** X20: the user memory an activation registers is the directory of the
    PD of the owner that the queue configuration stored in the VI, up to
    its mark: once the socket, its file and the offsets page are there,
    the first mapping [af_xdp_init] makes has the length
    [used_page_count << PAGE_SHIFT] of that directory, however the call
    ends afterwards. *)
Theorem af_xdp_init_umem_length t e nic instance chunk_size headroom pm v d r st :
  0 < chunk_size -> chunk_size <= PAGE_SIZE -> PAGE_SIZE mod chunk_size = 0 ->
  headroom <= chunk_size ->
  vi_by_instance t nic instance = Some instance ->
  vi_get nic instance = Done v ->
  sock v = None ->
  0 <= owner_id v <= MAX_PDS ->
  pd_get nic (owner_id v) = Done d ->
  0 <= fst (e_sock_create e) ->
  IS_ERR_VALUE (C.ulong (e_sock_alloc_file e)) = false ->
  0 <= fst (e_page_alloc e) ->
  0 <= e_add_page e ->
  af_xdp_init t e nic instance chunk_size headroom pm = (r, st) ->
  exists rest,
    mapped (is_trace st)
    = C.ulong (Z.shiftl (used_page_count (umem d)) PAGE_SHIFT) :: rest.
Proof.
  intros H0 H1 H2 H3 Hvi Hget Hsock Ho Hpd Hc Hf Hp Ha H.
  unfold af_xdp_init in H.
  rewrite (sizing_accepted _ _ H0 H1 H2 H3), Hvi, Hget, Hsock in H.
  rewrite (pd_by_owner_in_range nic (owner_id v) d Ho Hpd) in H.
  unfold af_xdp_init_resources in H.
  destruct (e_sock_create e) as [rc sk]. simpl in Hc.
  rewrite (proj2 (Z.ltb_ge rc 0) Hc), Hf in H.
  destruct (e_page_alloc e) as [rc1 page]. simpl in Hp.
  rewrite (proj2 (Z.ltb_ge rc1 0) Hp) in H.
  unfold efhw_page_map_add_page, efhw_page_map_add_lump in H.
  rewrite (proj2 (Z.ltb_ge _ 0) Ha) in H.
  change (0 <? 0) with false in H. cbv iota in H.
  rewrite Hpd, bind_Done in H.
  pose proof (xdp_register_umem_mapped e (umem d) chunk_size headroom) as Mu.
  destruct (xdp_register_umem e (umem d) chunk_size headroom) as [ru tu].
  simpl in Mu.
  destruct ru as [rc2|f].
  2:{ injection H as _ <-. cbn [is_trace]. rewrite mapped_started, ?mapped_app, Mu. simpl. eauto. }
  destruct (rc2 <? 0).
  { injection H as _ <-. cbn [is_trace]. rewrite mapped_started, ?mapped_app, Mu. simpl. eauto. }
  simpl in H.
  destruct (xdp_create_rings _ _ _ _ _ _ _) as [[[[rc3 pm2] k] u] tr].
  destruct (rc3 <? 0).
  { injection H as _ <-. cbn [is_trace]. rewrite mapped_started, ?mapped_app, Mu. simpl. eauto. }
  destruct (e_map_update e <? 0).
  { injection H as _ <-. cbn [is_trace]. rewrite mapped_started, ?mapped_app, Mu. simpl. eauto. }
  destruct (e_bind e <? 0); injection H as _ <-; cbn [is_trace];
    rewrite mapped_started, ?mapped_app, Mu; simpl; eauto.
Qed.

Lemma af_xdp_init_umem_length_witness :
  exists st rest,
    af_xdp_init Unsigned env0
      (vi_put (nic_init 2 0) 0 (Vi None 5 128 128 0 offsets_zero None))
      0 2048 0 (PageMap 0 []) = (Rc 0, st)
    /\ mapped (is_trace st) = C.ulong (Z.shiftl 0 PAGE_SHIFT) :: rest.
Proof.
  eexists.
  destruct (af_xdp_init_umem_length Unsigned env0
              (vi_put (nic_init 2 0) 0 (Vi None 5 128 128 0 offsets_zero None))
              0 2048 0 (PageMap 0 []) (Vi None 5 128 128 0 offsets_zero None) pd_zero
              _ _ ltac:(lia) ltac:(vm_compute; congruence) eq_refl ltac:(lia)
              eq_refl eq_refl eq_refl ltac:(vm_compute; split; congruence) eq_refl
              ltac:(simpl; lia) eq_refl ltac:(simpl; lia) ltac:(simpl; lia) eq_refl)
    as [rest Hm].
  exists rest. split; [vm_compute; reflexivity|exact Hm].
Defined.

(** * The extent of a block *)

(** X21: [af_xdp_nic_buffer_table_set] checks the range against the page
    count of the whole directory, not against the pages of the block it
    is given: with a second block of the same owner behind the first,
    filling the entry of the first block that follows its last one
    succeeds and stores the address in the first page of the second
    block. *)
Theorem af_xdp_nic_buffer_table_set_beyond_block
  BS h nic b1 b2 owner o1 hd2 vaddr2 base d bs a :
  btb_get h b1 = Done (btb_handle owner o1, base * PAGE_SIZE) ->
  btb_get h b2 = Done (hd2, vaddr2) ->
  vaddr2 = (base + BS * 2 ^ o1) * PAGE_SIZE ->
  0 <= owner < MAX_PDS ->
  0 <= o1 <= 10 ->
  0 <= base < 2 ^ 50 ->
  0 < BS -> BS * 2 ^ o1 < 2 ^ 31 ->
  pd_get nic owner = Done d ->
  umem_tracks h (umem d) bs ->
  0 <= page_count (umem d) <= block_count (umem d) * UMEM_BLOCK ->
  block_count (umem d) * UMEM_BLOCK < 2 ^ 62 ->
  base + BS * 2 ^ o1 + 2 ^ o1 <= page_count (umem d) ->
  0 <= a < 2 ^ 64 ->
  exists h' nic' d',
    af_xdp_nic_buffer_table_set h nic b1 BS 1 [a] = Done (0, h', nic')
    /\ pd_get nic' owner = Done d'
    /\ umem_pages_get_addr h' (umem d') (Z.shiftr vaddr2 PAGE_SHIFT) = Done a
    /\ btb_get h' b2 = Done (hd2, vaddr2).
Proof.
  intros Hb1 Hb2 -> Ho Hord Hbase HBS Hs Hget Htr Hpc Hcap Hfit Ha.
  destruct (one_shl o1 Hord) as [_ Hpow].
  rewrite (af_xdp_nic_buffer_table_set_unfold h nic b1 owner o1 base BS 1 [a] d
             Hb1 Ho Hord Hbase Hget ltac:(lia) ltac:(lia) Hs ltac:(lia) ltac:(lia)).
  rewrite Z.gtb_ltb, (proj2 (Z.ltb_ge _ _)) by lia.
  destruct (buffer_table_set_entries_spec bs o1 Hord (Z.to_nat 1) 1 0 [a] h (umem d)
              (base + BS * 2 ^ o1) Htr ltac:(lia) ltac:(lia) ltac:(lia)
              ltac:(simpl; lia) ltac:(repeat constructor; lia) ltac:(nia) ltac:(lia) Hcap)
    as (h' & u' & Hrun & Htr' & _ & _ & Hin & _ & Hfr).
  rewrite Hrun, bind_Done. cbv beta iota.
  eexists h', _, _. split; [reflexivity|].
  split; [eapply pd_get_put; exact Hget|]. simpl. split.
  - destruct (Hin 0 0 ltac:(lia) ltac:(lia)) as (a' & Ha' & Hg).
    injection Ha' as <-.
    change PAGE_SHIFT with 12. change PAGE_SIZE with 4096 in *.
    rewrite Z.shiftr_div_pow2 by lia. change (2 ^ 12) with 4096.
    rewrite Z.div_mul by lia.
    replace (base + BS * 2 ^ o1 + (0 - 0) * 2 ^ o1 + 0) with (base + BS * 2 ^ o1) in Hg
      by lia.
    rewrite Hg. replace (a + 0 * 4096) with a by lia. rewrite ulong_small by lia.
    reflexivity.
  - unfold btb_get in *. rewrite Hfr; [exact Hb2|].
    intros Hin2.
    destruct (umem_tracks_live h (umem d) bs b2 Htr) as (o & Hl & Hno).
    + unfold owned. apply elem_of_app. right. exact Hin2.
    + rewrite Hl in Hb2. destruct o; try discriminate.
      eapply Hno. reflexivity.
Qed.

Lemma af_xdp_nic_buffer_table_set_beyond_block_witness :
  exists h' nic' d',
    af_xdp_nic_buffer_table_set example_heap2 example_nic2 0%nat 32 1 [4096000]
    = Done (0, h', nic')
    /\ pd_get nic' 5 = Done d'
    /\ umem_pages_get_addr h' (umem d') (Z.shiftr (128 * 4096) PAGE_SHIFT) = Done 4096000
    /\ btb_get h' 3%nat = Done (btb_handle 5 2, 128 * 4096).
Proof.
  apply (af_xdp_nic_buffer_table_set_beyond_block 32 example_heap2 example_nic2
           0%nat 3%nat 5 2 (btb_handle 5 2) (128 * 4096) 0
           (Pd (UmemPages 256 1 0 (Ptr 1%nat)) 2 0) [2%nat]).
  - reflexivity.
  - reflexivity.
  - reflexivity.
  - vm_compute. split; congruence.
  - lia.
  - lia.
  - lia.
  - reflexivity.
  - reflexivity.
  - split.
    + reflexivity.
    + reflexivity.
    + eexists. vm_compute. reflexivity.
    + apply (bool_decide_unpack _). vm_compute. exact I.
    + apply Forall_singleton. eexists. split; vm_compute; reflexivity.
  - vm_compute. split; congruence.
  - reflexivity.
  - vm_compute. congruence.
  - lia.
Defined.
